(** * Tegen: the dependency install pipeline of [PackageManager]

    A shallow embedding of [package_manager.hpp] (the revision with the
    platform branches, the [lib/] descent and the CMakeLists patch) and of
    [main.cpp].  The file system is a tree rooted at the current working
    directory, of regular files and directories (no links, no permissions),
    its entries iterated in the order the tree lists them; the external
    programs ([git], [cmake], the built target), the JSON library and the
    failures of [remove_all] are an environment the program is run in. *)

From Stdlib Require Import String Ascii List ZArith Lia Bool DecimalString
  Permutation.
Import ListNotations.
Open Scope string_scope.

(* ================================================================== *)
(** ** Strings and path components *)

Definition nl : string := String (ascii_of_nat 10) EmptyString.
Definition dquote : string := String (ascii_of_nat 34) EmptyString.

(** A path is the list of its components below the current directory. *)
Definition path := list string.

(** [std::filesystem::path::filename]: the last component. *)
Definition filename (p : path) : string := last p "".

(** [path::parent_path]. *)
Definition parent_path (p : path) : path := removelast p.

(** The substring that starts at the rightmost period of [s], if any. *)
Fixpoint from_last_dot (s : string) : option string :=
  match s with
  | EmptyString => None
  | String c t =>
      match from_last_dot t with
      | Some e => Some e
      | None => if Ascii.eqb c "."%char then Some s else None
      end
  end.

(** [path::extension] of a file name: from the rightmost period to the end;
    a period in first position does not start an extension, and the special
    names dot and dot-dot have none. *)
Definition extension (name : string) : string :=
  match name with
  | EmptyString => ""
  | String _ t =>
      if (name =? ".") || (name =? "..") then ""
      else match from_last_dot t with
           | Some e => e
           | None => ""
           end
  end.

(** The test of both library loops: [extension() == ".a" || extension() == ".lib"]. *)
Definition is_static_lib (name : string) : bool :=
  (extension name =? ".a") || (extension name =? ".lib").

(** [std::filesystem::relative(p, base)] for [p] below [base]. *)
Fixpoint relative (p base : path) : path :=
  match base, p with
  | [], _ => p
  | b :: base', x :: p' => if x =? b then relative p' base' else p
  | _ :: _, [] => p
  end.

(* ================================================================== *)
(** ** The file system *)

#[warnings="-register-all"]
Inductive node : Type :=
| File (content : string)
| Dir (entries : list (string * node)).

Definition entries := list (string * node).

Fixpoint find_entry (name : string) (es : entries) : option node :=
  match es with
  | [] => None
  | (k, v) :: rest => if k =? name then Some v else find_entry name rest
  end.

(** Replaces the entry called [name], or adds it after the others. *)
Fixpoint set_entry (name : string) (v : node) (es : entries) : entries :=
  match es with
  | [] => [(name, v)]
  | (k, x) :: rest =>
      if k =? name then (k, v) :: rest else (k, x) :: set_entry name v rest
  end.

Fixpoint remove_entry (name : string) (es : entries) : entries :=
  match es with
  | [] => []
  | (k, x) :: rest =>
      if k =? name then rest else (k, x) :: remove_entry name rest
  end.

Fixpoint lookup (n : node) (p : path) : option node :=
  match p with
  | [] => Some n
  | x :: q =>
      match n with
      | File _ => None
      | Dir es =>
          match find_entry x es with
          | Some c => lookup c q
          | None => None
          end
      end
  end.

(** Stores [v] at [p]; the parent of [p] has to be a directory. *)
Fixpoint put (n : node) (p : path) (v : node) : option node :=
  match p with
  | [] => Some v
  | x :: q =>
      match n with
      | File _ => None
      | Dir es =>
          match q with
          | [] => Some (Dir (set_entry x v es))
          | _ :: _ =>
              match find_entry x es with
              | Some c =>
                  match put c q v with
                  | Some c' => Some (Dir (set_entry x c' es))
                  | None => None
                  end
              | None => None
              end
          end
      end
  end.

(** Removes what is at [p], if anything. *)
Fixpoint delete (n : node) (p : path) : node :=
  match p with
  | [] => n
  | x :: q =>
      match n with
      | File _ => n
      | Dir es =>
          match q with
          | [] => Dir (remove_entry x es)
          | _ :: _ =>
              match find_entry x es with
              | Some c => Dir (set_entry x (delete c q) es)
              | None => n
              end
          end
      end
  end.

Definition exists_ (fs : node) (p : path) : bool :=
  match lookup fs p with Some _ => true | None => false end.

Definition is_directory (fs : node) (p : path) : bool :=
  match lookup fs p with Some (Dir _) => true | _ => false end.

Definition is_regular_file (fs : node) (p : path) : bool :=
  match lookup fs p with Some (File _) => true | _ => false end.

(** Every node strictly below [n], parents before children, with its path
    relative to [n]: the order of [recursive_directory_iterator]. *)
Fixpoint walk (n : node) : list (path * node) :=
  match n with
  | File _ => []
  | Dir es =>
      flat_map
        (fun e => ([fst e], snd e)
                  :: map (fun d => (fst e :: fst d, snd d)) (walk (snd e)))%list
        es
  end.

(* ================================================================== *)
(** ** Exceptions *)

Inductive exn : Type :=
| runtime_error (what : string)
| filesystem_error (what : string) (p : path)
| json_exception (what : string).

Inductive res (A : Type) : Type :=
| Ok (a : A)
| Throw (e : exn).
Arguments Ok {A} a.
Arguments Throw {A} e.

(** [std::filesystem::create_directories]: makes every missing component;
    an existing directory is left as it is, a component that exists and is
    not a directory is an error. *)
Fixpoint create_directories_at (n : node) (p : path) : option node :=
  match n with
  | File _ => None
  | Dir es =>
      match p with
      | [] => Some n
      | x :: q =>
          let c := match find_entry x es with
                   | Some c => c
                   | None => Dir []
                   end in
          match create_directories_at c q with
          | Some c' => Some (Dir (set_entry x c' es))
          | None => None
          end
      end
  end.

Definition create_directories (fs : node) (p : path) : res node :=
  match create_directories_at fs p with
  | Some fs' => Ok fs'
  | None => Throw (filesystem_error "cannot create directories" p)
  end.

(** [std::filesystem::create_directory]: one level; the parent has to exist. *)
Definition create_directory (fs : node) (p : path) : res node :=
  match lookup fs p with
  | Some (Dir _) => Ok fs
  | Some (File _) => Throw (filesystem_error "cannot create directory" p)
  | None =>
      if is_directory fs (parent_path p) then
        match put fs p (Dir []) with
        | Some fs' => Ok fs'
        | None => Throw (filesystem_error "cannot create directory" p)
        end
      else Throw (filesystem_error "cannot create directory" p)
  end.

(** [std::filesystem::copy_file(from, to, copy_options::overwrite_existing)]. *)
Definition copy_file (fs : node) (from to : path) : res node :=
  match lookup fs from with
  | Some (File c) =>
      match lookup fs to with
      | Some (Dir _) => Throw (filesystem_error "cannot copy file" to)
      | _ =>
          if is_directory fs (parent_path to) then
            match to, put fs to (File c) with
            | _ :: _, Some fs' => Ok fs'
            | _, _ => Throw (filesystem_error "cannot copy file" to)
            end
          else Throw (filesystem_error "cannot copy file" to)
      end
  | _ => Throw (filesystem_error "cannot copy file" from)
  end.

(** [std::filesystem::directory_iterator(p)]: the paths of the entries. *)
Definition directory_iterator (fs : node) (p : path) : res (list path) :=
  match lookup fs p with
  | Some (Dir es) => Ok (map (fun e => (p ++ [fst e])%list) es)
  | _ => Throw (filesystem_error "directory iterator cannot open directory" p)
  end.

(** [std::filesystem::recursive_directory_iterator(p)]. *)
Definition recursive_directory_iterator (fs : node) (p : path) : res (list path) :=
  match lookup fs p with
  | Some (Dir es) => Ok (map (fun d => (p ++ fst d)%list) (walk (Dir es)))
  | _ => Throw (filesystem_error "recursive directory iterator cannot open directory" p)
  end.

(** Opening [std::ofstream file(p)]: the file is created, or truncated when
    it exists; the stream stays closed when [p] is a directory or has no
    parent directory. *)
Definition ofstream_open (fs : node) (p : path) : node :=
  match p, lookup fs p with
  | [], _ => fs
  | _, Some (Dir _) => fs
  | _, _ =>
      if is_directory fs (parent_path p) then
        match put fs p (File "") with
        | Some fs' => fs'
        | None => fs
        end
      else fs
  end.

(** Opening [std::ofstream file(p, std::ios::app)]: an existing file keeps
    its content. *)
Definition ofstream_open_app (fs : node) (p : path) : node :=
  match lookup fs p with
  | Some (File _) => fs
  | _ => ofstream_open fs p
  end.

(** [file << s] on the stream opened at [p]: the text goes to the end of the
    file; nothing happens (and nothing is thrown) when the stream is closed.
    Buffering is not modelled: what is inserted reaches the file at the
    latest when the stream is destroyed, also on an exception. *)
Definition stream_insert (fs : node) (p : path) (s : string) : node :=
  match lookup fs p with
  | Some (File c) =>
      match put fs p (File (c ++ s)) with
      | Some fs' => fs'
      | None => fs
      end
  | _ => fs
  end.

(** The steps of a write to disk, one after the other; a crash leaves the
    disk as it is after some of them. *)
Inductive file_op : Type :=
| OpenTrunc (p : path)
| Insert (p : path) (s : string)
| Rename (from to : path).

Definition exec_op (fs : node) (op : file_op) : node :=
  match op with
  | OpenTrunc p => ofstream_open fs p
  | Insert p s => stream_insert fs p s
  | Rename from to =>
      match lookup fs from with
      | Some v =>
          match put (delete fs from) to v with
          | Some fs' => fs'
          | None => fs
          end
      | None => fs
      end
  end.

Definition exec_ops (ops : list file_op) (fs : node) : node :=
  fold_left exec_op ops fs.

(* ================================================================== *)
(** ** JSON values ([nlohmann::json])

    Numbers are integers here; the program stores strings and objects only. *)

#[warnings="-register-all"]
Inductive json : Type :=
| JNull
| JBool (b : bool)
| JNum (n : Z)
| JStr (s : string)
| JArr (items : list json)
| JObj (members : list (string * json)).

Fixpoint find_member (k : string) (ms : list (string * json)) : option json :=
  match ms with
  | [] => None
  | (k', v) :: rest => if k' =? k then Some v else find_member k rest
  end.

Fixpoint set_member (k : string) (v : json) (ms : list (string * json))
  : list (string * json) :=
  match ms with
  | [] => [(k, v)]
  | (k', x) :: rest =>
      if k' =? k then (k', v) :: rest else (k', x) :: set_member k v rest
  end.

(** [j.contains(key)]: false on everything that is not an object. *)
Definition contains (j : json) (k : string) : bool :=
  match j with
  | JObj ms => match find_member k ms with Some _ => true | None => false end
  | _ => false
  end.

Definition type_error_305 : exn :=
  json_exception "cannot use operator[] with a string argument".

(** [j[key]] on a non-const value: null becomes an object, a missing key is
    added with value null, anything else than an object throws.  Returns the
    element and the container as the access leaves it. *)
Definition subscript (j : json) (k : string) : res (json * json) :=
  match j with
  | JNull => Ok (JNull, JObj [(k, JNull)])
  | JObj ms =>
      match find_member k ms with
      | Some v => Ok (v, j)
      | None => Ok (JNull, JObj (set_member k JNull ms))
      end
  | _ => Throw type_error_305
  end.

(** [j[key] = v]. *)
Definition assign (j : json) (k : string) (v : json) : res json :=
  match j with
  | JNull => Ok (JObj [(k, v)])
  | JObj ms => Ok (JObj (set_member k v ms))
  | _ => Throw type_error_305
  end.

(** [j.get<std::string>()]. *)
Definition get_string (j : json) : res string :=
  match j with
  | JStr s => Ok s
  | _ => Throw (json_exception "type must be string")
  end.

Fixpoint index_keys (n : nat) (xs : list json) : list (string * json) :=
  match xs with
  | [] => []
  | x :: rest =>
      (NilEmpty.string_of_uint (Nat.to_uint n), x) :: index_keys (S n) rest
  end.

(** [j.items()]: members of an object, indexed items of an array, nothing
    for null, the value itself under an empty key otherwise. *)
Definition items (j : json) : list (string * json) :=
  match j with
  | JNull => []
  | JObj ms => ms
  | JArr xs => index_keys 0 xs
  | _ => [("", j)]
  end.

(* ================================================================== *)
(** ** The environment and the state of a run *)

Inductive Platform : Type := Linux | Windows | MacOS.

(** What the program does not define itself:
    - [platform]: which of [_WIN32], [__APPLE__] or neither is defined;
    - [projectDir]: [std::filesystem::current_path().string()];
    - [parse], [dump]: reading a JSON text, and [dump(indent)];
    - [system_]: [std::system], the exit status of the command and what it
      leaves on disk;
    - [remove_all_residue]: [None] when [remove_all] removes the whole of a
      tree, otherwise what is left of it and the message of the error code. *)
Record env : Type := {
  platform : Platform;
  projectDir : string;
  parse : string -> option json;
  dump : Z -> json -> string;
  system_ : string -> node -> Z * node;
  remove_all_residue : node -> option (node * string)
}.

Record world : Type := {
  fs : node;
  cin : list string;
  cout : list string;
  cerr : list string
}.

Definition with_fs (w : world) (fs' : node) : world :=
  {| fs := fs'; cin := cin w; cout := cout w; cerr := cerr w |}.

Inductive outcome (A : Type) : Type :=
| Ret (a : A) (w : world)
| Exc (e : exn) (w : world).
Arguments Ret {A} a w.
Arguments Exc {A} e w.

(** Computations on the world that may throw. *)
Definition M (A : Type) : Type := world -> outcome A.

Definition ret {A} (a : A) : M A := fun w => Ret a w.

Definition bind {A B} (m : M A) (k : A -> M B) : M B :=
  fun w => match m w with
           | Ret a w' => k a w'
           | Exc e w' => Exc e w'
           end.

Definition throw {A} (e : exn) : M A := fun w => Exc e w.

(** [try { m } catch (const std::exception &e) { h e }]. *)
Definition try_catch {A} (m : M A) (h : exn -> M A) : M A :=
  fun w => match m w with
           | Ret a w' => Ret a w'
           | Exc e w' => h e w'
           end.

Declare Scope cpp_scope.
Delimit Scope cpp_scope with cpp.
Notation "x <- m ;; k" := (bind m (fun x => k))
  (at level 100, m at next level, right associativity) : cpp_scope.
Notation "m ;; k" := (bind m (fun _ => k))
  (at level 100, right associativity) : cpp_scope.
Open Scope cpp_scope.

Definition get_fs : M node := fun w => Ret (fs w) w.

Definition lift {A} (r : res A) : M A :=
  match r with
  | Ok a => ret a
  | Throw e => throw e
  end.

(** A file system call that throws on failure. *)
Definition fs_call (f : node -> res node) : M unit :=
  fun w => match f (fs w) with
           | Ok fs' => Ret tt (with_fs w fs')
           | Throw e => Exc e w
           end.

(** A file system effect that cannot fail. *)
Definition fs_do (f : node -> node) : M unit :=
  fun w => Ret tt (with_fs w (f (fs w))).

Definition print_out (s : string) : M unit :=
  fun w => Ret tt {| fs := fs w; cin := cin w;
                     cout := (cout w ++ [s])%list; cerr := cerr w |}.

Definition print_err (s : string) : M unit :=
  fun w => Ret tt {| fs := fs w; cin := cin w;
                     cout := cout w; cerr := (cerr w ++ [s])%list |}.

(** [std::getline(std::cin, input)]; at the end of the input the line is empty. *)
Definition getline : M string :=
  fun w => match cin w with
           | [] => Ret "" w
           | l :: rest => Ret l {| fs := fs w; cin := rest;
                                   cout := cout w; cerr := cerr w |}
           end.

Fixpoint for_each {A} (xs : list A) (body : A -> M unit) : M unit :=
  match xs with
  | [] => ret tt
  | x :: rest => body x ;; for_each rest body
  end.

(** [e.what()]. *)
Definition what (e : exn) : string :=
  match e with
  | runtime_error s => s
  | filesystem_error s _ => "filesystem error: " ++ s
  | json_exception s => s
  end.

(* ================================================================== *)
(** ** [class PackageManager]

    Names of packages and projects are single path components.  Of the
    console output the progress bars, the colour codes and the elapsed time
    are left out, and the help and the instructions of [init] are cut to
    their first line. *)

(** Which [return] of [install] was reached (the function itself is [void]). *)
Inductive install_exit : Type :=
| ManifestMissing
| AlreadyInstalled
| Installed
| InstallFailed (e : exn).

Section PackageManager.

Variable E : env.

Definition configFileName : string := "TegenConfig.json".
Definition configPath : path := [configFileName].
Definition modulesDir : path := ["TegenModules"].
Definition projectInclude : path := ["include"].
Definition projectLib : path := ["lib"].
Definition cmakeFile : path := ["CMakeLists.txt"].

Definition separator : string :=
  match platform E with
  | Windows => "\"
  | _ => "/"
  end.

(** [(current_path() / p).string()]. *)
Definition path_string (p : path) : string :=
  fold_left (fun acc x => acc ++ separator ++ x) p (projectDir E).

Definition getCurrentDirectory : string := projectDir E.

Definition configExists : M bool :=
  fs <- get_fs ;; ret (exists_ fs configPath).

(** [json({})] when the file cannot be read is taken as null; as an empty
    object it behaves the same under every use the program makes of it. *)
Definition loadConfig : M json :=
  fs <- get_fs ;;
  match lookup fs configPath with
  | Some (File text) =>
      match parse E text with
      | Some config => ret config
      | None => throw (json_exception "parse error")
      end
  | _ => ret JNull
  end.

(** [std::ofstream file(filePath); file << config.dump(4);]. *)
Definition saveConfig_ops (config : json) : list file_op :=
  [OpenTrunc configPath; Insert configPath (dump E 4 config)].

Definition saveConfig (config : json) : M unit :=
  fs_do (exec_ops (saveConfig_ops config)).

Definition prompt (message defaultValue : string) : M string :=
  print_out (message ++ (if defaultValue =? "" then ": "
                         else " [" ++ defaultValue ++ "]: ")) ;;
  input <- getline ;;
  ret (if input =? "" then defaultValue else input).

Definition executeCommand (command : string) : M unit :=
  fun w =>
    let (result, fs') := system_ E command (fs w) in
    if (result =? 0)%Z then Ret tt (with_fs w fs')
    else Exc (runtime_error ("Command failed: " ++ command)) (with_fs w fs').

Definition init : M unit :=
  ok <- configExists ;;
  if ok then
    print_out "TegenConfig.json already exists in the current directory."
  else
    print_out "Initializing TegenConfig.json and CMake project..." ;;
    name <- prompt "Enter project name" "my-package" ;;
    version <- prompt "Enter project version" "1.0.0" ;;
    author <- prompt "Enter author name" "Anonymous" ;;
    license <- prompt "Enter license type" "MIT" ;;
    description <- prompt "Enter project description" "A C++ project" ;;
    let config :=
      JObj [("name", JStr name); ("version", JStr version);
            ("author", JStr author); ("license", JStr license);
            ("description", JStr description); ("dependencies", JObj [])] in
    saveConfig config ;;
    print_out ("Initialized TegenConfig.json in " ++ getCurrentDirectory
               ++ " with the following details:") ;;
    print_out (dump E 4 config) ;;
    fs_call (fun fs => create_directory fs ["src"]) ;;
    fs_call (fun fs => create_directory fs ["include"]) ;;
    fs_do (fun fs => ofstream_open fs ["src"; "main.cpp"]) ;;
    fs_do (fun fs => stream_insert fs ["src"; "main.cpp"]
      ("#include <iostream>" ++ nl ++ nl ++ "int main() {" ++ nl
       ++ "    std::cout << " ++ dquote ++ "Hello, World!" ++ dquote
       ++ " << std::endl;" ++ nl ++ "    return 0;" ++ nl ++ "}" ++ nl)) ;;
    fs_do (fun fs => ofstream_open fs cmakeFile) ;;
    fs_do (fun fs => stream_insert fs cmakeFile
      ("cmake_minimum_required(VERSION 3.10)" ++ nl
       ++ "project(" ++ name ++ " VERSION " ++ version ++ ")" ++ nl ++ nl
       ++ "set(CMAKE_CXX_STANDARD 17)" ++ nl ++ nl
       ++ "include_directories(include)" ++ nl
       ++ "add_executable(" ++ name ++ " src/main.cpp)" ++ nl)) ;;
    print_out "CMake project structure created:" ;;
    print_out "Your project is now ready to build and run with Tegen!".

(** The three branches of [#ifdef _WIN32 / #elif __APPLE__ / #else]. *)
Definition osBranch : string :=
  match platform E with
  | Windows => "WindowsBranch"
  | MacOS => "MacBranch"
  | Linux => "LinuxBranch"
  end.

(** [version.empty() ? osBranch : version]. *)
Definition resolvedVersion (version : string) : string :=
  if version =? "" then osBranch else version.

(** The older revision of the header, under [include/], has one default for
    every platform: [version.empty() ? "main" : version]. *)
Definition resolvedVersion_legacy (version : string) : string :=
  if version =? "" then "main" else version.

(** Clone, or update what is already staged. *)
Definition clone_or_update (repository resolved : string) (repoDir : path) : M unit :=
  fs <- get_fs ;;
  if negb (exists_ fs repoDir) then
    executeCommand ("git clone -b " ++ resolved
                    ++ " https://github.com/TegenPackages/" ++ repository
                    ++ ".git " ++ dquote ++ path_string repoDir ++ dquote)
  else
    print_out "Repository already cloned. Fetching latest changes..." ;;
    executeCommand ("git -C " ++ dquote ++ path_string repoDir ++ dquote ++ " fetch") ;;
    executeCommand ("git -C " ++ dquote ++ path_string repoDir ++ dquote
                    ++ " checkout " ++ resolved) ;;
    executeCommand ("git -C " ++ dquote ++ path_string repoDir ++ dquote ++ " pull").

(** COPY HEADERS: the regular files below the staged [include/], each to the
    same relative path below the project's [include/]. *)
Definition headerFiles (fs : node) (sourceIncludeDir : path) : res (list path) :=
  match recursive_directory_iterator fs sourceIncludeDir with
  | Ok all => Ok (filter (is_regular_file fs) all)
  | Throw e => Throw e
  end.

Definition copy_header (sourceIncludeDir file : path) : M unit :=
  let rel := relative file sourceIncludeDir in
  let target := (projectInclude ++ rel)%list in
  fs_call (fun fs => create_directories fs (parent_path target)) ;;
  fs_call (fun fs => copy_file fs file target).

Definition copy_headers (repoDir : path) : M unit :=
  let sourceIncludeDir := (repoDir ++ ["include"])%list in
  fs <- get_fs ;;
  if exists_ fs sourceIncludeDir then
    print_out "Copying header files..." ;;
    files <- lift (headerFiles fs sourceIncludeDir) ;;
    for_each files (copy_header sourceIncludeDir)
  else ret tt.

(** The [while] loop on [libDir]: as long as the directory has exactly one
    entry, go into that entry.  [n] is what is at [p]. *)
Fixpoint descend (n : node) (p : path) : path :=
  match n with
  | Dir [(name, child)] => descend child (p ++ [name])%list
  | _ => p
  end.

Definition locate_libDir (fs : node) (repoDir : path) : path :=
  let libDir := (repoDir ++ ["lib"])%list in
  match lookup fs libDir with
  | Some n => descend n libDir
  | None => libDir
  end.

(** COPY LIBS: the [.a] and [.lib] files below the located directory, each
    under its file name alone into the project's [lib/]. *)
Definition libFiles (fs : node) (libDir : path) : res (list path) :=
  match recursive_directory_iterator fs libDir with
  | Ok all =>
      Ok (filter (fun file => is_regular_file fs file
                              && is_static_lib (filename file)) all)
  | Throw e => Throw e
  end.

Definition copy_lib (file : path) : M unit :=
  let target := (projectLib ++ [filename file])%list in
  fs_call (fun fs => copy_file fs file target).

Definition copy_libs (repoDir : path) : M unit :=
  fs <- get_fs ;;
  let libDir := locate_libDir fs repoDir in
  if exists_ fs libDir then
    print_out "Copying library files..." ;;
    files <- lift (libFiles fs libDir) ;;
    for_each files copy_lib
  else ret tt.

(** UPDATE CMakeLists.txt *)
Definition marker (repository : string) : string :=
  nl ++ "# Added by Tegen for " ++ repository ++ nl.

Definition link_directive (libFile : path) : string :=
  "target_link_libraries(${PROJECT_NAME} PRIVATE " ++ dquote
  ++ path_string libFile ++ dquote ++ ")" ++ nl.

Definition system_libraries : string :=
  "target_link_libraries(${PROJECT_NAME} PRIVATE ws2_32 mswsock advapi32)" ++ nl.

Definition link_lib (libFile : path) : M unit :=
  if is_static_lib (filename libFile)
  then fs_do (fun fs => stream_insert fs cmakeFile (link_directive libFile))
  else ret tt.

Definition update_cmakelists (repository : string) : M unit :=
  fs_do (fun fs => ofstream_open_app fs cmakeFile) ;;
  fs_do (fun fs => stream_insert fs cmakeFile (marker repository)) ;;
  fs_do (fun fs => stream_insert fs cmakeFile ("include_directories(include)" ++ nl)) ;;
  fs <- get_fs ;;
  libs <- lift (directory_iterator fs projectLib) ;;
  for_each libs link_lib ;;
  match platform E with
  | Windows => fs_do (fun fs => stream_insert fs cmakeFile system_libraries)
  | _ => ret tt
  end.

(** UPDATE CONFIG: [config["dependencies"][repository] = resolvedVersion;
    saveConfig(config);]. *)
Definition add_dependency (config : json) (repository resolved : string) : res json :=
  match subscript config "dependencies" with
  | Ok (deps, config') =>
      match assign deps repository (JStr resolved) with
      | Ok deps' => assign config' "dependencies" deps'
      | Throw e => Throw e
      end
  | Throw e => Throw e
  end.

Definition update_config (config : json) (repository resolved : string) : M unit :=
  config' <- lift (add_dependency config repository resolved) ;;
  saveConfig config'.

Definition removeFolderRecursively (folder : path) : M unit :=
  match platform E with
  | Windows =>
      (* the loop only adds owner permissions, which the tree does not record *)
      fs <- get_fs ;;
      _ <- lift (recursive_directory_iterator fs folder) ;;
      ret tt
  | _ => ret tt
  end ;;
  fs <- get_fs ;;
  match lookup fs folder with
  | None => ret tt
  | Some tree =>
      match remove_all_residue E tree with
      | None => fs_do (fun fs => delete fs folder)
      | Some (rest, message) =>
          fs_do (fun fs => match put fs folder rest with
                           | Some fs' => fs'
                           | None => fs
                           end) ;;
          print_err ("Warning: Failed to completely remove "
                     ++ path_string folder ++ ": " ++ message)
      end
  end.

(** CLEAN UP: the local [ec] is never assigned, its warning never printed. *)
Definition clean_up : M unit :=
  let ec : option string := None in
  removeFolderRecursively modulesDir ;;
  match ec with
  | Some message =>
      print_err ("Warning: could not remove temporary folder "
                 ++ path_string modulesDir ++ ": " ++ message)
  | None => ret tt
  end.

(** What [install] does up to the patch of the build description. *)
Definition integrate (repository resolved : string) : M unit :=
  print_out ("Installing package: " ++ repository ++ " (branch/version: "
             ++ resolved ++ ")...") ;;
  let repoDir := (modulesDir ++ [repository])%list in
  clone_or_update repository resolved repoDir ;;
  copy_headers repoDir ;;
  copy_libs repoDir ;;
  update_cmakelists repository.

(** The [try] block of [install]. *)
Definition install_try (config : json) (repository resolved : string) : M unit :=
  integrate repository resolved ;;
  update_config config repository resolved ;;
  clean_up ;;
  print_out ("Package " ++ repository
             ++ " successfully installed, integrated, and cleaned up!").

(** The [catch] block of [install]. *)
Definition report_failure (e : exn) : M install_exit :=
  print_err ("Failed to install package: " ++ what e) ;;
  ret (InstallFailed e).

(** [try { ... } catch (const std::exception &e) { ... }] of [install]. *)
Definition install_guarded (config : json) (repository resolved : string)
  : M install_exit :=
  try_catch (install_try config repository resolved ;; ret Installed)
            report_failure.

Definition install (repository version : string) : M install_exit :=
  ok <- configExists ;;
  if negb ok then
    print_err "TegenConfig.json not found. Run 'init' first." ;;
    ret ManifestMissing
  else
    config <- loadConfig ;;
    fs_call (fun fs => create_directories fs modulesDir) ;;
    fs_call (fun fs => create_directories fs projectInclude) ;;
    fs_call (fun fs => create_directories fs projectLib) ;;
    let resolved := resolvedVersion version in
    d <- lift (subscript config "dependencies") ;;
    let (deps, config) := d in
    if contains deps repository then
      v <- lift (subscript deps repository) ;;
      print_out ("Repository " ++ repository ++ " is already installed with version "
                 ++ dump E (-1) (fst v) ++ ".") ;;
      ret AlreadyInstalled
    else install_guarded config repository resolved.

Definition listDependencies : M unit :=
  ok <- configExists ;;
  if negb ok then
    print_err "TegenConfig.json not found in the current directory."
  else
    config <- loadConfig ;;
    print_out "Dependencies:" ;;
    d <- lift (subscript config "dependencies") ;;
    for_each (items (fst d))
      (fun kv => print_out ("  - " ++ fst kv ++ ": " ++ dump E (-1) (snd kv))).

Definition build : M unit :=
  ok <- configExists ;;
  if negb ok then
    print_err "TegenConfig.json not found in the current directory. Run 'init' first."
  else
    print_out "Building the project..." ;;
    fs_call (fun fs => create_directory fs ["build"]) ;;
    executeCommand "cmake -S . -B build" ;;
    executeCommand "cmake --build build" ;;
    print_out "Build completed successfully. The project is located in the 'build/' directory.".

(** The colour escape sequences that the Windows build writes around its
    messages, and the elapsed time in the last message, are left out. *)
Definition run : M unit :=
  ok <- configExists ;;
  if negb ok then
    print_err "TegenConfig.json not found in the current directory. Run 'init' first."
  else
    config <- loadConfig ;;
    name <- lift (subscript config "name") ;;
    projectName <- lift (get_string (fst name)) ;;
    print_out "Running the project..." ;;
    let buildPath :=
      ["build"; match platform E with
                | Windows => projectName ++ ".exe"
                | _ => projectName
                end] in
    disk <- get_fs ;;
    if negb (exists_ disk buildPath) then
      print_err ("Executable not found: " ++ path_string buildPath) ;;
      print_err "Make sure the project is built before running."
    else
      let command := dquote ++ path_string buildPath ++ dquote in
      fun w =>
        let (result, fs') := system_ E command (fs w) in
        if negb (result =? 0)%Z then
          print_err "Failed to run the project. Make sure it's built correctly."
            (with_fs w fs')
        else
          print_out "Project finished successfully." (with_fs w fs').

(** ** [main] *)

(** The [try] block of [main]; [Some status] is a [return] inside it. *)
Definition main_try (argv : list string) : M (option Z) :=
  let command := nth 1 argv "" in
  if command =? "init" then init ;; ret None
  else if command =? "install" then
    if (length argv <? 3)%nat then
      print_err "Error: Please specify a package to install." ;;
      ret (Some 1%Z)
    else
      _ <- install (nth 2 argv "") "" ;; ret None
  else if command =? "list" then listDependencies ;; ret None
  else if command =? "build" then build ;; ret None
  else if command =? "run" then run ;; ret None
  else
    print_err ("Error: Unknown command: " ++ command) ;;
    print_err "Run 'Tegen -h' for help." ;;
    ret None.

(** [argv] includes the program name; the result is the exit status. *)
Definition main (argv : list string) : M Z :=
  if (length argv =? 2)%nat && (nth 1 argv "" =? "-h") then
    print_out "Usage: Tegen <command> [args]" ;;
    ret 0%Z
  else if (length argv <? 2)%nat then
    print_err "Usage: Tegen <command> [args]" ;;
    print_err "Run 'Tegen -h' for a list of available commands." ;;
    ret 1%Z
  else
    r <- try_catch (main_try argv)
           (fun e => print_err ("An error occurred: " ++ what e) ;;
                     ret (Some 1%Z)) ;;
    match r with
    | Some status => ret status
    | None => ret 0%Z
    end.

End PackageManager.

(* ================================================================== *)
(** ** A concrete environment

    A small project, a remote that serves a few packages, and a JSON
    library that renders compactly and reads back the documents it is
    given. *)

Module Demo.

Fixpoint render (j : json) : string :=
  match j with
  | JNull => "null"
  | JBool true => "true"
  | JBool false => "false"
  | JNum n => NilZero.string_of_int (Z.to_int n)
  | JStr s => dquote ++ s ++ dquote
  | JArr xs =>
      "[" ++ (fix go (xs : list json) : string :=
                match xs with
                | [] => ""
                | x :: rest =>
                    match rest with
                    | [] => render x
                    | _ :: _ => render x ++ "," ++ go rest
                    end
                end) xs ++ "]"
  | JObj ms =>
      "{" ++ (fix go (ms : list (string * json)) : string :=
                match ms with
                | [] => ""
                | m :: rest =>
                    match rest with
                    | [] => dquote ++ fst m ++ dquote ++ ":" ++ render (snd m)
                    | _ :: _ => dquote ++ fst m ++ dquote ++ ":" ++ render (snd m)
                                ++ "," ++ go rest
                    end
                end) ms ++ "}"
  end.

(** Reads back a text that renders one of [docs]. *)
Definition parse_known (docs : list json) (text : string) : option json :=
  find (fun j => render j =? text) docs.

(** Whether [sub] occurs in [s]. *)
Fixpoint occurs (sub s : string) : bool :=
  prefix sub s ||
  match s with
  | EmptyString => false
  | String _ t => occurs sub t
  end.

(** A [git clone] of a package of [remote] stages its tree and exits with 0;
    every other command exits with 128 and changes nothing. *)
Definition git_remote (remote : list (string * node)) (command : string) (fs : node)
  : Z * node :=
  match find (fun r => occurs ("git clone -b ") command
                       && occurs ("/TegenPackages/" ++ fst r ++ ".git ") command) remote with
  | Some r =>
      match put fs ["TegenModules"; fst r] (snd r) with
      | Some fs' => (0%Z, fs')
      | None => (1%Z, fs)
      end
  | None => (128%Z, fs)
  end.

Definition widgets : node :=
  Dir [("README.md", File "widgets");
       ("include", Dir [("widgets.hpp", File "#pragma once");
                        ("widgets", Dir [("button.hpp", File "struct button;")])]);
       ("lib", Dir [("x64", Dir [("Release",
                      Dir [("libwidgets.a", File "!<arch>widgets");
                           ("widgets.lib", File "LIB widgets");
                           ("widgets.pdb", File "symbols")])])])].

Definition gadgets : node :=
  Dir [("include", Dir [("gadgets.hpp", File "#pragma once")]);
       ("lib", Dir [("libgadgets.a", File "!<arch>gadgets");
                    ("README", File "gadgets")])].

(** A package whose [lib/] holds one library and nothing else. *)
Definition single : node :=
  Dir [("lib", Dir [("libsingle.a", File "!<arch>single")])].

(** A package without [include/] and without [lib/]. *)
Definition bare : node :=
  Dir [("README.md", File "bare")].

Definition remote : list (string * node) :=
  [("widgets", widgets); ("gadgets", gadgets); ("single", single); ("bare", bare)].

Definition manifest0 : json :=
  JObj [("name", JStr "demo"); ("dependencies", JObj [])].

Definition manifest_with (deps : list (string * json)) : json :=
  JObj [("name", JStr "demo"); ("dependencies", JObj deps)].

Definition documents : list json :=
  [manifest0;
   manifest_with [("widgets", JStr "LinuxBranch")];
   manifest_with [("widgets", JStr "LinuxBranch"); ("gadgets", JStr "LinuxBranch")];
   manifest_with [("widgets", JStr "v2")]].

Definition linux (residue : node -> option (node * string)) : env :=
  {| platform := Linux;
     projectDir := "/home/dev/demo";
     parse := parse_known documents;
     dump := fun _ => render;
     system_ := git_remote remote;
     remove_all_residue := residue |}.

(** [remove_all] succeeds. *)
Definition removes_all (tree : node) : option (node * string) := None.

(** [remove_all] leaves the whole tree and reports an error. *)
Definition removes_nothing (tree : node) : option (node * string) :=
  Some (tree, "Permission denied").

(** No network: every command fails. *)
Definition offline (residue : node -> option (node * string)) : env :=
  {| platform := Linux;
     projectDir := "/home/dev/demo";
     parse := parse_known documents;
     dump := fun _ => render;
     system_ := fun _ fs => (128%Z, fs);
     remove_all_residue := residue |}.

(** A host for the older revision: [curl] stores the archive of [widgets],
    [unzip] unpacks it under the name of the package and of its branch. *)
Definition archive_host (command : string) (fs : node) : Z * node :=
  if occurs "curl " command then
    match put fs ["TegenModules"; "widgets.zip"] (File "PK") with
    | Some fs' => (0%Z, fs')
    | None => (23%Z, fs)
    end
  else if occurs "unzip " command then
    match put fs ["TegenModules"; "widgets"] (Dir [("widgets-main", gadgets)]) with
    | Some fs' => (0%Z, fs')
    | None => (9%Z, fs)
    end
  else (127%Z, fs).

Definition archives : env :=
  {| platform := Linux;
     projectDir := "/home/dev/demo";
     parse := parse_known documents;
     dump := fun _ => render;
     system_ := archive_host;
     remove_all_residue := removes_all |}.

Definition cmake0 : string :=
  "cmake_minimum_required(VERSION 3.10)" ++ nl ++ "project(demo VERSION 1.0.0)" ++ nl.

(** The project after [init]. *)
Definition project0 : node :=
  Dir [("TegenConfig.json", File (render manifest0));
       ("src", Dir [("main.cpp", File "int main() {}")]);
       ("include", Dir []);
       ("CMakeLists.txt", File cmake0)].

(** A fresh checkout of a project that depends on [widgets]: the manifest
    lists it, [lib/] is not there. *)
Definition checkout : node :=
  Dir [("TegenConfig.json",
        File (render (manifest_with [("widgets", JStr "LinuxBranch")])));
       ("src", Dir [("main.cpp", File "int main() {}")]);
       ("include", Dir [("widgets.hpp", File "#pragma once")]);
       ("CMakeLists.txt", File cmake0)].

(** The project while [widgets] and [bare] are staged; it holds an older
    [widgets.hpp] and an older [libwidgets.a]. *)
Definition staged : node :=
  Dir [("TegenConfig.json", File (render manifest0));
       ("CMakeLists.txt", File cmake0);
       ("include", Dir [("widgets.hpp", File "// old"); ("mine.hpp", File "// mine")]);
       ("lib", Dir [("libwidgets.a", File "!<arch>old"); ("libmine.a", File "!<arch>mine")]);
       ("TegenModules", Dir [("widgets", widgets); ("bare", bare)])].

Definition start (disk : node) : world :=
  {| fs := disk; cin := []; cout := []; cerr := [] |}.

(** How often [sub] starts in [s]. *)
Fixpoint count_occurrences (sub s : string) : nat :=
  (if prefix sub s then 1 else 0) +
  match s with
  | EmptyString => 0
  | String _ t => count_occurrences sub t
  end.

Definition file_text (disk : node) (p : path) : string :=
  match lookup disk p with
  | Some (File c) => c
  | _ => ""
  end.

End Demo.

(* ================================================================== *)
(** ** Vocabulary of the statements *)

(** The world a computation leaves, however it ends. *)
Definition after {A} (o : outcome A) : world :=
  match o with
  | Ret _ w => w
  | Exc _ w => w
  end.

(** [m] leaves everything at and below the top-level name [y] as it is,
    whether it returns or throws. *)
Definition keeps {A} (y : string) (m : M A) : Prop :=
  forall w q, lookup (fs (after (m w))) (y :: q) = lookup (fs w) (y :: q).

(** The external commands leave [y] alone. *)
Definition system_keeps (E : env) (y : string) : Prop :=
  forall command disk q,
    lookup (snd (system_ E command disk)) (y :: q) = lookup disk (y :: q).

(** The external commands do not remove the staging directory. *)
Definition staging_stays (E : env) : Prop :=
  forall command disk,
    is_directory disk modulesDir = true ->
    is_directory (snd (system_ E command disk)) modulesDir = true.

(** The member [k] of a JSON object. *)
Definition member (config : json) (k : string) : option json :=
  match config with
  | JObj ms => find_member k ms
  | _ => None
  end.

(** [w'] is [w] with possibly more text on the error stream, each line of
    it a warning. *)
Definition only_warnings (w w' : world) : Prop :=
  cin w' = cin w /\
  exists warnings,
    cerr w' = (cerr w ++ warnings)%list /\
    Forall (fun line => prefix "Warning: " line = true) warnings.

(** What is at a path: nothing, a regular file with its content, a directory. *)
Inductive kind : Type :=
| Absent
| Regular (content : string)
| Directory.

Definition kind_of (disk : node) (p : path) : kind :=
  match lookup disk p with
  | None => Absent
  | Some (File c) => Regular c
  | Some (Dir _) => Directory
  end.

Definition is_regular (k : kind) : bool :=
  match k with Regular _ => true | _ => false end.

Definition is_dir (k : kind) : bool :=
  match k with Directory => true | _ => false end.

Fixpoint path_eqb (p q : path) : bool :=
  match p, q with
  | [], [] => true
  | x :: p', y :: q' => (x =? y) && path_eqb p' q'
  | _, _ => false
  end.

(** [q] is [p] or an ancestor of [p]. *)
Fixpoint is_prefix (q p : path) : bool :=
  match q, p with
  | [], _ => true
  | x :: q', y :: p' => (x =? y) && is_prefix q' p'
  | _ :: _, [] => false
  end.

(** The manifest lists [repository] among its dependencies. *)
Definition lists_dependency (config : json) (repository : string) : bool :=
  match config with
  | JObj ms =>
      match find_member "dependencies" ms with
      | Some deps => contains deps repository
      | None => false
      end
  | _ => false
  end.

(** The dependencies recorded in a manifest. *)
Definition dependencies (config : json) : list (string * json) :=
  match config with
  | JObj ms =>
      match find_member "dependencies" ms with
      | Some (JObj deps) => deps
      | _ => []
      end
  | _ => []
  end.

(** The link directives the patch writes for the entries of [lib/]. *)
Definition link_directives (E : env) (es : entries) : list string :=
  map (fun e => link_directive E (projectLib ++ [fst e])%list)
      (filter (fun e => is_static_lib (fst e)) es).

(** The text one run of the patch adds when [lib/] holds [es]. *)
Definition block (E : env) (repository : string) (es : entries) : string :=
  marker repository ++ "include_directories(include)" ++ nl
  ++ fold_right String.append "" (link_directives E es)
  ++ match platform E with
     | Windows => system_libraries
     | _ => ""
     end.

(** [m], [n] times in a row. *)
Fixpoint times (n : nat) (m : M unit) : M unit :=
  match n with
  | O => ret tt
  | S n' => m ;; times n' m
  end.

(** The save of the specification: the text goes to a temporary file, which
    is then renamed over the manifest. *)
Definition spec_save_ops (E : env) (config : json) : list file_op :=
  [OpenTrunc ["TegenConfig.json.tmp"];
   Insert ["TegenConfig.json.tmp"] (dump E 4 config);
   Rename ["TegenConfig.json.tmp"] configPath].

(** The staged file that ends up under [name] in [lib/]: the last of
    [files] with that file name. *)
Definition flattened (files : list path) (name : string) : option path :=
  find (fun file => name =? filename file) (rev files).




(** The relative paths of the regular files below [tree]. *)
Definition staged_files (tree : node) : list path :=
  filter (is_regular_file tree) (map fst (walk tree)).

(** The relative paths of the static libraries below [tree]. *)
Definition staged_libs (tree : node) : list path :=
  filter (fun rel => is_static_lib (filename rel)) (staged_files tree).

(** The node the descent from [n] ends at. *)
Fixpoint descend_node (n : node) : node :=
  match n with
  | Dir [(name, child)] => descend_node child
  | _ => n
  end.

(* ================================================================== *)
(** ** The older revision of the header ([include/package_manager.hpp])

    Its [install] downloads an archive with [curl], unpacks it with [unzip]
    and copies into [TegenModules/include] and [TegenModules/lib]; its [run]
    goes through [executeCommand].  [saveConfig], [loadConfig],
    [executeCommand], [listDependencies] and [build] are the same code as in
    the newer revision. *)

(** [std::filesystem::remove(p)]: removes a file or an empty directory;
    nothing to remove is no error, a directory with entries is one. *)
Definition remove_path (fs : node) (p : path) : res node :=
  match lookup fs p with
  | None => Ok fs
  | Some (Dir (_ :: _)) => Throw (filesystem_error "cannot remove" p)
  | Some _ =>
      match p with
      | [] => Throw (filesystem_error "cannot remove" p)
      | _ :: _ => Ok (delete fs p)
      end
  end.

Section LegacyPackageManager.

Variable E : env.

Definition legacy_includeDir : path := (modulesDir ++ ["include"])%list.
Definition legacy_libDir : path := (modulesDir ++ ["lib"])%list.

(** [if (!std::filesystem::exists(p)) std::filesystem::create_directory(p);]. *)
Definition ensure_directory (p : path) : M unit :=
  fs <- get_fs ;;
  if negb (exists_ fs p) then fs_call (fun fs => create_directory fs p)
  else ret tt.

(** Move headers to TegenModules/include.  The loop of the source tests
    [is_regular_file] on each entry as it goes; the entries are those of the
    staged tree, which the loop does not write to. *)
Definition legacy_copy_header (sourceIncludeDir file : path) : M unit :=
  let relativePath := relative file sourceIncludeDir in
  let targetPath := (legacy_includeDir ++ relativePath)%list in
  fs_call (fun fs => create_directories fs (parent_path targetPath)) ;;
  fs_call (fun fs => copy_file fs file targetPath).

Definition legacy_copy_headers (sourceIncludeDir : path) : M unit :=
  fs <- get_fs ;;
  if exists_ fs sourceIncludeDir then
    files <- lift (headerFiles fs sourceIncludeDir) ;;
    for_each files (legacy_copy_header sourceIncludeDir)
  else ret tt.

(** Move libraries to TegenModules/lib: the regular files that are directly
    in the staged [lib/], whatever their extension. *)
Definition legacy_libFiles (fs : node) (sourceLibDir : path) : res (list path) :=
  match directory_iterator fs sourceLibDir with
  | Ok all => Ok (filter (is_regular_file fs) all)
  | Throw e => Throw e
  end.

Definition legacy_copy_lib (file : path) : M unit :=
  let targetPath := (legacy_libDir ++ [filename file])%list in
  fs_call (fun fs => copy_file fs file targetPath).

Definition legacy_copy_libs (sourceLibDir : path) : M unit :=
  fs <- get_fs ;;
  if exists_ fs sourceLibDir then
    files <- lift (legacy_libFiles fs sourceLibDir) ;;
    for_each files legacy_copy_lib
  else ret tt.

(** What the older [install] does before it touches the manifest. *)
Definition legacy_fetch_and_copy (repository resolved : string) : M unit :=
  print_out ("Installing package: " ++ repository ++ " (version: "
             ++ resolved ++ ")...") ;;
  let url := "https://github.com/TegenPackages/" ++ repository
             ++ "/archive/refs/heads/" ++ resolved ++ ".zip" in
  let zipFilePath := (modulesDir ++ [(repository ++ ".zip")%string])%list in
  let extractDir := (modulesDir ++ [repository])%list in
  executeCommand E ("curl -L -o " ++ dquote ++ path_string E zipFilePath
                    ++ dquote ++ " " ++ url) ;;
  executeCommand E ("unzip -o " ++ dquote ++ path_string E zipFilePath ++ dquote
                    ++ " -d " ++ dquote ++ path_string E modulesDir ++ dquote) ;;
  legacy_copy_headers (extractDir ++ [(repository ++ "-" ++ resolved)%string; "include"])%list ;;
  legacy_copy_libs (extractDir ++ [(repository ++ "-" ++ resolved)%string; "lib"])%list.

(** The [try] block of the older [install]. *)
Definition install_legacy_try (config : json) (repository resolved : string)
  : M unit :=
  legacy_fetch_and_copy repository resolved ;;
  update_config E config repository resolved ;;
  fs_call (fun fs => remove_path fs (modulesDir ++ [(repository ++ ".zip")%string])%list) ;;
  print_out ("Package " ++ repository ++ " successfully installed.").

Definition install_legacy (repository version : string) : M install_exit :=
  ok <- configExists ;;
  if negb ok then
    print_err "TegenConfig.json not found in the current directory. Run 'init' first." ;;
    ret ManifestMissing
  else
    config <- loadConfig E ;;
    ensure_directory modulesDir ;;
    ensure_directory legacy_includeDir ;;
    ensure_directory legacy_libDir ;;
    let resolved := resolvedVersion_legacy version in
    d <- lift (subscript config "dependencies") ;;
    let (deps, config) := d in
    if contains deps repository then
      v <- lift (subscript deps repository) ;;
      print_out ("Repository " ++ repository ++ " is already installed with version "
                 ++ dump E (-1) (fst v) ++ ".") ;;
      ret AlreadyInstalled
    else
      try_catch (install_legacy_try config repository resolved ;; ret Installed)
                (report_failure).

(** The older [run]: [executeCommand("./build/" + projectName)]. *)
Definition run_legacy : M unit :=
  ok <- configExists ;;
  if negb ok then
    print_err "TegenConfig.json not found in the current directory. Run 'init' first."
  else
    config <- loadConfig E ;;
    name <- lift (subscript config "name") ;;
    projectName <- lift (get_string (fst name)) ;;
    print_out "Running the project..." ;;
    executeCommand E ("./build/" ++ projectName).

End LegacyPackageManager.

(* ================================================================== *)
(** ** More vocabulary *)

(** What a prompt takes from a line of input: [input.empty() ? defaultValue
    : input]. *)
Definition answer (input defaultValue : string) : string :=
  if input =? "" then defaultValue else input.

(** The manifest [init] writes for the lines it reads. *)
Definition init_config (input : list string) : json :=
  JObj [("name", JStr (answer (nth 0 input "") "my-package"));
        ("version", JStr (answer (nth 1 input "") "1.0.0"));
        ("author", JStr (answer (nth 2 input "") "Anonymous"));
        ("license", JStr (answer (nth 3 input "") "MIT"));
        ("description", JStr (answer (nth 4 input "") "A C++ project"));
        ("dependencies", JObj [])].

(** The [src/main.cpp] and the [CMakeLists.txt] that [init] writes. *)
Definition init_main_cpp : string :=
  "#include <iostream>" ++ nl ++ nl ++ "int main() {" ++ nl
  ++ "    std::cout << " ++ dquote ++ "Hello, World!" ++ dquote
  ++ " << std::endl;" ++ nl ++ "    return 0;" ++ nl ++ "}" ++ nl.

Definition init_cmakelists (name version : string) : string :=
  "cmake_minimum_required(VERSION 3.10)" ++ nl
  ++ "project(" ++ name ++ " VERSION " ++ version ++ ")" ++ nl ++ nl
  ++ "set(CMAKE_CXX_STANDARD 17)" ++ nl ++ nl
  ++ "include_directories(include)" ++ nl
  ++ "add_executable(" ++ name ++ " src/main.cpp)" ++ nl.

(** The manifest as [install] records a dependency in it. *)
Definition recorded (config : json) (repository resolved : string) : res json :=
  match subscript config "dependencies" with
  | Ok (_, config1) => add_dependency config1 repository resolved
  | Throw e => Throw e
  end.

(** The value a manifest holds under ["dependencies"], null when it has none. *)
Definition dependencies_value (config : json) : json :=
  match member config "dependencies" with
  | Some deps => deps
  | None => JNull
  end.

(** The five commands [main] dispatches on. *)
Definition is_command (command : string) : bool :=
  (command =? "init") || (command =? "install") || (command =? "list")
  || (command =? "build") || (command =? "run").

(** The line [list] prints for a dependency. *)
Definition dependency_line (E : env) (kv : string * json) : string :=
  "  - " ++ fst kv ++ ": " ++ dump E (-1) (snd kv).

(** The executable [run] starts, and the command line it starts it with. *)
Definition executable (E : env) (projectName : string) : path :=
  ["build"; match platform E with
            | Windows => projectName ++ ".exe"
            | _ => projectName
            end].

Definition run_command (E : env) (projectName : string) : string :=
  dquote ++ path_string E (executable E projectName) ++ dquote.

(** What the handler of [main] leaves: the message on the error stream. *)
Definition reported (e : exn) (w : world) : world :=
  {| fs := fs w; cin := cin w; cout := cout w;
     cerr := (cerr w ++ [("An error occurred: " ++ what e)%string])%list |}.

(* ================================================================== *)
(** * Verification *)

(** ** Directory entries *)

Lemma find_entry_set_entry_same name v es :
  find_entry name (set_entry name v es) = Some v.
Proof.
  induction es as [|[k x] es IH]; simpl.
  - now rewrite String.eqb_refl.
  - destruct (k =? name) eqn:Hk; simpl; rewrite Hk; auto.
Qed.

Lemma find_entry_set_entry_other name other v es :
  other <> name ->
  find_entry other (set_entry name v es) = find_entry other es.
Proof.
  intros Hne. induction es as [|[k x] es IH]; simpl.
  - destruct (name =? other) eqn:Hk; auto.
    apply String.eqb_eq in Hk. congruence.
  - destruct (k =? name) eqn:Hk; simpl.
    + apply String.eqb_eq in Hk. subst k.
      destruct (name =? other) eqn:Hk'; auto.
      apply String.eqb_eq in Hk'. congruence.
    + now rewrite IH.
Qed.

Lemma find_entry_remove_entry_other name other es :
  other <> name ->
  find_entry other (remove_entry name es) = find_entry other es.
Proof.
  intros Hne. induction es as [|[k x] es IH]; simpl; auto.
  destruct (k =? name) eqn:Hk; simpl.
  - apply String.eqb_eq in Hk. subst k.
    destruct (name =? other) eqn:Hk'; auto.
    apply String.eqb_eq in Hk'. congruence.
  - now rewrite IH.
Qed.

Lemma set_entry_found name v es :
  find_entry name es = Some v -> set_entry name v es = es.
Proof.
  induction es as [|[k x] es IH]; simpl; [discriminate|].
  destruct (k =? name) eqn:Hk.
  - intros [= ->]. reflexivity.
  - intros H. now rewrite IH.
Qed.

Lemma find_entry_In name es v :
  find_entry name es = Some v -> In name (map fst es).
Proof.
  induction es as [|[k x] es IH]; simpl; [discriminate|].
  destruct (k =? name) eqn:Hk.
  - apply String.eqb_eq in Hk. auto.
  - auto.
Qed.

(** ** What the primitives leave alone *)

Lemma lookup_put_other fs x p v fs' y q :
  put fs (x :: p) v = Some fs' -> y <> x ->
  lookup fs' (y :: q) = lookup fs (y :: q).
Proof.
  intros Hput Hne. destruct fs as [c|es]; simpl in Hput; [discriminate|].
  destruct p as [|x' p'].
  - injection Hput as <-. simpl. now rewrite find_entry_set_entry_other.
  - destruct (find_entry x es) as [c|]; [|discriminate].
    destruct (put c (x' :: p') v) as [c'|]; [|discriminate].
    injection Hput as <-. simpl. now rewrite find_entry_set_entry_other.
Qed.

Lemma lookup_put_same fs p v fs' :
  put fs p v = Some fs' -> lookup fs' p = Some v.
Proof.
  revert fs fs'. induction p as [|x p IH]; intros fs fs' Hput.
  - simpl in *. congruence.
  - destruct fs as [c|es]; simpl in Hput; [discriminate|].
    destruct p as [|x' p'].
    + injection Hput as <-. simpl. now rewrite find_entry_set_entry_same.
    + destruct (find_entry x es) as [c|]; [|discriminate].
      destruct (put c (x' :: p') v) as [c'|] eqn:Hc; [|discriminate].
      injection Hput as <-.
      change (lookup (Dir (set_entry x c' es)) (x :: x' :: p'))
        with (match find_entry x (set_entry x c' es) with
              | Some c0 => lookup c0 (x' :: p')
              | None => None
              end).
      rewrite find_entry_set_entry_same. now apply (IH c).
Qed.

Lemma lookup_create_directories_other fs x p fs' y q :
  create_directories_at fs (x :: p) = Some fs' -> y <> x ->
  lookup fs' (y :: q) = lookup fs (y :: q).
Proof.
  intros Hc Hne. destruct fs as [c|es]; simpl in Hc; [discriminate|].
  destruct (create_directories_at _ p) as [c'|]; [|discriminate].
  injection Hc as <-. simpl. now rewrite find_entry_set_entry_other.
Qed.

Lemma lookup_delete_other fs x p y q :
  y <> x -> lookup (delete fs (x :: p)) (y :: q) = lookup fs (y :: q).
Proof.
  intros Hne. destruct fs as [c|es]; simpl; auto.
  destruct p as [|x' p'].
  - simpl. now rewrite find_entry_remove_entry_other.
  - destruct (find_entry x es) as [c|]; auto.
    simpl. now rewrite find_entry_set_entry_other.
Qed.

Lemma lookup_ofstream_open_other fs x p y q :
  y <> x -> lookup (ofstream_open fs (x :: p)) (y :: q) = lookup fs (y :: q).
Proof.
  intros Hne. unfold ofstream_open.
  destruct (lookup fs (x :: p)) as [[c|es]|]; auto;
    destruct (is_directory fs (parent_path (x :: p))); auto;
    destruct (put fs (x :: p) (File "")) eqn:Hput; auto;
    eapply lookup_put_other; eauto.
Qed.

Lemma lookup_ofstream_open_app_other fs x p y q :
  y <> x -> lookup (ofstream_open_app fs (x :: p)) (y :: q) = lookup fs (y :: q).
Proof.
  intros Hne. unfold ofstream_open_app.
  destruct (lookup fs (x :: p)) as [[c|es]|]; auto using lookup_ofstream_open_other.
Qed.

Lemma lookup_stream_insert_other fs x p s y q :
  y <> x -> lookup (stream_insert fs (x :: p) s) (y :: q) = lookup fs (y :: q).
Proof.
  intros Hne. unfold stream_insert.
  destruct (lookup fs (x :: p)) as [[c|es]|]; auto.
  destruct (put fs (x :: p) (File (c ++ s))) eqn:Hput; auto.
  eapply lookup_put_other; eauto.
Qed.

Lemma lookup_copy_file_other fs from x p fs' y q :
  copy_file fs from (x :: p) = Ok fs' -> y <> x ->
  lookup fs' (y :: q) = lookup fs (y :: q).
Proof.
  unfold copy_file. intros Hc Hne.
  destruct (lookup fs from) as [[c|es]|]; try discriminate.
  destruct (lookup fs (x :: p)) as [[c'|es']|]; try discriminate;
    destruct (is_directory fs (parent_path (x :: p))); try discriminate;
    destruct (put fs (x :: p) (File c)) eqn:Hput; try discriminate;
    injection Hc as <-; eapply lookup_put_other; eauto.
Qed.

Lemma lookup_exec_op_other fs op x y q :
  match op with
  | OpenTrunc p | Insert p _ => exists p', p = x :: p'
  | Rename _ _ => False
  end ->
  y <> x -> lookup (exec_op fs op) (y :: q) = lookup fs (y :: q).
Proof.
  destruct op as [p|p s|a b]; simpl; intros H Hne.
  - destruct H as [p' ->]. now apply lookup_ofstream_open_other.
  - destruct H as [p' ->]. now apply lookup_stream_insert_other.
  - contradiction.
Qed.

Lemma parent_path_cons x p :
  parent_path (x :: p) = [] \/ exists p', parent_path (x :: p) = x :: p'.
Proof.
  unfold parent_path. destruct p as [|x' p']; simpl; eauto.
Qed.

Lemma create_directories_at_nil fs fs' :
  create_directories_at fs [] = Some fs' -> fs' = fs.
Proof. destruct fs; simpl; congruence. Qed.

Lemma lookup_create_parent_other fs x p fs' y q :
  create_directories fs (parent_path (x :: p)) = Ok fs' -> y <> x ->
  lookup fs' (y :: q) = lookup fs (y :: q).
Proof.
  unfold create_directories. intros Hc Hne.
  destruct (create_directories_at fs (parent_path (x :: p))) as [d|] eqn:Hcd;
    [|discriminate].
  injection Hc as <-.
  destruct (parent_path_cons x p) as [Hp|[p' Hp]]; rewrite Hp in Hcd.
  - apply create_directories_at_nil in Hcd. now subst.
  - eapply lookup_create_directories_other; eauto.
Qed.

(** ** Computations that keep a top-level entry *)

Section Keeps.

Variable y : string.

Lemma keeps_ret {A} (a : A) : keeps y (ret a).
Proof. intros w q. reflexivity. Qed.

Lemma keeps_throw {A} (e : exn) : keeps y (@throw A e).
Proof. intros w q. reflexivity. Qed.

Lemma keeps_bind {A B} (m : M A) (k : A -> M B) :
  keeps y m -> (forall a, keeps y (k a)) -> keeps y (bind m k).
Proof.
  intros Hm Hk w q. unfold bind. specialize (Hm w q).
  destruct (m w) as [a w'|e w'].
  - rewrite Hk. exact Hm.
  - exact Hm.
Qed.

Lemma keeps_try_catch {A} (m : M A) (h : exn -> M A) :
  keeps y m -> (forall e, keeps y (h e)) -> keeps y (try_catch m h).
Proof.
  intros Hm Hh w q. unfold try_catch. specialize (Hm w q).
  destruct (m w) as [a w'|e w'].
  - exact Hm.
  - rewrite Hh. exact Hm.
Qed.

Lemma keeps_lift {A} (r : res A) : keeps y (lift r).
Proof. destruct r; [apply keeps_ret | apply keeps_throw]. Qed.

Lemma keeps_get_fs : keeps y get_fs.
Proof. intros w q. reflexivity. Qed.

Lemma keeps_print_out s : keeps y (print_out s).
Proof. intros w q. reflexivity. Qed.

Lemma keeps_print_err s : keeps y (print_err s).
Proof. intros w q. reflexivity. Qed.

Lemma keeps_getline : keeps y getline.
Proof. intros w q. unfold getline. destruct (cin w); reflexivity. Qed.

Lemma keeps_fs_call f :
  (forall disk disk' q, f disk = Ok disk' ->
                        lookup disk' (y :: q) = lookup disk (y :: q)) ->
  keeps y (fs_call f).
Proof.
  intros Hf w q. unfold fs_call.
  destruct (f (fs w)) eqn:Hr; simpl; eauto.
Qed.

Lemma keeps_fs_do f :
  (forall disk q, lookup (f disk) (y :: q) = lookup disk (y :: q)) ->
  keeps y (fs_do f).
Proof. intros Hf w q. unfold fs_do. simpl. apply Hf. Qed.

Lemma keeps_for_each {A} (xs : list A) (body : A -> M unit) :
  (forall x, keeps y (body x)) -> keeps y (for_each xs body).
Proof.
  intros Hb. induction xs as [|x xs IH]; simpl.
  - apply keeps_ret.
  - apply keeps_bind; auto.
Qed.

Lemma keeps_times n (m : M unit) : keeps y m -> keeps y (times n m).
Proof.
  intros Hm. induction n; simpl.
  - apply keeps_ret.
  - apply keeps_bind; auto.
Qed.

End Keeps.

Create HintDb keeps.
#[local] Hint Resolve keeps_ret keeps_throw keeps_lift keeps_get_fs
  keeps_print_out keeps_print_err keeps_getline : keeps.

(** Splits a computation along its binds and branches. *)
Ltac keeps_step :=
  match goal with
  | |- keeps _ (bind _ _) => apply keeps_bind; [|intro]
  | |- keeps _ (try_catch _ _) => apply keeps_try_catch; [|intro]
  | |- keeps _ (for_each _ _) => apply keeps_for_each; intro
  | |- keeps _ (if ?b then _ else _) => destruct b
  | |- keeps _ (match ?x with _ => _ end) => destruct x
  | |- keeps _ (let (_, _) := ?x in _) => destruct x
  | |- keeps _ _ => solve [auto with keeps]
  end.

Section KeepsPackageManager.

Variable E : env.
Variable y : string.

Lemma keeps_executeCommand command :
  system_keeps E y -> keeps y (executeCommand E command).
Proof.
  intros Hs w q. unfold executeCommand.
  specialize (Hs command (fs w) q).
  destruct (system_ E command (fs w)) as [result disk'].
  destruct (result =? 0)%Z; simpl in *; exact Hs.
Qed.

Lemma keeps_clone_or_update repository resolved repoDir :
  system_keeps E y -> keeps y (clone_or_update E repository resolved repoDir).
Proof.
  intros Hs. unfold clone_or_update.
  repeat first [apply keeps_executeCommand; assumption | keeps_step].
Qed.

Lemma keeps_copy_headers repoDir :
  y <> "include" -> keeps y (copy_headers repoDir).
Proof.
  intros Hne. unfold copy_headers.
  repeat keeps_step. unfold copy_header.
  apply keeps_bind; [|intro]; apply keeps_fs_call; intros disk disk' q Hc;
    unfold projectInclude in Hc; cbn [app] in Hc.
  - eapply lookup_create_parent_other; eauto.
  - eapply lookup_copy_file_other; eauto.
Qed.

Lemma keeps_copy_libs repoDir :
  y <> "lib" -> keeps y (copy_libs repoDir).
Proof.
  intros Hne. unfold copy_libs.
  repeat keeps_step. unfold copy_lib.
  apply keeps_fs_call; intros disk disk' q Hc.
  unfold projectLib in Hc; cbn [app] in Hc.
  eapply lookup_copy_file_other; eauto.
Qed.

Lemma keeps_update_cmakelists repository :
  y <> "CMakeLists.txt" -> keeps y (update_cmakelists E repository).
Proof.
  intros Hne. unfold update_cmakelists, link_lib.
  repeat first
    [ apply keeps_fs_do; intros disk q;
      first [ now apply lookup_ofstream_open_app_other
            | now apply lookup_stream_insert_other ]
    | keeps_step ].
Qed.

Lemma keeps_saveConfig config :
  y <> configFileName -> keeps y (saveConfig E config).
Proof.
  intros Hne. unfold saveConfig. apply keeps_fs_do. intros disk q.
  unfold exec_ops, saveConfig_ops, configPath. cbn [fold_left exec_op].
  rewrite lookup_stream_insert_other by assumption.
  now apply lookup_ofstream_open_other.
Qed.

Lemma keeps_update_config config repository resolved :
  y <> configFileName -> keeps y (update_config E config repository resolved).
Proof.
  intros Hne. unfold update_config.
  apply keeps_bind; [auto with keeps | intro; now apply keeps_saveConfig].
Qed.

Lemma keeps_removeFolderRecursively x p :
  y <> x -> keeps y (removeFolderRecursively E (x :: p)).
Proof.
  intros Hne. unfold removeFolderRecursively.
  repeat first
    [ apply keeps_fs_do; intros disk q;
      first [ now apply lookup_delete_other
            | destruct (put disk (x :: p) _) eqn:Hput;
              [ eapply lookup_put_other; eauto | reflexivity ] ]
    | keeps_step ].
Qed.

Lemma keeps_clean_up :
  y <> "TegenModules" -> keeps y (clean_up E).
Proof.
  intros Hne. unfold clean_up.
  apply keeps_bind; [now apply keeps_removeFolderRecursively | intro].
  apply keeps_ret.
Qed.

Lemma keeps_integrate repository resolved :
  system_keeps E y ->
  y <> "include" -> y <> "lib" -> y <> "CMakeLists.txt" ->
  keeps y (integrate E repository resolved).
Proof.
  intros Hs H1 H2 H3. unfold integrate.
  apply keeps_bind; [auto with keeps | intro].
  apply keeps_bind; [now apply keeps_clone_or_update | intro].
  apply keeps_bind; [now apply keeps_copy_headers | intro].
  apply keeps_bind; [now apply keeps_copy_libs | intro].
  now apply keeps_update_cmakelists.
Qed.

End KeepsPackageManager.

(* ================================================================== *)
(** ** Version resolution *)

(** C6: with no version requested the resolved version is the branch name of
    the host platform, one of three constants; a requested version is used
    verbatim; the resolved version is never empty. *)
Theorem resolved_version_policy (E : env) (version : string) :
  (version = "" /\ resolvedVersion E version = osBranch E \/
   (version =? "") = false /\ resolvedVersion E version = version) /\
  osBranch E = match platform E with
               | Linux => "LinuxBranch"
               | Windows => "WindowsBranch"
               | MacOS => "MacBranch"
               end /\
  (resolvedVersion E version =? "") = false.
Proof.
  unfold resolvedVersion, osBranch.
  destruct (version =? "") eqn:Hv.
  - apply String.eqb_eq in Hv. subst version.
    repeat split; auto; destruct (platform E); reflexivity.
  - repeat split; auto.
Qed.

(** The older revision resolves to a non-empty version as well, with the
    single default [main]. *)
Lemma resolved_version_legacy (version : string) :
  resolvedVersion_legacy "" = "main" /\
  (resolvedVersion_legacy version =? "") = false.
Proof.
  split; [reflexivity|]. unfold resolvedVersion_legacy.
  destruct (version =? "") eqn:Hv; [reflexivity | exact Hv].
Qed.

(* ================================================================== *)
(** ** Exit status *)

(** Whatever [install] itself reports, [main] returns 0; only an exception
    that leaves [install] gives 1. *)
Lemma main_install_status (E : env) (prog package : string) (w : world) :
  match install E package "" w with
  | Ret _ w' => main E [prog; "install"; package] w = Ret 0%Z w'
  | Exc e w' =>
      exists w'', main E [prog; "install"; package] w = Ret 1%Z w''
  end.
Proof.
  unfold main, main_try. cbn [length nth Nat.eqb Nat.ltb Nat.leb andb].
  cbn [String.eqb Ascii.eqb Bool.eqb].
  unfold bind, try_catch, print_err, ret.
  destruct (install E package "" w) as [x w'|e w']; [reflexivity|].
  eexists. reflexivity.
Qed.

(** C3: the exit status of failing commands.  [install] without a manifest,
    [install] with a failing fetch and [run] with a failing target all
    report on the error stream and exit with 0; a failing [build] exits
    with 1. *)
Theorem reported_failures_exit_status :
  (exists w,
      main (Demo.linux Demo.removes_all) ["tegen"; "install"; "widgets"]
           (Demo.start (Dir [])) = Ret 0%Z w /\
      cerr w = ["TegenConfig.json not found. Run 'init' first."]) /\
  (exists w message,
      main (Demo.offline Demo.removes_all) ["tegen"; "install"; "widgets"]
           (Demo.start Demo.project0) = Ret 0%Z w /\
      cerr w = ["Failed to install package: Command failed: " ++ message] /\
      lookup (fs w) configPath = lookup Demo.project0 configPath) /\
  (exists w,
      main (Demo.offline Demo.removes_all) ["tegen"; "run"]
           (Demo.start (Dir [("TegenConfig.json", File (Demo.render Demo.manifest0));
                             ("build", Dir [("demo", File "ELF")])]))
      = Ret 0%Z w /\
      cerr w = ["Failed to run the project. Make sure it's built correctly."]) /\
  (exists w message,
      main (Demo.offline Demo.removes_all) ["tegen"; "build"]
           (Demo.start Demo.project0) = Ret 1%Z w /\
      cerr w = ["An error occurred: Command failed: " ++ message]).
Proof.
  repeat split.
  - eexists. split; vm_compute; reflexivity.
  - eexists. eexists. repeat split; vm_compute; reflexivity.
  - eexists. split; vm_compute; reflexivity.
  - eexists. eexists. split; vm_compute; reflexivity.
Qed.

(* ================================================================== *)
(** ** Files of the project directory *)

Lemma append_assoc (a b c : string) : (a ++ b) ++ c = a ++ b ++ c.
Proof. induction a as [|x a IH]; simpl; [reflexivity | now rewrite IH]. Qed.

Lemma append_empty_r (a : string) : a ++ "" = a.
Proof. induction a as [|x a IH]; simpl; [reflexivity | now rewrite IH]. Qed.

Lemma lookup_cons_root fs x q n :
  lookup fs (x :: q) = Some n -> exists es, fs = Dir es.
Proof. destruct fs as [c|es]; simpl; [discriminate | eauto]. Qed.

Lemma is_directory_root fs x q n :
  lookup fs (x :: q) = Some n -> is_directory fs [] = true.
Proof.
  intros H. apply lookup_cons_root in H as [es ->]. reflexivity.
Qed.

(** Opening a file of the project directory for writing empties it. *)
Lemma ofstream_open_top_file disk x c :
  lookup disk [x] = Some (File c) ->
  lookup (ofstream_open disk [x]) [x] = Some (File "").
Proof.
  intros H. unfold ofstream_open. rewrite H.
  destruct (lookup_cons_root _ _ _ _ H) as [es ->].
  cbn [parent_path removelast is_directory lookup put].
  cbn [lookup]. now rewrite find_entry_set_entry_same.
Qed.

(** Opening it for appending keeps what it holds, and creates it empty when
    it is missing. *)
Lemma ofstream_open_app_top disk es x :
  disk = Dir es ->
  is_dir (kind_of disk [x]) = false ->
  lookup (ofstream_open_app disk [x]) [x]
  = Some (File match lookup disk [x] with
               | Some (File c) => c
               | _ => ""
               end).
Proof.
  intros -> Hk. unfold ofstream_open_app, kind_of in *.
  destruct (lookup (Dir es) [x]) as [[c|es']|] eqn:Hl; try discriminate.
  - exact Hl.
  - unfold ofstream_open. rewrite Hl.
    cbn [parent_path removelast is_directory lookup put].
    cbn [lookup]. now rewrite find_entry_set_entry_same.
Qed.

Lemma stream_insert_top disk x c s :
  lookup disk [x] = Some (File c) ->
  lookup (stream_insert disk [x] s) [x] = Some (File (c ++ s)).
Proof.
  intros H. unfold stream_insert. rewrite H.
  destruct (lookup_cons_root _ _ _ _ H) as [es ->].
  cbn [put lookup]. now rewrite find_entry_set_entry_same.
Qed.

(* ================================================================== *)
(** ** Saving the manifest *)

(** The finished save leaves the new text in the manifest. *)
Lemma saveConfig_ops_content (E : env) (config : json) (disk : node) (old : string) :
  lookup disk configPath = Some (File old) ->
  lookup (exec_ops (saveConfig_ops E config) disk) configPath
  = Some (File (dump E 4 config)).
Proof.
  intros Hold. unfold saveConfig_ops, exec_ops, configPath in *.
  cbn [fold_left exec_op].
  rewrite (stream_insert_top _ _ "" _); [reflexivity|].
  eapply ofstream_open_top_file; eauto.
Qed.

(** C5, as the code has it: the manifest is rewritten in place.  The save
    opens the manifest itself with truncation and then writes the new text;
    no step renames and no step touches another path.  The finished save
    leaves the new text; stopped after the opening it leaves an empty file,
    whatever the manifest held. *)
Theorem saveConfig_rewrites_in_place (E : env) (config : json) (disk : node)
    (old : string) :
  lookup disk configPath = Some (File old) ->
  Forall (fun op => match op with
                    | OpenTrunc p | Insert p _ => p = configPath
                    | Rename _ _ => False
                    end) (saveConfig_ops E config) /\
  lookup (exec_ops (saveConfig_ops E config) disk) configPath
  = Some (File (dump E 4 config)) /\
  lookup (exec_ops (firstn 1 (saveConfig_ops E config)) disk) configPath
  = Some (File "") /\
  (forall k y q, y <> configFileName ->
     lookup (exec_ops (firstn k (saveConfig_ops E config)) disk) (y :: q)
     = lookup disk (y :: q)).
Proof.
  intros Hold. split; [|split; [now apply (saveConfig_ops_content E config disk old)|]].
  { repeat constructor. }
  unfold saveConfig_ops, exec_ops, configPath in *.
  split.
  - cbn [firstn fold_left exec_op]. eapply ofstream_open_top_file; eauto.
  - intros k y q Hne.
    destruct k as [|[|k]]; cbn [firstn]; rewrite ?firstn_nil;
      cbn [fold_left exec_op].
    + reflexivity.
    + now apply lookup_ofstream_open_other.
    + rewrite lookup_stream_insert_other by assumption.
      now apply lookup_ofstream_open_other.
Qed.

Lemma saveConfig_rewrites_in_place_witness :
  let E := Demo.linux Demo.removes_all in
  let config := Demo.manifest_with [("widgets", JStr "v2")] in
  lookup Demo.project0 configPath = Some (File (Demo.render Demo.manifest0)) /\
  lookup (exec_ops (saveConfig_ops E config) Demo.project0) configPath
  = Some (File (Demo.render config)) /\
  lookup (exec_ops (firstn 1 (saveConfig_ops E config)) Demo.project0) configPath
  = Some (File "").
Proof.
  cbv zeta. split; [reflexivity|].
  split;
    apply (saveConfig_rewrites_in_place (Demo.linux Demo.removes_all)
             (Demo.manifest_with [("widgets", JStr "v2")]) Demo.project0
             (Demo.render Demo.manifest0)); reflexivity.
Defined.

(** C5 fails as stated: a save stopped between its two steps leaves a
    manifest that holds neither the previous text nor the new one, and that
    no longer reads as JSON. *)
Lemma saveConfig_interrupted_loses_manifest :
  let E := Demo.linux Demo.removes_all in
  let config := Demo.manifest_with [("widgets", JStr "LinuxBranch")] in
  let disk := exec_ops (firstn 1 (saveConfig_ops E config)) Demo.project0 in
  lookup Demo.project0 configPath = Some (File (Demo.render Demo.manifest0)) /\
  parse E (Demo.render Demo.manifest0) = Some Demo.manifest0 /\
  lookup disk configPath = Some (File "") /\
  lookup disk configPath <> lookup Demo.project0 configPath /\
  lookup disk configPath <> Some (File (dump E 4 config)) /\
  parse E "" = None /\
  lookup disk ["TegenConfig.json.tmp"] = None.
Proof.
  cbv zeta. repeat split; try (vm_compute; reflexivity);
    vm_compute; discriminate.
Qed.

(** The save the specification asks for, on the contrary, leaves the
    previous or the new text after each of its steps. *)
Lemma spec_save_keeps_a_manifest (E : env) (config : json) (disk : node)
    (old : string) (k : nat) :
  lookup disk configPath = Some (File old) ->
  lookup disk ["TegenConfig.json.tmp"] = None ->
  let disk' := exec_ops (firstn k (spec_save_ops E config)) disk in
  lookup disk' configPath = Some (File old) \/
  lookup disk' configPath = Some (File (dump E 4 config)).
Proof.
  intros Hold Htmp. cbv zeta. unfold spec_save_ops, exec_ops, configPath in *.
  assert (Hne : "TegenConfig.json" <> "TegenConfig.json.tmp") by discriminate.
  destruct k as [|[|[|k]]]; cbn [firstn]; rewrite ?firstn_nil;
    cbn [fold_left exec_op].
  - now left.
  - left. now rewrite lookup_ofstream_open_other.
  - left. rewrite lookup_stream_insert_other by assumption.
    now rewrite lookup_ofstream_open_other.
  - right.
    destruct (lookup_cons_root _ _ _ _ Hold) as [es ->].
    set (d1 := ofstream_open (Dir es) ["TegenConfig.json.tmp"]).
    assert (H1 : lookup d1 ["TegenConfig.json.tmp"] = Some (File "")).
    { unfold d1, ofstream_open. rewrite Htmp.
      cbn [parent_path removelast is_directory lookup put].
      cbn [lookup]. now rewrite find_entry_set_entry_same. }
    rewrite (stream_insert_top _ _ _ _ H1).
    destruct (lookup_cons_root _ _ _ _ (stream_insert_top _ _ _ (dump E 4 config) H1))
      as [es2 Hes2].
    rewrite Hes2. cbn [delete put].
    cbn [lookup]. now rewrite find_entry_set_entry_same.
Qed.

(* ================================================================== *)
(** ** The patch of the build description *)

Lemma filename_in_lib name : filename (projectLib ++ [name])%list = name.
Proof. reflexivity. Qed.

Lemma link_loop (E : env) (es : entries) :
  forall w c,
    lookup (fs w) cmakeFile = Some (File c) ->
    exists w',
      for_each (map (fun e => (projectLib ++ [fst e])%list) es) (link_lib E) w
      = Ret tt w' /\
      lookup (fs w') cmakeFile
      = Some (File (c ++ fold_right String.append "" (link_directives E es))).
Proof.
  induction es as [|[name n] es IH]; intros w c Hc.
  - exists w. split; [reflexivity|]. simpl. now rewrite append_empty_r.
  - cbn [map for_each fst]. unfold bind, link_lib at 1.
    rewrite filename_in_lib. unfold link_directives.
    cbn [filter map fst]. fold (link_directives E es).
    destruct (is_static_lib name).
    + unfold fs_do at 1.
      destruct (IH (with_fs w (stream_insert (fs w) cmakeFile
                                 (link_directive E (projectLib ++ [name])%list)))
                   (c ++ link_directive E (projectLib ++ [name])%list))
        as [w' [Hrun Hfile]].
      { simpl. now apply stream_insert_top. }
      exists w'. split; [exact Hrun|].
      rewrite Hfile. cbn [fold_right]. now rewrite append_assoc.
    + unfold ret at 1. now apply IH.
Qed.

(** One run of the patch: the block goes to the end of the build
    description, whatever the file holds. *)
Lemma update_cmakelists_run (E : env) (repository : string) (w : world)
    (es : entries) (c : string) :
  lookup (fs w) projectLib = Some (Dir es) ->
  lookup (fs w) cmakeFile = Some (File c) ->
  exists w',
    update_cmakelists E repository w = Ret tt w' /\
    lookup (fs w') cmakeFile = Some (File (c ++ block E repository es)).
Proof.
  intros Hlib Hc.
  unfold update_cmakelists in *.
  unfold bind at 1. unfold fs_do at 1.
  unfold bind at 1. unfold fs_do at 1.
  unfold bind at 1. unfold fs_do at 1.
  unfold bind at 1. unfold get_fs at 1.
  cbn [fs with_fs].
  set (d0 := ofstream_open_app (fs w) cmakeFile).
  assert (H0 : lookup d0 cmakeFile = Some (File c)).
  { unfold d0, ofstream_open_app. now rewrite Hc. }
  set (d1 := stream_insert d0 cmakeFile (marker repository)).
  assert (H1 : lookup d1 cmakeFile = Some (File (c ++ marker repository)))
    by now apply stream_insert_top.
  set (d2 := stream_insert d1 cmakeFile ("include_directories(include)" ++ nl)).
  assert (H2 : lookup d2 cmakeFile
               = Some (File ((c ++ marker repository)
                             ++ "include_directories(include)" ++ nl)))
    by now apply stream_insert_top.
  assert (Hlib2 : lookup d2 projectLib = Some (Dir es)).
  { unfold d2, d1, d0, cmakeFile, projectLib.
    rewrite !lookup_stream_insert_other by discriminate.
    rewrite lookup_ofstream_open_app_other by discriminate. exact Hlib. }
  unfold bind at 1. unfold directory_iterator. rewrite Hlib2. cbn [lift].
  unfold ret at 1. unfold bind at 1.
  destruct (link_loop E es (with_fs (with_fs (with_fs w d0) d1) d2) _ H2)
    as [w3 [Hrun H3]].
  match goal with
  | |- context [for_each ?a ?b ?c] =>
      change (for_each a b c)
        with (for_each (map (fun e => (projectLib ++ [fst e])%list) es)
                (link_lib E) (with_fs (with_fs (with_fs w d0) d1) d2))
  end.
  rewrite Hrun.
  unfold block.
  destruct (platform E).
  - exists w3. split; [reflexivity|]. rewrite H3.
    now rewrite append_empty_r, !append_assoc.
  - eexists. split; [reflexivity|]. cbn [fs with_fs].
    rewrite (stream_insert_top _ _ _ _ H3). now rewrite !append_assoc.
  - exists w3. split; [reflexivity|]. rewrite H3.
    now rewrite append_empty_r, !append_assoc.
Qed.

Lemma bind_Ret {A B} (m : M A) (k : A -> M B) w a w' :
  m w = Ret a w' -> bind m k w = k a w'.
Proof. intros H. unfold bind. now rewrite H. Qed.

Lemma bind_Exc {A B} (m : M A) (k : A -> M B) w e w' :
  m w = Exc e w' -> bind m k w = Exc e w'.
Proof. intros H. unfold bind. now rewrite H. Qed.

Lemma keeps_Ret {A} y (m : M A) w a w' q :
  keeps y m -> m w = Ret a w' ->
  lookup (fs w') (y :: q) = lookup (fs w) (y :: q).
Proof. intros Hk Hm. specialize (Hk w q). now rewrite Hm in Hk. Qed.

Lemma keeps_Exc {A} y (m : M A) w e w' q :
  keeps y m -> m w = Exc e w' ->
  lookup (fs w') (y :: q) = lookup (fs w) (y :: q).
Proof. intros Hk Hm. specialize (Hk w q). now rewrite Hm in Hk. Qed.

(** C1, as the code has it: the patch is not idempotent.  It checks no
    marker: every run appends one block headed by the marker of the
    dependency, so [n] runs for the same dependency leave [n] such blocks at
    the end of the build description. *)
Theorem patch_appends_one_block_per_run (E : env) (repository : string)
    (n : nat) (w : world) (es : entries) (c : string) :
  lookup (fs w) projectLib = Some (Dir es) ->
  lookup (fs w) cmakeFile = Some (File c) ->
  exists w',
    times n (update_cmakelists E repository) w = Ret tt w' /\
    lookup (fs w') cmakeFile
    = Some (File (c ++ fold_right String.append ""
                         (repeat (block E repository es) n))) /\
    exists rest, block E repository es = marker repository ++ rest.
Proof.
  revert w c. induction n as [|n IH]; intros w c Hlib Hc.
  - exists w. split; [reflexivity|]. split.
    + simpl. now rewrite append_empty_r.
    + unfold block. eauto.
  - destruct (update_cmakelists_run E repository w es c Hlib Hc)
      as [w1 [Hrun Hfile]].
    destruct (IH w1 (c ++ block E repository es)) as [w' [Hrest [Hfile' Hb]]].
    + unfold projectLib. rewrite <- Hlib.
      eapply keeps_Ret; [|exact Hrun].
      apply keeps_update_cmakelists. discriminate.
    + exact Hfile.
    + exists w'. split; [|split].
      * cbn [times]. erewrite bind_Ret by exact Hrun. exact Hrest.
      * rewrite Hfile'. cbn [repeat fold_right]. now rewrite append_assoc.
      * exact Hb.
Qed.

Lemma patch_appends_one_block_per_run_witness :
  let E := Demo.linux Demo.removes_all in
  let w := Demo.start (Dir [("CMakeLists.txt", File Demo.cmake0);
                            ("lib", Dir [("libwidgets.a", File "!<arch>")])]) in
  lookup (fs w) projectLib = Some (Dir [("libwidgets.a", File "!<arch>")]) /\
  lookup (fs w) cmakeFile = Some (File Demo.cmake0) /\
  exists w',
    times 3 (update_cmakelists E "widgets") w = Ret tt w' /\
    lookup (fs w') cmakeFile
    = Some (File (Demo.cmake0 ++ fold_right String.append ""
                    (repeat (block E "widgets" [("libwidgets.a", File "!<arch>")]) 3))) /\
    exists rest, block E "widgets" [("libwidgets.a", File "!<arch>")]
                 = marker "widgets" ++ rest.
Proof.
  cbv zeta. split; [reflexivity|]. split; [reflexivity|].
  apply (patch_appends_one_block_per_run (Demo.linux Demo.removes_all) "widgets" 3
           (Demo.start (Dir [("CMakeLists.txt", File Demo.cmake0);
                             ("lib", Dir [("libwidgets.a", File "!<arch>")])]))
           [("libwidgets.a", File "!<arch>")] Demo.cmake0); reflexivity.
Defined.

(** C1 fails as stated.  Two runs of the patch for [widgets] leave two marked
    blocks; and an install of [widgets] into a project whose build
    description holds the block of an earlier install of [widgets], and
    whose manifest does not list it any more, adds a second one. *)
Lemma patch_twice_leaves_two_blocks :
  let E := Demo.linux Demo.removes_all in
  let patched :=
    after (times 2 (update_cmakelists E "widgets")
                  (Demo.start (Dir [("CMakeLists.txt", File Demo.cmake0);
                                    ("lib", Dir [])]))) in
  let installed := after (install E "widgets" "" (Demo.start Demo.project0)) in
  let reset :=
    with_fs installed (exec_ops (saveConfig_ops E Demo.manifest0) (fs installed)) in
  Demo.count_occurrences (marker "widgets")
    (Demo.file_text (fs patched) cmakeFile) = 2 /\
  Demo.count_occurrences (marker "widgets")
    (Demo.file_text (fs installed) cmakeFile) = 1 /\
  lookup (fs reset) configPath = lookup Demo.project0 configPath /\
  (exists w, install E "widgets" "" reset = Ret Installed w /\
             Demo.count_occurrences (marker "widgets")
               (Demo.file_text (fs w) cmakeFile) = 2).
Proof.
  cbv zeta. repeat split; try (vm_compute; reflexivity).
  eexists. split; vm_compute; reflexivity.
Qed.

(* ================================================================== *)
(** ** Cleanup *)

Lemma bind_Ret_inv {A B} (m : M A) (k : A -> M B) w b w' :
  bind m k w = Ret b w' ->
  exists a w1, m w = Ret a w1 /\ k a w1 = Ret b w'.
Proof.
  unfold bind. destruct (m w) as [a w1|e w1]; [eauto | discriminate].
Qed.

Lemma only_warnings_same w w' :
  cin w' = cin w -> cerr w' = cerr w -> only_warnings w w'.
Proof.
  intros Hin Herr. split; [exact Hin|]. exists [].
  split; [now rewrite app_nil_r | constructor].
Qed.

Lemma only_warnings_refl w : only_warnings w w.
Proof. now apply only_warnings_same. Qed.

Lemma only_warnings_trans w1 w2 w3 :
  only_warnings w1 w2 -> only_warnings w2 w3 -> only_warnings w1 w3.
Proof.
  intros [Hin1 [l1 [H1 F1]]] [Hin2 [l2 [H2 F2]]]. split; [congruence|].
  exists (l1 ++ l2)%list. split.
  - rewrite H2, H1. now rewrite app_assoc.
  - apply Forall_app. now split.
Qed.

(** [removeFolderRecursively] returns, whatever [remove_all] achieves; what
    it cannot remove costs a warning.  Under [_WIN32] the folder has to be
    there for the permission loop. *)
Lemma removeFolderRecursively_returns (E : env) (folder : path) (w : world) :
  (platform E = Windows -> is_directory (fs w) folder = true) ->
  exists w',
    removeFolderRecursively E folder w = Ret tt w' /\
    cout w' = cout w /\ only_warnings w w'.
Proof.
  intros Hdir. unfold removeFolderRecursively.
  assert (Hfirst :
    match platform E with
    | Windows =>
        fs <- get_fs ;;
        _ <- lift (recursive_directory_iterator fs folder) ;;
        ret tt
    | _ => ret tt
    end w = Ret tt w).
  { destruct (platform E); try reflexivity.
    specialize (Hdir eq_refl). unfold is_directory in Hdir.
    unfold bind, get_fs, recursive_directory_iterator.
    destruct (lookup (fs w) folder) as [[c|es]|]; try discriminate.
    reflexivity. }
  erewrite bind_Ret by exact Hfirst.
  unfold bind at 1. unfold get_fs at 1.
  destruct (lookup (fs w) folder) as [tree|].
  - destruct (remove_all_residue E tree) as [[rest message]|].
    + eexists. split; [reflexivity|]. split; [reflexivity|].
      split; [reflexivity|]. eexists. split; [reflexivity|].
      repeat constructor.
    + eexists. split; [reflexivity|]. split; [reflexivity|].
      now apply only_warnings_same.
  - exists w. split; [reflexivity|]. split; [reflexivity|].
    apply only_warnings_refl.
Qed.

(** C9: once the manifest is saved the install succeeds, whatever the
    removal of the staging area achieves.  The cleanup throws nothing; what
    it cannot remove is reported as a warning; the manifest and everything
    outside the staging area stay as the save left them. *)
Theorem cleanup_is_not_fatal (E : env) (config : json)
    (repository resolved : string) (w w1 : world) :
  (integrate E repository resolved ;;
   update_config E config repository resolved) w = Ret tt w1 ->
  (platform E = Windows -> is_directory (fs w1) modulesDir = true) ->
  exists w2,
    install_guarded E config repository resolved w = Ret Installed w2 /\
    only_warnings w1 w2 /\
    forall y q, y <> "TegenModules" ->
                lookup (fs w2) (y :: q) = lookup (fs w1) (y :: q).
Proof.
  intros Hsaved Hdir.
  apply bind_Ret_inv in Hsaved as [[] [wa [Hint Hupd]]].
  destruct (removeFolderRecursively_returns E modulesDir w1 Hdir)
    as [w2 [Hrm [Hout Hwarn]]].
  assert (Hclean : clean_up E w1 = Ret tt w2).
  { unfold clean_up. erewrite bind_Ret by exact Hrm. reflexivity. }
  eexists. split; [|split].
  - unfold install_guarded, try_catch, install_try.
    erewrite bind_Ret; [|erewrite bind_Ret by exact Hint;
                         erewrite bind_Ret by exact Hupd;
                         erewrite bind_Ret by exact Hclean; reflexivity].
    reflexivity.
  - destruct Hwarn as [Hin Hw]. split; [exact Hin | exact Hw].
  - intros y q Hne. cbn [fs].
    eapply keeps_Ret; [|exact Hclean]. now apply keeps_clean_up.
Qed.

Lemma cleanup_is_not_fatal_witness :
  let E := Demo.linux Demo.removes_nothing in
  let w := Demo.start (Dir [("TegenConfig.json", File (Demo.render Demo.manifest0));
                            ("CMakeLists.txt", File Demo.cmake0);
                            ("TegenModules", Dir []); ("include", Dir []);
                            ("lib", Dir [])]) in
  exists w1 w2,
    (integrate E "widgets" "LinuxBranch" ;;
     update_config E Demo.manifest0 "widgets" "LinuxBranch") w = Ret tt w1 /\
    install_guarded E Demo.manifest0 "widgets" "LinuxBranch" w = Ret Installed w2 /\
    only_warnings w1 w2 /\
    cerr w2 = ["Warning: Failed to completely remove /home/dev/demo/TegenModules: Permission denied"].
Proof.
  cbv zeta. eexists.
  destruct (cleanup_is_not_fatal (Demo.linux Demo.removes_nothing) Demo.manifest0
              "widgets" "LinuxBranch"
              (Demo.start (Dir [("TegenConfig.json", File (Demo.render Demo.manifest0));
                                ("CMakeLists.txt", File Demo.cmake0);
                                ("TegenModules", Dir []); ("include", Dir []);
                                ("lib", Dir [])]))
              _ ltac:(vm_compute; reflexivity) ltac:(discriminate))
    as [w2 [Hrun [Hwarn Hframe]]].
  exists w2. split; [vm_compute; reflexivity|].
  split; [exact Hrun|]. split; [exact Hwarn|].
  vm_compute in Hrun. injection Hrun as <-. reflexivity.
Defined.

(* ================================================================== *)
(** ** The entry of [install] *)

Lemma create_directories_top disk x :
  is_directory disk [] = true ->
  is_regular (kind_of disk [x]) = false ->
  exists disk',
    create_directories disk [x] = Ok disk' /\
    lookup disk' [x] = Some match lookup disk [x] with
                            | Some n => n
                            | None => Dir []
                            end /\
    is_directory disk' [] = true.
Proof.
  unfold is_directory, kind_of, create_directories.
  destruct disk as [c|es]; [discriminate|]. intros _.
  cbn [lookup create_directories_at].
  destruct (find_entry x es) as [[c|es']|] eqn:Hx; cbn [is_regular];
    try discriminate; intros _; cbn [create_directories_at];
    eexists; (split; [reflexivity|]); cbn [lookup];
    rewrite find_entry_set_entry_same; auto.
Qed.

Lemma fs_call_create_top (w : world) x :
  is_directory (fs w) [] = true ->
  is_regular (kind_of (fs w) [x]) = false ->
  exists disk',
    fs_call (fun fs => create_directories fs [x]) w = Ret tt (with_fs w disk') /\
    lookup disk' [x] = Some match lookup (fs w) [x] with
                            | Some n => n
                            | None => Dir []
                            end /\
    is_directory disk' [] = true /\
    forall y q, y <> x -> lookup disk' (y :: q) = lookup (fs w) (y :: q).
Proof.
  intros Hroot Hx.
  destruct (create_directories_top _ _ Hroot Hx) as [disk' [Hc [Hl Hr]]].
  exists disk'. unfold fs_call. rewrite Hc. repeat split; auto.
  intros y q Hne. unfold create_directories in Hc.
  destruct (create_directories_at (fs w) [x]) eqn:Hcd; [|discriminate].
  injection Hc as <-. eapply lookup_create_directories_other; eauto.
Qed.

Lemma configExists_run (w : world) n :
  lookup (fs w) configPath = Some n -> configExists w = Ret true w.
Proof.
  intros H. unfold configExists, bind, get_fs, ret, exists_. now rewrite H.
Qed.

Lemma configExists_missing (w : world) :
  lookup (fs w) configPath = None -> configExists w = Ret false w.
Proof.
  intros H. unfold configExists, bind, get_fs, ret, exists_. now rewrite H.
Qed.

Lemma loadConfig_run (E : env) (w : world) text config :
  lookup (fs w) configPath = Some (File text) ->
  parse E text = Some config ->
  loadConfig E w = Ret config w.
Proof.
  intros H Hp. unfold loadConfig, bind, get_fs. now rewrite H, Hp.
Qed.

Lemma lists_dependency_subscript config repository :
  lists_dependency config repository = true ->
  exists deps v,
    subscript config "dependencies" = Ok (deps, config) /\
    contains deps repository = true /\
    subscript deps repository = Ok (v, deps).
Proof.
  unfold lists_dependency, subscript.
  destruct config as [| | | | |ms]; try discriminate.
  destruct (find_member "dependencies" ms) as [deps|]; [|discriminate].
  intros Hc. exists deps. unfold contains in *.
  destruct deps as [| | | | |ds]; try discriminate.
  destruct (find_member repository ds) as [v|]; [|discriminate].
  exists v. auto.
Qed.

Lemma subscript_contains config deps config' repository :
  subscript config "dependencies" = Ok (deps, config') ->
  contains deps repository = lists_dependency config repository.
Proof.
  unfold lists_dependency, subscript.
  destruct config as [| | | | |ms]; try discriminate.
  - intros [= <- <-]. reflexivity.
  - destruct (find_member "dependencies" ms) as [d|].
    + intros [= <- <-]. reflexivity.
    + intros [= <- <-]. reflexivity.
Qed.

(** C4, as the code has it: an install of a name the manifest lists returns
    at the guard, which comes after the workspace directories are ensured.
    It fetches nothing and copies nothing; the manifest and the build
    description are unchanged; each of [TegenModules/], [include/] and
    [lib/] is as before when it exists and is created empty when it is
    missing; every other entry of the project is unchanged. *)
Theorem install_of_listed_dependency (E : env) (repository version : string)
    (w : world) (text : string) (config : json) :
  lookup (fs w) configPath = Some (File text) ->
  parse E text = Some config ->
  lists_dependency config repository = true ->
  is_regular (kind_of (fs w) modulesDir) = false ->
  is_regular (kind_of (fs w) projectInclude) = false ->
  is_regular (kind_of (fs w) projectLib) = false ->
  exists w',
    install E repository version w = Ret AlreadyInstalled w' /\
    lookup (fs w') configPath = lookup (fs w) configPath /\
    lookup (fs w') cmakeFile = lookup (fs w) cmakeFile /\
    (forall dir, In dir [modulesDir; projectInclude; projectLib] ->
       lookup (fs w') dir = Some match lookup (fs w) dir with
                                 | Some n => n
                                 | None => Dir []
                                 end) /\
    (forall y q, ~ In y ["TegenModules"; "include"; "lib"] ->
       lookup (fs w') (y :: q) = lookup (fs w) (y :: q)) /\
    cerr w' = cerr w.
Proof.
  intros Hfile Hparse Hlisted Hm Hi Hl.
  destruct (lists_dependency_subscript _ _ Hlisted)
    as [deps [v [Hsub [Hcontains Hsubv]]]].
  assert (Hroot : is_directory (fs w) [] = true)
    by (eapply is_directory_root; eauto).
  unfold modulesDir, projectInclude, projectLib in *.
  destruct (fs_call_create_top w "TegenModules" Hroot Hm)
    as [d1 [Hrun1 [Hl1 [Hroot1 Hf1]]]].
  destruct (fs_call_create_top (with_fs w d1) "include") as [d2 [Hrun2 [Hl2 [Hroot2 Hf2]]]];
    [exact Hroot1 | unfold kind_of in *; cbn [fs with_fs];
                    rewrite Hf1 by discriminate; exact Hi |].
  destruct (fs_call_create_top (with_fs (with_fs w d1) d2) "lib")
    as [d3 [Hrun3 [Hl3 [Hroot3 Hf3]]]];
    [exact Hroot2 | unfold kind_of in *; cbn [fs with_fs];
                    rewrite Hf2, Hf1 by discriminate; exact Hl |].
  cbn [fs with_fs] in *.
  eexists. split; [|split; [|split; [|split; [|split]]]].
  - unfold install.
    erewrite bind_Ret by (eapply configExists_run; eauto). cbn [negb].
    erewrite bind_Ret by (eapply loadConfig_run; eauto).
    unfold modulesDir, projectInclude, projectLib.
    erewrite bind_Ret by exact Hrun1.
    erewrite bind_Ret by exact Hrun2.
    erewrite bind_Ret by exact Hrun3.
    rewrite Hsub. cbn [lift]. unfold bind at 1. unfold ret at 1.
    rewrite Hcontains. rewrite Hsubv. cbn [lift].
    unfold bind, ret, print_out. reflexivity.
  - cbn [fs with_fs]. unfold configPath, configFileName.
    rewrite Hf3, Hf2, Hf1 by discriminate. reflexivity.
  - cbn [fs with_fs]. unfold cmakeFile.
    rewrite Hf3, Hf2, Hf1 by discriminate. reflexivity.
  - cbn [fs with_fs]. intros dir [<-|[<-|[<-|[]]]].
    + rewrite Hf3, Hf2 by discriminate. exact Hl1.
    + rewrite Hf3 by discriminate. rewrite Hl2.
      now rewrite Hf1 by discriminate.
    + rewrite Hl3. now rewrite Hf2, Hf1 by discriminate.
  - cbn [fs with_fs]. intros y q Hy. cbn [In] in Hy.
    rewrite Hf3, Hf2, Hf1; auto; intros ->; tauto.
  - reflexivity.
Qed.

Lemma install_of_listed_dependency_witness :
  let E := Demo.linux Demo.removes_all in
  let w := Demo.start Demo.checkout in
  lists_dependency (Demo.manifest_with [("widgets", JStr "LinuxBranch")]) "widgets"
  = true /\
  exists w',
    install E "widgets" "" w = Ret AlreadyInstalled w' /\
    lookup (fs w') configPath = lookup (fs w) configPath /\
    lookup (fs w') cmakeFile = lookup (fs w) cmakeFile /\
    lookup (fs w') projectInclude = lookup (fs w) projectInclude /\
    lookup (fs w') projectLib = Some (Dir []) /\
    cerr w' = cerr w.
Proof.
  cbv zeta. split; [reflexivity|].
  destruct (install_of_listed_dependency (Demo.linux Demo.removes_all) "widgets" ""
              (Demo.start Demo.checkout)
              (Demo.render (Demo.manifest_with [("widgets", JStr "LinuxBranch")]))
              (Demo.manifest_with [("widgets", JStr "LinuxBranch")]))
    as [w' [Hrun [Hcfg [Hcmake [Hdirs [Hrest Herr]]]]]];
    try reflexivity.
  exists w'. repeat split; auto.
  - rewrite (Hdirs projectInclude) by (simpl; auto). reflexivity.
  - rewrite (Hdirs projectLib) by (simpl; auto). reflexivity.
Defined.

(** C4 fails as stated.  The same install again, right after a successful
    one, is not a no-op: it creates the staging directory, which the first
    install had removed, and leaves it behind.  And in a checkout whose
    manifest lists [widgets] and that has no [lib/] yet, the install of
    [widgets] stops at the guard but has created [lib/]. *)
Lemma install_of_listed_dependency_changes_disk :
  let E := Demo.linux Demo.removes_all in
  let installed := after (install E "widgets" "" (Demo.start Demo.project0)) in
  lists_dependency (Demo.manifest_with [("widgets", JStr "LinuxBranch")]) "widgets"
  = true /\
  lookup (fs installed) configPath
  = Some (File (Demo.render (Demo.manifest_with [("widgets", JStr "LinuxBranch")]))) /\
  lookup (fs installed) modulesDir = None /\
  (exists w',
     install E "widgets" "" installed = Ret AlreadyInstalled w' /\
     lookup (fs w') modulesDir = Some (Dir []) /\
     fs w' <> fs installed) /\
  lookup Demo.checkout configPath
  = Some (File (Demo.render (Demo.manifest_with [("widgets", JStr "LinuxBranch")]))) /\
  lookup Demo.checkout projectLib = None /\
  (exists w',
     install E "widgets" "" (Demo.start Demo.checkout) = Ret AlreadyInstalled w' /\
     lookup (fs w') projectLib = Some (Dir []) /\
     lookup (fs w') projectLib <> lookup Demo.checkout projectLib).
Proof.
  cbv zeta. repeat split; try (vm_compute; reflexivity).
  - eexists. split; [vm_compute; reflexivity|].
    split; [vm_compute; reflexivity|]. vm_compute. discriminate.
  - eexists. split; [vm_compute; reflexivity|].
    split; [vm_compute; reflexivity|]. vm_compute. discriminate.
Qed.

(* ================================================================== *)
(** ** The manifest through an install *)

Lemma find_member_set_member_same k v ms :
  find_member k (set_member k v ms) = Some v.
Proof.
  induction ms as [|[k' x] ms IH]; simpl.
  - now rewrite String.eqb_refl.
  - destruct (k' =? k) eqn:Hk; simpl; rewrite Hk; auto.
Qed.

Lemma find_member_set_member_other k other v ms :
  other <> k ->
  find_member other (set_member k v ms) = find_member other ms.
Proof.
  intros Hne. induction ms as [|[k' x] ms IH]; simpl.
  - destruct (k =? other) eqn:Hk; auto.
    apply String.eqb_eq in Hk. congruence.
  - destruct (k' =? k) eqn:Hk; simpl.
    + apply String.eqb_eq in Hk. subst k'.
      destruct (k =? other) eqn:Hk'; auto.
      apply String.eqb_eq in Hk'. congruence.
    + now rewrite IH.
Qed.

(** What [config["dependencies"][repository] = resolved] makes of the
    manifest as [install] holds it after its guard. *)
Lemma add_dependency_spec config deps config1 repository resolved config' :
  subscript config "dependencies" = Ok (deps, config1) ->
  add_dependency config1 repository resolved = Ok config' ->
  dependencies config' = set_member repository (JStr resolved) (dependencies config) /\
  forall k, k <> "dependencies" -> member config' k = member config k.
Proof.
  unfold subscript, add_dependency, dependencies, member.
  destruct config as [| | | | |ms]; try discriminate.
  - intros [= <- <-].
    change [("dependencies", JNull)] with (set_member "dependencies" JNull []).
    cbn [subscript]. rewrite find_member_set_member_same. cbn [assign].
    intros [= <-]. cbn [find_member]. rewrite String.eqb_refl.
    split; [reflexivity|].
    intros k Hk. destruct (String.eqb_spec "dependencies" k); congruence.
  - destruct (find_member "dependencies" ms) as [d|] eqn:Hd.
    + intros [= <- <-]. cbn [subscript]. rewrite Hd.
      destruct d as [| | | | |ds]; cbn [assign]; try discriminate;
        intros [= <-]; rewrite find_member_set_member_same;
        (split; [reflexivity|]);
        intros k Hk; now apply find_member_set_member_other.
    + intros [= <- <-]. cbn [subscript].
      rewrite find_member_set_member_same. cbn [assign].
      intros [= <-]. rewrite find_member_set_member_same.
      split; [reflexivity|].
      intros k Hk. now rewrite !find_member_set_member_other.
Qed.

Lemma saveConfig_run (E : env) (config : json) (w : world) text :
  lookup (fs w) configPath = Some (File text) ->
  exists w',
    saveConfig E config w = Ret tt w' /\
    lookup (fs w') configPath = Some (File (dump E 4 config)).
Proof.
  intros H. eexists. split; [reflexivity|]. cbn [fs with_fs].
  now apply (saveConfig_ops_content E config (fs w) text).
Qed.

Section Preserved.

(** A property of the world that each step of a computation preserves. *)
Variable P : world -> Prop.

Lemma preserved_bind {A B} (m : M A) (k : A -> M B) :
  (forall w, P w -> P (after (m w))) ->
  (forall a w, P w -> P (after (k a w))) ->
  forall w, P w -> P (after (bind m k w)).
Proof.
  intros Hm Hk w Hw. unfold bind. specialize (Hm w Hw).
  destruct (m w) as [a w'|e w']; simpl in *; auto.
Qed.

End Preserved.

Lemma keeps_staging {A} (m : M A) :
  keeps "TegenModules" m ->
  forall w, is_directory (fs w) modulesDir = true ->
            is_directory (fs (after (m w))) modulesDir = true.
Proof.
  intros Hk w Hw. unfold is_directory, modulesDir in *. now rewrite Hk.
Qed.

Lemma executeCommand_staging (E : env) command :
  staging_stays E ->
  forall w, is_directory (fs w) modulesDir = true ->
            is_directory (fs (after (executeCommand E command w))) modulesDir = true.
Proof.
  intros Hs w Hw. unfold executeCommand.
  specialize (Hs command (fs w) Hw).
  destruct (system_ E command (fs w)) as [result disk'].
  destruct (result =? 0)%Z; exact Hs.
Qed.

Ltac staging_bind :=
  apply (preserved_bind (fun w => is_directory (fs w) modulesDir = true)).

Lemma clone_or_update_staging (E : env) repository resolved repoDir :
  staging_stays E ->
  forall w, is_directory (fs w) modulesDir = true ->
            is_directory (fs (after (clone_or_update E repository resolved repoDir w)))
                         modulesDir = true.
Proof.
  intros Hs. unfold clone_or_update.
  staging_bind; [intros ? ?; assumption|]. intros disk.
  destruct (negb (exists_ disk repoDir)).
  - now apply executeCommand_staging.
  - staging_bind; [intros ? ?; assumption|]. intros _.
    staging_bind; [now apply executeCommand_staging|]. intros _.
    staging_bind; [now apply executeCommand_staging|]. intros _.
    now apply executeCommand_staging.
Qed.

Lemma integrate_staging (E : env) repository resolved :
  staging_stays E ->
  forall w, is_directory (fs w) modulesDir = true ->
            is_directory (fs (after (integrate E repository resolved w)))
                         modulesDir = true.
Proof.
  intros Hs. unfold integrate.
  staging_bind; [intros ? ?; assumption|]. intros _.
  staging_bind; [now apply clone_or_update_staging|]. intros _.
  staging_bind;
    [apply keeps_staging, keeps_copy_headers; discriminate|]. intros _.
  staging_bind;
    [apply keeps_staging, keeps_copy_libs; discriminate|]. intros _.
  apply keeps_staging, keeps_update_cmakelists; discriminate.
Qed.

Lemma keeps_create_top y x :
  y <> x -> keeps y (fs_call (fun fs => create_directories fs [x])).
Proof.
  intros Hne. apply keeps_fs_call. intros disk disk' q Hc.
  unfold create_directories in Hc.
  destruct (create_directories_at disk [x]) eqn:Hcd; [|discriminate].
  injection Hc as <-. eapply lookup_create_directories_other; eauto.
Qed.

Lemma create_top_is_directory (w w' : world) x :
  fs_call (fun fs => create_directories fs [x]) w = Ret tt w' ->
  is_directory (fs w') [x] = true.
Proof.
  unfold fs_call, create_directories.
  destruct (fs w) as [c|es]; [discriminate|].
  cbn [create_directories_at].
  destruct (match find_entry x es with Some c => c | None => Dir [] end)
    as [c|es']; [discriminate|].
  cbn [create_directories_at]. intros [= <-]. cbn [fs with_fs].
  unfold is_directory. cbn [lookup].
  now rewrite find_entry_set_entry_same.
Qed.

(** The [try] block and the manifest: a failure leaves the manifest as it
    is, a success leaves the manifest with the dependency added. *)
Lemma install_guarded_manifest (E : env) (config1 : json)
    (repository resolved : string) (w : world) (text : string) :
  system_keeps E configFileName ->
  (platform E = Windows -> staging_stays E) ->
  is_directory (fs w) modulesDir = true ->
  lookup (fs w) configPath = Some (File text) ->
  match install_guarded E config1 repository resolved w with
  | Ret Installed w' =>
      exists config',
        add_dependency config1 repository resolved = Ok config' /\
        lookup (fs w') configPath = Some (File (dump E 4 config'))
  | Ret _ w' | Exc _ w' => lookup (fs w') configPath = Some (File text)
  end.
Proof.
  intros Hsys Hstay Hdir Hfile.
  assert (Hk : keeps configFileName (integrate E repository resolved))
    by (apply keeps_integrate; [assumption | discriminate ..]).
  unfold install_guarded, try_catch.
  unfold bind at 1. unfold install_try.
  destruct (integrate E repository resolved w) as [[] w1|e w1] eqn:Hint.
  - erewrite bind_Ret by exact Hint.
    assert (Hfile1 : lookup (fs w1) configPath = Some (File text))
      by (rewrite <- Hfile; eapply keeps_Ret; eauto).
    unfold update_config.
    destruct (add_dependency config1 repository resolved) as [config'|e] eqn:Hadd.
    + destruct (saveConfig_run E config' w1 text Hfile1) as [w2 [Hsave Hfile2]].
      assert (Hdir2 : platform E = Windows -> is_directory (fs w2) modulesDir = true).
      { intros Hwin.
        assert (H1 := integrate_staging E repository resolved (Hstay Hwin) w Hdir).
        rewrite Hint in H1. cbn [after] in H1.
        assert (H2 := keeps_staging (saveConfig E config')
                        (keeps_saveConfig E "TegenModules" config' ltac:(discriminate))
                        w1 H1).
        now rewrite Hsave in H2. }
      destruct (removeFolderRecursively_returns E modulesDir w2 Hdir2)
        as [w3 [Hrm _]].
      assert (Hclean : clean_up E w2 = Ret tt w3)
        by (unfold clean_up; erewrite bind_Ret by exact Hrm; reflexivity).
      erewrite bind_Ret;
        [|erewrite (bind_Ret (lift (Ok config'))) by reflexivity; exact Hsave].
      erewrite bind_Ret by exact Hclean.
      unfold print_out, ret. exists config'. split; [reflexivity|]. cbn [fs].
      rewrite <- Hfile2. eapply keeps_Ret; [|exact Hclean].
      apply keeps_clean_up. discriminate.
    + erewrite bind_Exc; [|erewrite bind_Exc by reflexivity; reflexivity].
      cbn. exact Hfile1.
  - erewrite bind_Exc by exact Hint.
    unfold report_failure, bind, print_err, ret. cbn [fs].
    rewrite <- Hfile. eapply keeps_Exc; eauto.
Qed.


Lemma Demo_git_keeps residue y :
  y <> "TegenModules" -> system_keeps (Demo.linux residue) y.
Proof.
  intros Hne command disk q. cbn [system_ Demo.linux]. unfold Demo.git_remote.
  destruct (find _ Demo.remote) as [r|]; [|reflexivity].
  destruct (put disk ["TegenModules"; fst r] (snd r)) as [disk'|] eqn:Hput;
    [|reflexivity].
  cbn [snd]. eapply lookup_put_other; eauto.
Qed.


(** A failing fetch: the install reports the failure and the manifest is
    the text it was. *)
Example install_fetch_failure_keeps_manifest :
  exists e w',
    install (Demo.offline Demo.removes_all) "widgets" "" (Demo.start Demo.project0)
    = Ret (InstallFailed e) w' /\
    lookup (fs w') configPath = Some (File (Demo.render Demo.manifest0)).
Proof. eexists. eexists. split; vm_compute; reflexivity. Qed.

(* ================================================================== *)
(** ** Paths and kinds *)

Lemma path_eqb_eq p q : path_eqb p q = true <-> p = q.
Proof.
  revert q. induction p as [|x p IH]; intros [|y q]; simpl;
    try (split; [discriminate | discriminate]); try tauto.
  rewrite andb_true_iff, String.eqb_eq, IH.
  split; [intros [-> ->]; reflexivity | intros [= -> ->]; auto].
Qed.


Lemma path_eqb_neq p q : path_eqb p q = false <-> p <> q.
Proof.
  rewrite <- path_eqb_eq. destruct (path_eqb p q); split; congruence.
Qed.

Lemma is_prefix_refl p : is_prefix p p = true.
Proof. induction p as [|x p IH]; simpl; [|rewrite String.eqb_refl]; auto. Qed.

Lemma is_prefix_app p q : is_prefix p (p ++ q)%list = true.
Proof. induction p as [|x p IH]; simpl; [|rewrite String.eqb_refl]; auto. Qed.

Lemma is_prefix_inv q p :
  is_prefix q p = true -> exists r, p = (q ++ r)%list.
Proof.
  revert p. induction q as [|x q IH]; intros p H.
  - exists p. reflexivity.
  - destruct p as [|y p]; [discriminate|]. simpl in H.
    apply andb_true_iff in H as [Hx Hq]. apply String.eqb_eq in Hx. subst y.
    destruct (IH _ Hq) as [r ->]. exists r. reflexivity.
Qed.

Lemma is_prefix_trans a b c :
  is_prefix a b = true -> is_prefix b c = true -> is_prefix a c = true.
Proof.
  intros Hab Hbc. apply is_prefix_inv in Hab as [r ->].
  apply is_prefix_inv in Hbc as [s ->]. rewrite <- app_assoc.
  apply is_prefix_app.
Qed.

Lemma is_prefix_parent p : is_prefix (parent_path p) p = true.
Proof.
  unfold parent_path. induction p as [|x p IH]; [reflexivity|].
  destruct p as [|y p]; [reflexivity|].
  cbn [removelast is_prefix] in *. now rewrite String.eqb_refl, IH.
Qed.

Lemma parent_path_app p x : parent_path (p ++ [x])%list = p.
Proof. unfold parent_path. apply removelast_last. Qed.

Lemma lookup_app fs p q :
  lookup fs (p ++ q)%list = match lookup fs p with
                            | Some n => lookup n q
                            | None => None
                            end.
Proof.
  revert fs. induction p as [|x p IH]; intros fs; [reflexivity|].
  cbn [app lookup]. destruct fs as [c|es]; [reflexivity|].
  destruct (find_entry x es); [apply IH | reflexivity].
Qed.

Lemma lookup_file_below fs p c q :
  lookup fs p = Some (File c) -> q <> [] -> lookup fs (p ++ q)%list = None.
Proof.
  intros H Hq. rewrite lookup_app, H. destruct q; [congruence | reflexivity].
Qed.

Lemma lookup_none_below fs p q :
  lookup fs p = None -> lookup fs (p ++ q)%list = None.
Proof. intros H. now rewrite lookup_app, H. Qed.

(** Below a regular file and below nothing there is nothing. *)
Lemma kind_of_below fs p q :
  is_dir (kind_of fs p) = false -> q <> [] -> kind_of fs (p ++ q)%list = Absent.
Proof.
  unfold kind_of. intros H Hq.
  destruct (lookup fs p) as [[c|es]|] eqn:Hp; try discriminate.
  - now rewrite (lookup_file_below _ _ _ _ Hp Hq).
  - now rewrite (lookup_none_below _ _ _ Hp).
Qed.

Lemma kind_of_cons es x q :
  kind_of (Dir es) (x :: q) = match find_entry x es with
                              | Some c => kind_of c q
                              | None => Absent
                              end.
Proof. unfold kind_of. cbn [lookup]. now destruct (find_entry x es). Qed.



(** Writing a regular file where no directory is changes that path only. *)
Lemma put_file_kind to :
  forall fs c,
    to <> [] ->
    is_directory fs (parent_path to) = true ->
    is_dir (kind_of fs to) = false ->
    exists fs',
      put fs to (File c) = Some fs' /\
      forall q, kind_of fs' q = if path_eqb q to then Regular c else kind_of fs q.
Proof.
  induction to as [|x t IH]; intros fs c Hne Hparent Hto; [congruence|].
  destruct t as [|x' t'].
  - unfold is_directory, parent_path in Hparent. cbn in Hparent.
    destruct fs as [c0|es]; [discriminate|].
    eexists. split; [reflexivity|]. intros [|y q]; [reflexivity|].
    rewrite !kind_of_cons. cbn [path_eqb].
    destruct (String.eqb_spec y x) as [->|Hyx].
    + rewrite find_entry_set_entry_same. cbn [andb].
      destruct q as [|z q]; [reflexivity|]. cbn [path_eqb].
      rewrite kind_of_cons in Hto.
      destruct (find_entry x es) as [c1|]; [|reflexivity].
      assert (Hb := kind_of_below c1 [] (z :: q) Hto ltac:(discriminate)).
      cbn [app] in Hb. rewrite Hb. reflexivity.
    + now rewrite find_entry_set_entry_other.
  - unfold is_directory, parent_path in Hparent.
    cbn [removelast lookup] in Hparent.
    destruct fs as [c0|es]; [discriminate|].
    destruct (find_entry x es) as [c0|] eqn:Hx; [|discriminate].
    rewrite kind_of_cons, Hx in Hto.
    destruct (IH c0 c ltac:(discriminate) Hparent Hto) as [c0' [Hput Hk]].
    exists (Dir (set_entry x c0' es)). split.
    + change (put (Dir es) (x :: x' :: t') (File c))
        with (match find_entry x es with
              | Some c1 =>
                  match put c1 (x' :: t') (File c) with
                  | Some c' => Some (Dir (set_entry x c' es))
                  | None => None
                  end
              | None => None
              end).
      now rewrite Hx, Hput.
    + intros [|y q]; [reflexivity|].
      rewrite !kind_of_cons.
      change (path_eqb (y :: q) (x :: x' :: t'))
        with ((y =? x) && path_eqb q (x' :: t')).
      destruct (String.eqb_spec y x) as [->|Hyx].
      * rewrite find_entry_set_entry_same, Hx. cbn [andb]. apply Hk.
      * now rewrite find_entry_set_entry_other.
Qed.

Lemma copy_file_kind fs from to c :
  lookup fs from = Some (File c) ->
  to <> [] ->
  is_directory fs (parent_path to) = true ->
  is_dir (kind_of fs to) = false ->
  exists fs',
    copy_file fs from to = Ok fs' /\
    forall q, kind_of fs' q = if path_eqb q to then Regular c else kind_of fs q.
Proof.
  intros Hfrom Hne Hparent Hto.
  destruct (put_file_kind to fs c Hne Hparent Hto) as [fs' [Hput Hk]].
  exists fs'. split; [|exact Hk].
  unfold copy_file. rewrite Hfrom.
  unfold kind_of in Hto.
  destruct (lookup fs to) as [[c'|es]|]; try discriminate;
    rewrite Hparent; (destruct to; [congruence|]); now rewrite Hput.
Qed.

Lemma kind_of_regular fs p c :
  kind_of fs p = Regular c <-> lookup fs p = Some (File c).
Proof.
  unfold kind_of. destruct (lookup fs p) as [[c'|es]|]; split; congruence.
Qed.

Lemma kind_of_directory fs p :
  kind_of fs p = Directory <-> is_directory fs p = true.
Proof.
  unfold kind_of, is_directory.
  destruct (lookup fs p) as [[c'|es]|]; split; congruence.
Qed.

Lemma is_regular_kind fs p :
  is_regular (kind_of fs p) = is_regular_file fs p.
Proof.
  unfold kind_of, is_regular_file. now destruct (lookup fs p) as [[c|es]|].
Qed.




(* ================================================================== *)
(** ** Header integration *)






Lemma is_prefix_length q p : is_prefix q p = true -> length q <= length p.
Proof.
  revert p. induction q as [|x q IH]; intros p H; [simpl; lia|].
  destruct p as [|y p]; [discriminate|]. cbn [is_prefix] in H.
  apply andb_true_iff in H as [_ Hq]. apply IH in Hq. simpl. lia.
Qed.



Lemma find_entry_In_pair name es v :
  find_entry name es = Some v -> In (name, v) es.
Proof.
  induction es as [|[k x] es IH]; simpl; [discriminate|].
  destruct (String.eqb_spec k name) as [->|Hne].
  - intros [= ->]. now left.
  - intros H. right. now apply IH.
Qed.

(** The walk lists whatever a path leads to. *)
Lemma walk_complete rel :
  forall t n, rel <> [] -> lookup t rel = Some n -> In (rel, n) (walk t).
Proof.
  induction rel as [|x r IH]; intros t n Hne Hl; [congruence|].
  destruct t as [c|es]; [discriminate|]. cbn [lookup] in Hl.
  destruct (find_entry x es) as [child|] eqn:Hx; [|discriminate].
  cbn [walk]. apply in_flat_map. exists (x, child).
  split; [now apply find_entry_In_pair|]. cbn [fst snd].
  destruct r as [|y r'].
  - left. cbn in Hl. congruence.
  - right. apply in_map_iff. exists (y :: r', n). split; [reflexivity|].
    apply IH; [discriminate | exact Hl].
Qed.

Lemma filter_map_comm {A B} (f : B -> bool) (g : A -> B) (l : list A) :
  filter f (map g l) = map g (filter (fun x => f (g x)) l).
Proof.
  induction l as [|a l IH]; [reflexivity|]. cbn [map filter].
  destruct (f (g a)); cbn [map]; now rewrite IH.
Qed.




Lemma staged_files_complete tree rel c :
  rel <> [] -> lookup tree rel = Some (File c) -> In rel (staged_files tree).
Proof.
  intros Hne H. unfold staged_files. apply filter_In. split.
  - apply in_map_iff. exists (rel, File c). split; [reflexivity|].
    now apply walk_complete.
  - unfold is_regular_file. now rewrite H.
Qed.



(* ================================================================== *)
(** ** Library integration *)

Lemma node_ind' (P : node -> Prop) :
  (forall c, P (File c)) ->
  (forall es, Forall (fun e => P (snd e)) es -> P (Dir es)) ->
  forall n, P n.
Proof.
  intros Hf Hd. fix IH 1. intros [c|es].
  - apply Hf.
  - apply Hd. induction es as [|[k v] es IHes]; constructor.
    + apply IH.
    + apply IHes.
Qed.

(** The descent ends where the staged tree holds [descend_node]. *)
Lemma descend_lookup n :
  forall fs p, lookup fs p = Some n ->
               lookup fs (descend n p) = Some (descend_node n).
Proof.
  induction n as [c|es IH] using node_ind'; intros fs p Hp; [exact Hp|].
  destruct es as [|[name child] [|e2 rest]]; try exact Hp.
  cbn [descend descend_node]. inversion IH as [|? ? Hchild _]; subst.
  apply Hchild. rewrite lookup_app, Hp. cbn [lookup find_entry].
  now rewrite String.eqb_refl.
Qed.

(** It ends at a node that is not a directory with exactly one entry. *)
Lemma descend_node_stops n name child :
  descend_node n <> Dir [(name, child)].
Proof.
  induction n as [c|es IH] using node_ind'; [discriminate|].
  destruct es as [|[k v] [|e2 rest]]; try discriminate.
  cbn [descend_node]. inversion IH; subst. assumption.
Qed.

Lemma descend_extends n : forall p, is_prefix p (descend n p) = true.
Proof.
  induction n as [c|es IH] using node_ind'; intros p; [apply is_prefix_refl|].
  destruct es as [|[name child] [|e2 rest]]; try apply is_prefix_refl.
  cbn [descend]. inversion IH as [|? ? Hchild _]; subst.
  eapply is_prefix_trans; [apply is_prefix_app | apply Hchild].
Qed.

Lemma is_prefix_app_cancel p a b :
  is_prefix (p ++ a)%list (p ++ b)%list = is_prefix a b.
Proof.
  induction p as [|x p IH]; [reflexivity|].
  cbn [app is_prefix]. now rewrite String.eqb_refl.
Qed.

Lemma is_prefix_step p name q d :
  is_prefix p q = true -> q <> p ->
  is_prefix (p ++ [name])%list d = true -> is_prefix q d = true ->
  is_prefix (p ++ [name])%list q = true.
Proof.
  intros Hpq Hne Hd Hqd.
  apply is_prefix_inv in Hpq as [r ->].
  apply is_prefix_inv in Hd as [s ->].
  rewrite <- app_assoc, is_prefix_app_cancel in Hqd.
  destruct r as [|x r]; [now rewrite app_nil_r in Hne|].
  cbn [app is_prefix] in Hqd. apply andb_true_iff in Hqd as [Hx _].
  apply String.eqb_eq in Hx. subst x.
  change (p ++ name :: r)%list with (p ++ [name] ++ r)%list.
  rewrite app_assoc. apply is_prefix_app.
Qed.

(** Every directory passed on the way has exactly one entry. *)
Lemma descend_chain n :
  forall fs p q,
    lookup fs p = Some n ->
    is_prefix p q = true -> is_prefix q (descend n p) = true ->
    q <> descend n p ->
    exists name child, lookup fs q = Some (Dir [(name, child)]).
Proof.
  induction n as [c|es IH] using node_ind'; intros fs p q Hp Hpq Hqd Hne.
  - cbn [descend] in *. exfalso. apply Hne.
    apply is_prefix_inv in Hpq as [r ->]. apply is_prefix_length in Hqd.
    rewrite length_app in Hqd. destruct r; [now rewrite app_nil_r|].
    simpl in Hqd. lia.
  - destruct es as [|[name child] [|e2 rest]].
    + cbn [descend] in *. exfalso. apply Hne.
      apply is_prefix_inv in Hpq as [r ->]. apply is_prefix_length in Hqd.
      rewrite length_app in Hqd. destruct r; [now rewrite app_nil_r|].
      simpl in Hqd. lia.
    + cbn [descend] in *. inversion IH as [|? ? Hchild _]; subst.
      destruct (path_eqb q p) eqn:Heq.
      * apply path_eqb_eq in Heq. subst q. eauto.
      * apply path_eqb_neq in Heq.
        apply (Hchild fs (p ++ [name])%list q); auto.
        -- rewrite lookup_app, Hp. cbn [lookup find_entry].
           now rewrite String.eqb_refl.
        -- eapply is_prefix_step; eauto. apply descend_extends.
    + cbn [descend] in *. exfalso. apply Hne.
      apply is_prefix_inv in Hpq as [r ->]. apply is_prefix_length in Hqd.
      rewrite length_app in Hqd. destruct r; [now rewrite app_nil_r|].
      simpl in Hqd. lia.
Qed.

Lemma filename_app src rel : rel <> [] -> filename (src ++ rel)%list = filename rel.
Proof.
  intros Hne. unfold filename. induction src as [|x src IH]; [reflexivity|].
  cbn [app]. rewrite <- IH.
  destruct (src ++ rel)%list eqn:Happ; [|reflexivity].
  apply app_eq_nil in Happ as [_ ->]. congruence.
Qed.

Lemma find_last {A} (f : A -> bool) (l : list A) (a : A) :
  find f (l ++ [a])%list = match find f l with
                           | Some x => Some x
                           | None => if f a then Some a else None
                           end.
Proof.
  induction l as [|x l IH]; [reflexivity|].
  cbn [app find]. now destruct (f x).
Qed.

Lemma filter_andb {A} (f g : A -> bool) (l : list A) :
  filter (fun x => f x && g x) l = filter g (filter f l).
Proof.
  induction l as [|a l IH]; [reflexivity|]. cbn [filter].
  destruct (f a); cbn [andb filter]; [destruct (g a)|]; now rewrite IH.
Qed.

(** The library files of the loop, as relative paths. *)
Lemma libFiles_staged fs libDir es :
  lookup fs libDir = Some (Dir es) ->
  libFiles fs libDir
  = Ok (map (fun rel => (libDir ++ rel)%list) (staged_libs (Dir es))).
Proof.
  intros Hdir. unfold libFiles, recursive_directory_iterator, staged_libs,
    staged_files.
  rewrite Hdir. f_equal.
  rewrite <- (map_map fst (fun rel => (libDir ++ rel)%list)).
  rewrite filter_map_comm. f_equal.
  rewrite <- filter_andb. apply filter_ext. intros rel.
  unfold is_regular_file. rewrite lookup_app, Hdir.
  destruct rel as [|x rel]; [reflexivity|].
  now rewrite filename_app by discriminate.
Qed.

(** One library: copied under its file name into [lib/]. *)
Lemma copy_lib_step (src r : path) (w : world) (c : string) :
  (exists t, src = "TegenModules" :: t) ->
  r <> [] ->
  lookup (fs w) (src ++ r)%list = Some (File c) ->
  is_directory (fs w) projectLib = true ->
  is_dir (kind_of (fs w) ["lib"; filename r]) = false ->
  exists disk',
    copy_lib (src ++ r)%list w = Ret tt (with_fs w disk') /\
    forall q,
      kind_of disk' q
      = if path_eqb q ["lib"; filename r] then Regular c else kind_of (fs w) q.
Proof.
  intros [t ->] Hr Hsrc Hlib Hto. unfold copy_lib.
  rewrite filename_app by assumption.
  change (projectLib ++ [filename r])%list with ["lib"; filename r].
  destruct (copy_file_kind (fs w) (("TegenModules" :: t) ++ r)%list
              ["lib"; filename r] c Hsrc ltac:(discriminate) Hlib Hto)
    as [d [Hc Hk]].
  exists d. split; [|exact Hk]. unfold fs_call. now rewrite Hc.
Qed.

(** The loop over the library files, on their relative paths [rels]: a name
    in [lib/] holds what the last staged file of that name holds. *)
Lemma copy_lib_loop (src : path) (rels : list path) :
  (exists t, src = "TegenModules" :: t) ->
  forall w,
    is_directory (fs w) projectLib = true ->
    (forall rel, In rel rels ->
       rel <> [] /\ is_regular (kind_of (fs w) (src ++ rel)%list) = true) ->
    (forall rel, In rel rels ->
       is_dir (kind_of (fs w) ["lib"; filename rel]) = false) ->
    exists w',
      for_each (map (fun rel => (src ++ rel)%list) rels) copy_lib w = Ret tt w' /\
      cin w' = cin w /\ cout w' = cout w /\ cerr w' = cerr w /\
      forall q,
        kind_of (fs w') q
        = match find (fun rel => path_eqb q ["lib"; filename rel]) (rev rels) with
          | Some rel => kind_of (fs w) (src ++ rel)%list
          | None => kind_of (fs w) q
          end.
Proof.
  intros [t ->]. induction rels as [|r rest IH]; intros w Hlib Ha Hb.
  - exists w. repeat split; reflexivity.
  - destruct (Ha r (or_introl eq_refl)) as [Hr Hreg].
    destruct (kind_of (fs w) (("TegenModules" :: t) ++ r)%list) as [|c|] eqn:Hkr;
      try discriminate.
    apply kind_of_regular in Hkr as Hlr.
    destruct (copy_lib_step ("TegenModules" :: t) r w c
                (ex_intro _ t eq_refl) Hr Hlr Hlib (Hb r (or_introl eq_refl)))
      as [d [Hstep Hk]].
    assert (Hstaged : forall p, kind_of d (("TegenModules" :: t) ++ p)%list
                                = kind_of (fs w) (("TegenModules" :: t) ++ p)%list)
      by (intros p; now rewrite Hk).
    destruct (IH (with_fs w d)) as [w' [Hrun [Hin [Hout [Herr Hpost]]]]].
    + cbn [fs with_fs]. apply kind_of_directory. rewrite Hk.
      now apply kind_of_directory.
    + intros rel Hrel. destruct (Ha rel (or_intror Hrel)) as [Hne Hreg'].
      split; [exact Hne|]. cbn [fs with_fs]. now rewrite Hstaged.
    + intros rel Hrel. cbn [fs with_fs]. rewrite Hk.
      destruct (path_eqb _ _); [reflexivity|]. apply Hb. now right.
    + exists w'. split; [|split; [|split; [|split]]]; try assumption.
      * cbn [map for_each]. erewrite bind_Ret by exact Hstep. exact Hrun.
      * intros q. rewrite Hpost. cbn [rev fs with_fs]. rewrite find_last.
        destruct (find _ (rev rest)) as [rel|]; [apply Hstaged|].
        rewrite Hk. destruct (path_eqb q ["lib"; filename r]); congruence.
Qed.

Lemma find_ext {A} (f g : A -> bool) (l : list A) :
  (forall x, f x = g x) -> find f l = find g l.
Proof.
  intros H. induction l as [|a l IH]; [reflexivity|].
  cbn [find]. now rewrite H, IH.
Qed.

Lemma staged_libs_spec tree rel :
  In rel (staged_libs tree) ->
  rel <> [] /\ is_static_lib (filename rel) = true /\
  exists c, lookup tree rel = Some (File c).
Proof.
  unfold staged_libs. intros H. apply filter_In in H as [Hfile Hext].
  unfold staged_files in Hfile. apply filter_In in Hfile as [Hwalk Hreg].
  split; [|split; [exact Hext|]].
  - intros ->. destruct tree; [|discriminate].
    cbn in Hwalk. contradiction.
  - unfold is_regular_file in Hreg.
    destruct (lookup tree rel) as [[c|es]|]; try discriminate. eauto.
Qed.

(** C8: library integration.  Without a staged [lib/] nothing happens.  With
    one, the descent goes from [lib/] through the directories that have
    exactly one entry; when it ends at a directory, and no directory of the
    project's [lib/] has the name of a library to copy, the step returns and
    [lib/] holds under each file name what the last staged [.a] or [.lib]
    file of that name below that directory holds; every other path is as
    before. *)
Theorem libraries_are_flattened (repository : string) (w : world) :
  let repoDir := (modulesDir ++ [repository])%list in
  let stagedLib := (repoDir ++ ["lib"])%list in
  (lookup (fs w) stagedLib = None -> copy_libs repoDir w = Ret tt w) /\
  (forall tree es,
     lookup (fs w) stagedLib = Some tree ->
     descend_node tree = Dir es ->
     is_directory (fs w) projectLib = true ->
     forallb (fun rel => negb (is_dir (kind_of (fs w)
                                         (projectLib ++ [filename rel])%list)))
             (staged_libs (Dir es)) = true ->
     let libDir := locate_libDir (fs w) repoDir in
     lookup (fs w) libDir = Some (Dir es) /\
     (forall name child, es <> [(name, child)]) /\
     (forall q, is_prefix stagedLib q = true -> is_prefix q libDir = true ->
                q <> libDir ->
                exists name child, lookup (fs w) q = Some (Dir [(name, child)])) /\
     exists w',
       copy_libs repoDir w = Ret tt w' /\
       cerr w' = cerr w /\
       (forall name,
          kind_of (fs w') (projectLib ++ [name])%list
          = match flattened (staged_libs (Dir es)) name with
            | Some rel => kind_of (Dir es) rel
            | None => kind_of (fs w) (projectLib ++ [name])%list
            end) /\
       (forall q, (forall name, q <> (projectLib ++ [name])%list) ->
                  kind_of (fs w') q = kind_of (fs w) q) /\
       (forall rel c,
          rel <> [] -> lookup (Dir es) rel = Some (File c) ->
          is_static_lib (filename rel) = true ->
          is_regular (kind_of (fs w') (projectLib ++ [filename rel])%list) = true)).
Proof.
  cbv zeta. split.
  - intros Hnone. unfold copy_libs, bind, get_fs, locate_libDir, exists_.
    now rewrite Hnone, Hnone.
  - intros tree es Htree Hend Hlib Hfree.
    set (stagedLib := ((modulesDir ++ [repository]) ++ ["lib"])%list) in *.
    assert (Hloc : locate_libDir (fs w) (modulesDir ++ [repository])%list
                   = descend tree stagedLib)
      by (unfold locate_libDir; fold stagedLib; now rewrite Htree).
    rewrite Hloc. set (libDir := descend tree stagedLib) in *.
    assert (Hdir : lookup (fs w) libDir = Some (Dir es))
      by (rewrite <- Hend; now apply descend_lookup).
    split; [exact Hdir|]. split; [|split].
    { intros name child ->. now apply (descend_node_stops tree name child). }
    { intros q H1 H2 H3. now apply (descend_chain tree (fs w) stagedLib q). }
    assert (Hsrc : exists t, libDir = "TegenModules" :: t).
    { destruct (is_prefix_inv _ _ (descend_extends tree stagedLib)) as [r Hr].
      fold libDir in Hr. rewrite Hr. eexists. reflexivity. }
    rewrite forallb_forall in Hfree.
    set (wp := {| fs := fs w; cin := cin w;
                  cout := (cout w ++ ["Copying library files..."])%list;
                  cerr := cerr w |}).
    destruct (copy_lib_loop libDir (staged_libs (Dir es)) Hsrc wp Hlib)
      as [w' [Hrun [Hin [Hout [Herr Hpost]]]]].
    + intros rel Hrel.
      destruct (staged_libs_spec _ _ Hrel) as [Hne [_ [c Hc]]].
      split; [exact Hne|]. unfold kind_of. cbn [fs wp].
      now rewrite lookup_app, Hdir, Hc.
    + intros rel Hrel. apply negb_true_iff. now apply (Hfree rel).
    + cbn [fs wp] in Hpost.
      assert (Hname : forall name,
                 kind_of (fs w') ["lib"; name]
                 = match flattened (staged_libs (Dir es)) name with
                   | Some rel => kind_of (Dir es) rel
                   | None => kind_of (fs w) ["lib"; name]
                   end).
      { intros name. rewrite Hpost. unfold flattened.
        rewrite (find_ext _ (fun file => name =? filename file)).
        - destruct (find _ (rev (staged_libs (Dir es)))) as [rel|]; [|reflexivity].
          unfold kind_of. now rewrite lookup_app, Hdir.
        - intros rel. cbn [path_eqb]. rewrite String.eqb_refl.
          cbn [andb]. now rewrite andb_true_r. }
      exists w'. split; [|split; [exact Herr|split; [exact Hname|split]]].
      * unfold copy_libs, bind at 1, get_fs at 1. rewrite Hloc. fold libDir.
        unfold exists_. rewrite Hdir.
        unfold bind at 1, print_out at 1. fold wp.
        rewrite (libFiles_staged _ _ _ Hdir). cbn [lift].
        unfold bind at 1, ret at 1. exact Hrun.
      * intros q Hq. rewrite Hpost.
        destruct (find _ (rev (staged_libs (Dir es)))) as [rel|] eqn:Hfind;
          [|reflexivity].
        apply find_some in Hfind as [_ Heq]. apply path_eqb_eq in Heq.
        exfalso. now apply (Hq (filename rel)).
      * intros rel c Hne Hc Hext.
        change (projectLib ++ [filename rel])%list with ["lib"; filename rel].
        rewrite Hname. unfold flattened.
        destruct (find _ (rev (staged_libs (Dir es)))) as [rel'|] eqn:Hfind.
        -- apply find_some in Hfind as [Hin' _]. apply in_rev in Hin'.
           destruct (staged_libs_spec _ _ Hin') as [_ [_ [c' Hc']]].
           unfold kind_of. now rewrite Hc'.
        -- exfalso.
           assert (Hin' : In rel (rev (staged_libs (Dir es)))).
           { apply in_rev. rewrite rev_involutive. unfold staged_libs.
             apply filter_In. split; [|exact Hext].
             now apply (staged_files_complete _ _ c). }
           apply (find_none _ _ Hfind) in Hin'.
           now rewrite String.eqb_refl in Hin'.
Qed.

Lemma libraries_are_flattened_witness :
  let w := Demo.start Demo.staged in
  lookup (fs w) ["TegenModules"; "bare"; "lib"] = None /\
  copy_libs ["TegenModules"; "bare"] w = Ret tt w /\
  locate_libDir (fs w) ["TegenModules"; "widgets"]
  = ["TegenModules"; "widgets"; "lib"; "x64"; "Release"] /\
  kind_of (fs w) ["lib"; "libwidgets.a"] = Regular "!<arch>old" /\
  exists w',
    copy_libs ["TegenModules"; "widgets"] w = Ret tt w' /\
    kind_of (fs w') ["lib"; "libwidgets.a"] = Regular "!<arch>widgets" /\
    kind_of (fs w') ["lib"; "widgets.lib"] = Regular "LIB widgets" /\
    kind_of (fs w') ["lib"; "widgets.pdb"] = Absent /\
    kind_of (fs w') ["lib"; "libmine.a"] = Regular "!<arch>mine" /\
    kind_of (fs w') ["lib"; "x64"] = Absent.
Proof.
  cbv zeta. split; [reflexivity|]. split.
  - apply (libraries_are_flattened "bare" (Demo.start Demo.staged)). reflexivity.
  - split; [reflexivity|]. split; [reflexivity|].
    destruct (proj2 (libraries_are_flattened "widgets" (Demo.start Demo.staged))
                (Dir [("x64", Dir [("Release",
                        Dir [("libwidgets.a", File "!<arch>widgets");
                             ("widgets.lib", File "LIB widgets");
                             ("widgets.pdb", File "symbols")])])])
                [("libwidgets.a", File "!<arch>widgets");
                 ("widgets.lib", File "LIB widgets");
                 ("widgets.pdb", File "symbols")]
                eq_refl eq_refl eq_refl eq_refl)
      as [_ [_ [_ [w' [Hrun [_ [Hname [Hrest _]]]]]]]].
    exists w'. split; [exact Hrun|].
    repeat split.
    + apply (Hname "libwidgets.a").
    + apply (Hname "widgets.lib").
    + apply (Hname "widgets.pdb").
    + apply (Hname "libmine.a").
    + apply (Hname "x64").
Defined.

(** Outside the claim: a staged [lib/] that holds one library and nothing
    else sends the descent into that file, and the step throws. *)
Example lone_library_is_not_copied :
  let w := Demo.start (Dir [("lib", Dir []);
                            ("TegenModules", Dir [("single", Demo.single)])]) in
  locate_libDir (fs w) ["TegenModules"; "single"]
  = ["TegenModules"; "single"; "lib"; "libsingle.a"] /\
  exists e w', copy_libs ["TegenModules"; "single"] w = Exc e w' /\
               lookup (fs w') ["lib"; "libsingle.a"] = None.
Proof.
  cbv zeta. split; [reflexivity|]. eexists. eexists.
  split; vm_compute; reflexivity.
Qed.

(* ================================================================== *)
(** ** Link directives of a later install *)

Lemma configExists_world (w : world) ok w' :
  configExists w = Ret ok w' -> w' = w.
Proof. unfold configExists, bind, get_fs, ret. congruence. Qed.

Lemma loadConfig_world (E : env) (w : world) config w' :
  loadConfig E w = Ret config w' -> w' = w.
Proof.
  unfold loadConfig, bind, get_fs, ret, throw.
  destruct (lookup (fs w) configPath) as [[text|es]|]; try congruence.
  destruct (parse E text); congruence.
Qed.

Lemma lift_world {A} (r : res A) (w : world) a w' :
  lift r w = Ret a w' -> r = Ok a /\ w' = w.
Proof. destruct r; cbn; unfold ret, throw; intros [= <- <-] || discriminate; auto. Qed.











(* ================================================================== *)
(** ** [main]: what every command line comes to *)

Lemma main_try_result (E : env) (argv : list string) (w : world) r w' :
  main_try E argv w = Ret r w' -> r = None \/ r = Some 1%Z.
Proof.
  unfold main_try. intros H.
  repeat match type of H with
         | (if ?b then _ else _) _ = _ => destruct b
         end;
    apply bind_Ret_inv in H as [a [w1 [_ H]]];
    unfold ret in H; injection H as <- _; auto.
Qed.

(** X1: No exception leaves [main], and the exit status is 0 or 1. *)
Theorem main_always_returns (E : env) (argv : list string) (w : world) :
  exists status w',
    main E argv w = Ret status w' /\ (status = 0%Z \/ status = 1%Z).
Proof.
  unfold main.
  destruct ((length argv =? 2)%nat && (nth 1 argv "" =? "-h")).
  { eexists. eexists. split; [reflexivity | now left]. }
  destruct (length argv <? 2)%nat.
  { eexists. eexists. split; [reflexivity | now right]. }
  unfold bind at 1. unfold try_catch.
  destruct (main_try E argv w) as [r w1|e w1] eqn:Htry.
  - destruct (main_try_result _ _ _ _ _ Htry) as [->| ->];
      eexists; eexists; (split; [reflexivity|]); auto.
  - eexists. eexists. split; [reflexivity | now right].
Qed.

Lemma is_command_false command :
  is_command command = false ->
  (command =? "init") = false /\ (command =? "install") = false /\
  (command =? "list") = false /\ (command =? "build") = false /\
  (command =? "run") = false.
Proof.
  unfold is_command. intros H.
  repeat (apply orb_false_iff in H as [H ?]). auto.
Qed.

(** X2: A first argument that is none of the five commands (the help flag with
    further arguments among them) is reported on the error stream, changes
    nothing on disk, and still exits with 0. *)
Theorem unknown_command_exits_zero (E : env) (argv : list string) (w : world) :
  (length argv <? 2)%nat = false ->
  (length argv =? 2)%nat && (nth 1 argv "" =? "-h") = false ->
  is_command (nth 1 argv "") = false ->
  main E argv w
  = Ret 0%Z {| fs := fs w; cin := cin w; cout := cout w;
               cerr := (cerr w ++ [("Error: Unknown command: " ++ nth 1 argv "")%string;
                                   "Run 'Tegen -h' for help."])%list |}.
Proof.
  intros Hlen Hhelp Hcmd.
  destruct (is_command_false _ Hcmd) as [H1 [H2 [H3 [H4 H5]]]].
  unfold main. rewrite Hhelp, Hlen.
  unfold main_try. rewrite H1, H2, H3, H4, H5.
  unfold bind, try_catch, print_err, ret. cbn [fs cin cout cerr].
  now rewrite <- app_assoc.
Qed.

Lemma unknown_command_exits_zero_witness :
  exists w',
    main (Demo.linux Demo.removes_all) ["tegen"; "-h"; "install"]
         (Demo.start Demo.project0) = Ret 0%Z w' /\
    fs w' = Demo.project0 /\
    cerr w' = ["Error: Unknown command: -h"; "Run 'Tegen -h' for help."].
Proof.
  eexists. split.
  - apply (unknown_command_exits_zero (Demo.linux Demo.removes_all)
             ["tegen"; "-h"; "install"] (Demo.start Demo.project0));
      reflexivity.
  - split; reflexivity.
Defined.

(** X3: Without a manifest, [install], [list], [build] and [run] only report on
    the error stream: nothing on disk changes, no workspace directory is
    made, no input is read, nothing goes to the output stream, and [main]
    exits with 0. *)
Theorem commands_need_the_manifest (E : env) (prog package : string) (w : world) :
  lookup (fs w) configPath = None ->
  forall argv,
    In argv [[prog; "install"; package]; [prog; "list"]; [prog; "build"];
             [prog; "run"]] ->
    exists w' line,
      main E argv w = Ret 0%Z w' /\
      fs w' = fs w /\ cin w' = cin w /\ cout w' = cout w /\
      cerr w' = (cerr w ++ [line])%list.
Proof.
  intros Hnone argv Hargv.
  assert (Hex := configExists_missing w Hnone).
  cbn [In] in Hargv.
  destruct Hargv as [<-|[<-|[<-|[<-|[]]]]];
    eexists; eexists;
    (split;
     [ unfold main, main_try, install, listDependencies, build, run;
       cbn [length nth Nat.eqb Nat.ltb Nat.leb andb];
       cbn [String.eqb Ascii.eqb Bool.eqb];
       unfold try_catch; unfold bind at 1; unfold bind at 1;
       erewrite bind_Ret by exact Hex; cbn [negb];
       unfold bind, print_err, ret; reflexivity
     | repeat split; reflexivity ]).
Qed.

Lemma commands_need_the_manifest_witness :
  exists w' line,
    main (Demo.linux Demo.removes_all) ["tegen"; "build"] (Demo.start (Dir []))
    = Ret 0%Z w' /\
    fs w' = Dir [] /\ cerr w' = [line].
Proof.
  destruct (commands_need_the_manifest (Demo.linux Demo.removes_all) "tegen" "widgets"
              (Demo.start (Dir [])) eq_refl ["tegen"; "build"])
    as [w' [line [Hrun [Hfs [_ [_ Herr]]]]]].
  - cbn. auto.
  - exists w', line. repeat split; assumption.
Defined.

Lemma loadConfig_parse_error (E : env) (w : world) text :
  lookup (fs w) configPath = Some (File text) ->
  parse E text = None ->
  loadConfig E w = Exc (json_exception "parse error") w.
Proof.
  intros H Hp. unfold loadConfig, bind, get_fs, throw. now rewrite H, Hp.
Qed.

(** X4: A manifest that does not read as JSON: [install], [list] and [run] end
    in the exception of the parser, which reaches [main]: the exit status
    is 1, nothing on disk has changed (no workspace directory is made),
    and only the error stream has grown. *)
Theorem unreadable_manifest_exits_one (E : env) (prog package text : string)
    (w : world) :
  lookup (fs w) configPath = Some (File text) ->
  parse E text = None ->
  forall argv,
    In argv [[prog; "install"; package]; [prog; "list"]; [prog; "run"]] ->
    exists w',
      main E argv w = Ret 1%Z w' /\
      fs w' = fs w /\ cin w' = cin w /\ cout w' = cout w.
Proof.
  intros Hfile Hparse argv Hargv.
  assert (Hex := configExists_run w _ Hfile).
  assert (Hload := loadConfig_parse_error E w text Hfile Hparse).
  cbn [In] in Hargv.
  destruct Hargv as [<-|[<-|[<-|[]]]];
    eexists;
    (split;
     [ unfold main, main_try, install, listDependencies, run;
       cbn [length nth Nat.eqb Nat.ltb Nat.leb andb];
       cbn [String.eqb Ascii.eqb Bool.eqb];
       unfold try_catch; unfold bind at 1; unfold bind at 1;
       erewrite bind_Ret by exact Hex; cbn [negb];
       erewrite bind_Exc by exact Hload;
       reflexivity
     | repeat split; reflexivity ]).
Qed.

Lemma unreadable_manifest_exits_one_witness :
  let w := Demo.start (Dir [("TegenConfig.json", File "{name: demo")]) in
  parse (Demo.linux Demo.removes_all) "{name: demo" = None /\
  exists w',
    main (Demo.linux Demo.removes_all) ["tegen"; "install"; "widgets"] w
    = Ret 1%Z w' /\
    fs w' = fs w.
Proof.
  cbv zeta. split; [reflexivity|].
  destruct (unreadable_manifest_exits_one (Demo.linux Demo.removes_all)
             "tegen" "widgets" "{name: demo"
             (Demo.start (Dir [("TegenConfig.json", File "{name: demo")]))
             eq_refl eq_refl ["tegen"; "install"; "widgets"])
    as [w' [Hrun [Hfs _]]].
  - cbn. auto.
  - exists w'. split; assumption.
Defined.

(* ================================================================== *)
(** ** Where the program writes *)

Lemma lookup_create_directory_other fs x p fs' y q :
  create_directory fs (x :: p) = Ok fs' -> y <> x ->
  lookup fs' (y :: q) = lookup fs (y :: q).
Proof.
  unfold create_directory. intros H Hne.
  destruct (lookup fs (x :: p)) as [[c|es]|].
  - discriminate.
  - now inversion H.
  - destruct (is_directory fs (parent_path (x :: p))); [|discriminate].
    destruct (put fs (x :: p) (Dir [])) eqn:Hput; [|discriminate].
    inversion H; subst. eapply lookup_put_other; eauto.
Qed.

Lemma lookup_remove_path_other fs x p fs' y q :
  remove_path fs (x :: p) = Ok fs' -> y <> x ->
  lookup fs' (y :: q) = lookup fs (y :: q).
Proof.
  unfold remove_path. intros H Hne.
  destruct (lookup fs (x :: p)) as [[c|[|e es]]|]; inversion H; subst;
    first [reflexivity | now apply lookup_delete_other].
Qed.

Section Confinement.

Variable E : env.
Variable y : string.
Hypothesis Hsys : system_keeps E y.

Lemma keeps_configExists : keeps y configExists.
Proof. unfold configExists. repeat keeps_step. Qed.

Lemma keeps_loadConfig : keeps y (loadConfig E).
Proof. unfold loadConfig. repeat keeps_step. Qed.

Lemma keeps_prompt message defaultValue : keeps y (prompt message defaultValue).
Proof. unfold prompt. repeat keeps_step. Qed.

Lemma keeps_create_directory x p :
  y <> x -> keeps y (fs_call (fun fs => create_directory fs (x :: p))).
Proof.
  intros Hne. apply keeps_fs_call. intros disk disk' q Hc.
  eapply lookup_create_directory_other; eauto.
Qed.

Lemma keeps_init :
  y <> "TegenConfig.json" -> y <> "src" -> y <> "include" ->
  y <> "CMakeLists.txt" ->
  keeps y (init E).
Proof.
  intros H1 H2 H3 H4. unfold init, cmakeFile.
  repeat first
    [ apply keeps_configExists
    | apply keeps_prompt
    | apply keeps_saveConfig; assumption
    | apply keeps_create_directory; assumption
    | apply keeps_fs_do; intros disk q;
      first [ now apply lookup_ofstream_open_other
            | now apply lookup_stream_insert_other ]
    | keeps_step ].
Qed.

Lemma keeps_install_guarded config repository resolved :
  y <> "TegenConfig.json" -> y <> "TegenModules" -> y <> "include" ->
  y <> "lib" -> y <> "CMakeLists.txt" ->
  keeps y (install_guarded E config repository resolved).
Proof.
  intros H1 H2 H3 H4 H5. unfold install_guarded, install_try, report_failure.
  repeat first
    [ apply keeps_integrate; assumption
    | apply keeps_update_config; assumption
    | apply keeps_clean_up; assumption
    | keeps_step ].
Qed.

Lemma keeps_install repository version :
  y <> "TegenConfig.json" -> y <> "TegenModules" -> y <> "include" ->
  y <> "lib" -> y <> "CMakeLists.txt" ->
  keeps y (install E repository version).
Proof.
  intros H1 H2 H3 H4 H5. unfold install.
  repeat first
    [ apply keeps_configExists
    | apply keeps_loadConfig
    | apply keeps_create_top; assumption
    | apply keeps_install_guarded; assumption
    | keeps_step ].
Qed.

Lemma keeps_listDependencies : keeps y (listDependencies E).
Proof.
  unfold listDependencies.
  repeat first [apply keeps_configExists | apply keeps_loadConfig | keeps_step].
Qed.

Lemma keeps_build : y <> "build" -> keeps y (build E).
Proof.
  intros Hne. unfold build.
  repeat first
    [ apply keeps_configExists
    | apply keeps_create_directory; assumption
    | apply keeps_executeCommand; assumption
    | keeps_step ].
Qed.

Lemma keeps_run : keeps y (run E).
Proof.
  unfold run.
  repeat first [apply keeps_configExists | apply keeps_loadConfig | keeps_step].
  intros w q.
  match goal with
  | |- context [system_ E ?command (fs w)] =>
      assert (Hq := Hsys command (fs w) q);
      destruct (system_ E command (fs w)) as [result disk']
  end.
  destruct (negb (result =? 0)%Z); exact Hq.
Qed.

End Confinement.

(** X5: Whatever the command line, the program itself writes only to
    [TegenConfig.json], [CMakeLists.txt], [src], [include], [lib], [build]
    and [TegenModules] of the project directory: an entry of another name
    that the external commands leave alone is, with all that is below it,
    the same after [main] as before. *)
Theorem main_is_confined (E : env) (y : string) (argv : list string) :
  system_keeps E y ->
  ~ In y ["TegenConfig.json"; "CMakeLists.txt"; "src"; "include"; "lib";
          "build"; "TegenModules"] ->
  forall w q, lookup (fs (after (main E argv w))) (y :: q) = lookup (fs w) (y :: q).
Proof.
  intros Hsys Hy.
  assert (H1 : y <> "TegenConfig.json") by (intros ->; apply Hy; unfold In; intuition reflexivity).
  assert (H2 : y <> "CMakeLists.txt") by (intros ->; apply Hy; unfold In; intuition reflexivity).
  assert (H3 : y <> "src") by (intros ->; apply Hy; unfold In; intuition reflexivity).
  assert (H4 : y <> "include") by (intros ->; apply Hy; unfold In; intuition reflexivity).
  assert (H5 : y <> "lib") by (intros ->; apply Hy; unfold In; intuition reflexivity).
  assert (H6 : y <> "build") by (intros ->; apply Hy; unfold In; intuition reflexivity).
  assert (H7 : y <> "TegenModules") by (intros ->; apply Hy; unfold In; intuition reflexivity).
  change (keeps y (main E argv)).
  unfold main, main_try.
  repeat first
    [ apply keeps_init; assumption
    | apply keeps_install; assumption
    | apply keeps_listDependencies
    | apply keeps_build; assumption
    | apply keeps_run; assumption
    | keeps_step ].
Qed.

Lemma main_is_confined_witness :
  let w := Demo.start (Dir [("TegenConfig.json", File (Demo.render Demo.manifest0));
                            ("README.md", File "# demo")]) in
  lookup (fs (after (main (Demo.linux Demo.removes_all)
                          ["tegen"; "install"; "widgets"] w))) ["README.md"]
  = Some (File "# demo").
Proof.
  apply (main_is_confined (Demo.linux Demo.removes_all) "README.md"
           ["tegen"; "install"; "widgets"]).
  - apply Demo_git_keeps. discriminate.
  - unfold In. intuition discriminate.
Defined.

(* ================================================================== *)
(** ** [list], [build] and [run] from the command line *)

Lemma main_of_command (E : env) (prog : string) (w : world) :
  main E [prog; "list"] w
  = match listDependencies E w with
    | Ret _ w' => Ret 0%Z w'
    | Exc e w' => Ret 1%Z (reported e w')
    end /\
  main E [prog; "build"] w
  = match build E w with
    | Ret _ w' => Ret 0%Z w'
    | Exc e w' => Ret 1%Z (reported e w')
    end /\
  main E [prog; "run"] w
  = match run E w with
    | Ret _ w' => Ret 0%Z w'
    | Exc e w' => Ret 1%Z (reported e w')
    end /\
  main E [prog; "init"] w
  = match init E w with
    | Ret _ w' => Ret 0%Z w'
    | Exc e w' => Ret 1%Z (reported e w')
    end.
Proof.
  unfold main, main_try, try_catch, bind, ret, print_err, reported.
  cbn [length nth Nat.eqb Nat.ltb Nat.leb andb].
  cbn [String.eqb Ascii.eqb Bool.eqb].
  repeat split.
  - destruct (listDependencies E w); reflexivity.
  - destruct (build E w); reflexivity.
  - destruct (run E w); reflexivity.
  - destruct (init E w); reflexivity.
Qed.

Lemma for_each_print_out {A} (line : A -> string) (xs : list A) :
  forall w,
    for_each xs (fun x => print_out (line x)) w
    = Ret tt {| fs := fs w; cin := cin w;
                cout := (cout w ++ map line xs)%list; cerr := cerr w |}.
Proof.
  induction xs as [|x xs IH]; intros w.
  - destruct w. cbn. now rewrite app_nil_r.
  - cbn [for_each map]. unfold bind at 1. unfold print_out at 1.
    rewrite IH. cbn [fs cin cout cerr]. now rewrite <- app_assoc.
Qed.

(** X6: [list] on a manifest that is a JSON object: after the heading comes one
    line for each member of its ["dependencies"], nothing more (no line when
    the object has no such member), and nothing else changes; the exit
    status is 0. *)
Theorem list_prints_each_dependency (E : env) (prog text : string)
    (ms : list (string * json)) (w : world) :
  lookup (fs w) configPath = Some (File text) ->
  parse E text = Some (JObj ms) ->
  exists lines w',
    main E [prog; "list"] w = Ret 0%Z w' /\
    fs w' = fs w /\ cin w' = cin w /\ cerr w' = cerr w /\
    cout w' = (cout w ++ "Dependencies:" :: lines)%list /\
    Permutation lines
      (map (dependency_line E) (items (dependencies_value (JObj ms)))).
Proof.
  intros Hfile Hparse.
  exists (map (dependency_line E) (items (dependencies_value (JObj ms)))).
  exists {| fs := fs w; cin := cin w;
            cout := (cout w ++ "Dependencies:"
                     :: map (dependency_line E)
                            (items (dependencies_value (JObj ms))))%list;
            cerr := cerr w |}.
  split; [|repeat split; reflexivity].
  destruct (main_of_command E prog w) as [-> _].
  unfold listDependencies.
  erewrite bind_Ret by (eapply configExists_run; exact Hfile). cbn [negb].
  erewrite bind_Ret by (eapply loadConfig_run; eassumption).
  unfold bind at 1. unfold print_out at 1.
  unfold dependencies_value, member, subscript.
  destruct (find_member "dependencies" ms) as [deps|];
    unfold bind at 1; unfold lift, ret at 1;
    cbn [fst]; rewrite for_each_print_out;
    cbn [fs cin cout cerr]; rewrite <- app_assoc; reflexivity.
Qed.

Lemma list_prints_each_dependency_witness :
  let E := Demo.linux Demo.removes_all in
  exists lines w',
    main E ["tegen"; "list"] (Demo.start Demo.checkout) = Ret 0%Z w' /\
    cout w' = "Dependencies:" :: lines /\
    Permutation lines ["  - widgets: " ++ dquote ++ "LinuxBranch" ++ dquote].
Proof.
  destruct (list_prints_each_dependency (Demo.linux Demo.removes_all) "tegen"
              (Demo.render (Demo.manifest_with [("widgets", JStr "LinuxBranch")]))
              [("name", JStr "demo");
               ("dependencies", JObj [("widgets", JStr "LinuxBranch")])]
              (Demo.start Demo.checkout) eq_refl eq_refl)
    as [lines [w' [Hrun [_ [_ [_ [Hout Hperm]]]]]]].
  exists lines, w'. repeat split; assumption.
Defined.

Lemma executeCommand_run (E : env) (command : string) (w : world) :
  executeCommand E command w
  = if (fst (system_ E command (fs w)) =? 0)%Z
    then Ret tt (with_fs w (snd (system_ E command (fs w))))
    else Exc (runtime_error ("Command failed: " ++ command))
             (with_fs w (snd (system_ E command (fs w)))).
Proof.
  unfold executeCommand. now destruct (system_ E command (fs w)).
Qed.

(** X7: [build] with a manifest in place.  When [build] cannot be made a
    directory no command is run and the exit status is 1.  Otherwise the
    project is configured and, only if that succeeded, compiled; the exit
    status is 0 when both commands succeeded and 1 otherwise, and the disk
    is as the last command that ran has left it. *)
Theorem build_exit_status (E : env) (prog : string) (w : world) :
  exists_ (fs w) configPath = true ->
  exists w',
    cin w' = cin w /\
    match create_directory (fs w) ["build"] with
    | Throw _ => main E [prog; "build"] w = Ret 1%Z w' /\ fs w' = fs w
    | Ok disk0 =>
        let configure := system_ E "cmake -S . -B build" disk0 in
        let compile := system_ E "cmake --build build" (snd configure) in
        main E [prog; "build"] w
        = Ret (if (fst configure =? 0)%Z && (fst compile =? 0)%Z
               then 0%Z else 1%Z) w' /\
        fs w' = if (fst configure =? 0)%Z then snd compile else snd configure
    end.
Proof.
  intros Hex.
  assert (Hrun : configExists w = Ret true w).
  { unfold configExists, bind, get_fs, ret. now rewrite Hex. }
  destruct (main_of_command E prog w) as [_ [Hmain _]].
  assert (Hbuild : forall o, build E w = o ->
                             main E [prog; "build"] w
                             = match o with
                               | Ret _ w' => Ret 0%Z w'
                               | Exc e w' => Ret 1%Z (reported e w')
                               end) by (intros o <-; exact Hmain).
  clear Hmain. unfold build in Hbuild.
  erewrite bind_Ret in Hbuild by exact Hrun. cbn [negb] in Hbuild.
  unfold bind at 1 in Hbuild. unfold print_out at 1 in Hbuild.
  unfold bind at 1 in Hbuild. unfold fs_call at 1 in Hbuild. cbn [fs] in Hbuild.
  destruct (create_directory (fs w) ["build"]) as [disk0|e].
  - cbv zeta. unfold bind at 1 in Hbuild. rewrite executeCommand_run in Hbuild.
    cbn [fs with_fs] in Hbuild.
    destruct (fst (system_ E "cmake -S . -B build" disk0) =? 0)%Z.
    + unfold bind at 1 in Hbuild. rewrite executeCommand_run in Hbuild.
      cbn [fs with_fs] in Hbuild.
      destruct (fst (system_ E "cmake --build build" _) =? 0)%Z;
        (eexists; (split; [|split]);
         [ | rewrite (Hbuild _ eq_refl); reflexivity | ]; reflexivity).
    + (eexists; (split; [|split]);
         [ | rewrite (Hbuild _ eq_refl); reflexivity | ]; reflexivity).
  - (eexists; (split; [|split]);
         [ | rewrite (Hbuild _ eq_refl); reflexivity | ]; reflexivity).
Qed.

Lemma build_exit_status_witness :
  exists w',
    main (Demo.offline Demo.removes_all) ["tegen"; "build"]
         (Demo.start Demo.project0) = Ret 1%Z w' /\
    lookup (fs w') ["build"] = Some (Dir []).
Proof.
  destruct (build_exit_status (Demo.offline Demo.removes_all) "tegen"
              (Demo.start Demo.project0) eq_refl) as [w' [_ H]].
  exists w'. cbn in H. destruct H as [Hrun Hfs]. split; [exact Hrun|].
  rewrite Hfs. reflexivity.
Defined.

(** X8: [run] with a manifest that names the project: the exit status is 0
    whether the executable is missing, fails or succeeds.  A missing
    executable is not started; one that is there is started once, by its
    quoted path; the error stream grows exactly when it was missing or
    ended with a status other than 0. *)
Theorem run_exit_status (E : env) (prog text name : string) (config : json)
    (w : world) :
  lookup (fs w) configPath = Some (File text) ->
  parse E text = Some config ->
  member config "name" = Some (JStr name) ->
  let started := system_ E (run_command E name) (fs w) in
  exists w' lines,
    main E [prog; "run"] w = Ret 0%Z w' /\
    fs w' = (if exists_ (fs w) (executable E name) then snd started else fs w) /\
    cin w' = cin w /\
    cerr w' = (cerr w ++ lines)%list /\
    (lines = [] <->
     exists_ (fs w) (executable E name) = true /\ fst started = 0%Z).
Proof.
  intros Hfile Hparse Hname started.
  destruct (main_of_command E prog w) as [_ [_ [-> _]]].
  unfold run.
  erewrite bind_Ret by (eapply configExists_run; exact Hfile). cbn [negb].
  erewrite bind_Ret by (eapply loadConfig_run; eassumption).
  destruct config as [| | | | |ms]; try discriminate.
  cbn [member] in Hname.
  unfold bind at 1. unfold subscript. rewrite Hname. unfold lift at 1, ret at 1.
  cbn [fst]. unfold bind at 1. unfold get_string, lift at 1, ret at 1.
  unfold bind at 1. unfold print_out at 1.
  unfold bind at 1. unfold get_fs at 1. cbn [fs].
  fold (executable E name). fold (run_command E name).
  destruct (exists_ (fs w) (executable E name)); cbn [negb].
  - cbn [fs]. fold started. destruct started as [result disk'] eqn:Hs.
    cbn [fst snd].
    destruct (result =? 0)%Z eqn:Hz; cbn [negb].
    + eexists; exists []. unfold print_out.
      cbn [fs cin cout cerr with_fs].
      repeat split; try reflexivity.
      * cbn [cerr]. now rewrite app_nil_r.
      * now apply Z.eqb_eq.
    + eexists; eexists (_ :: _). unfold print_err.
      cbn [fs cin cout cerr with_fs].
      repeat split; try reflexivity; try discriminate.
      intros [_ H0]. apply Z.eqb_neq in Hz. contradiction.
  - eexists; eexists (_ :: _). unfold bind, print_err.
    cbn [fs cin cout cerr].
    repeat split; try reflexivity; try discriminate.
    + cbn [cerr]. rewrite <- app_assoc. reflexivity.
    + intros [H0 _]. discriminate.
Qed.

Lemma run_exit_status_witness :
  let E := Demo.offline Demo.removes_all in
  let w := Demo.start (Dir [("TegenConfig.json", File (Demo.render Demo.manifest0));
                            ("build", Dir [("demo", File "ELF")])]) in
  exists w' lines,
    main E ["tegen"; "run"] w = Ret 0%Z w' /\
    cerr w' = lines /\ lines <> [].
Proof.
  destruct (run_exit_status (Demo.offline Demo.removes_all) "tegen"
              (Demo.render Demo.manifest0) "demo" Demo.manifest0
              (Demo.start (Dir [("TegenConfig.json", File (Demo.render Demo.manifest0));
                                ("build", Dir [("demo", File "ELF")])]))
              eq_refl eq_refl eq_refl)
    as [w' [lines [Hrun [_ [_ [Herr Hiff]]]]]].
  exists w', lines. split; [exact Hrun|]. split; [exact Herr|].
  intros Hl. apply Hiff in Hl. destruct Hl as [_ Hl]. vm_compute in Hl. discriminate.
Defined.

(* ================================================================== *)
(** ** The patch when there is no build description to append to *)

Lemma update_cmakelists_opened (E : env) (repository : string) (w : world) c :
  lookup (ofstream_open_app (fs w) cmakeFile) cmakeFile = Some (File c) ->
  update_cmakelists E repository w
  = update_cmakelists E repository
      (with_fs w (ofstream_open_app (fs w) cmakeFile)).
Proof.
  intros H. unfold update_cmakelists.
  unfold bind at 1. unfold fs_do at 1.
  symmetry. unfold bind at 1. unfold fs_do at 1. cbn [fs with_fs].
  assert (Hid : ofstream_open_app (ofstream_open_app (fs w) cmakeFile) cmakeFile
                = ofstream_open_app (fs w) cmakeFile).
  { unfold ofstream_open_app at 1. now rewrite H. }
  rewrite Hid. reflexivity.
Qed.

Lemma link_loop_closed (E : env) (files : list path) d :
  forall w,
    lookup (fs w) cmakeFile = Some (Dir d) ->
    exists w',
      for_each files (link_lib E) w = Ret tt w' /\
      fs w' = fs w /\ cin w' = cin w /\ cout w' = cout w /\ cerr w' = cerr w.
Proof.
  induction files as [|file files IH]; intros w Hd.
  - exists w. repeat split; reflexivity.
  - cbn [for_each]. unfold bind, link_lib at 1.
    destruct (is_static_lib (filename file)).
    + unfold fs_do at 1.
      assert (Hs : stream_insert (fs w) cmakeFile (link_directive E file) = fs w).
      { unfold stream_insert. now rewrite Hd. }
      rewrite Hs.
      destruct (IH (with_fs w (fs w)) Hd) as [w' [Hrun H]].
      exists w'. split; [exact Hrun | exact H].
    + unfold ret at 1. now apply IH.
Qed.

(** X10: The patch of an install when the project has a [lib/] but no build
    description to append to.  With no [CMakeLists.txt] the file is made
    and holds the block alone; with a directory of that name nothing is
    written and nothing is reported: the patch returns as after a write. *)
Theorem patch_without_build_description (E : env) (repository : string)
    (w : world) (es : entries) :
  lookup (fs w) projectLib = Some (Dir es) ->
  (lookup (fs w) cmakeFile = None ->
   exists w',
     update_cmakelists E repository w = Ret tt w' /\
     lookup (fs w') cmakeFile = Some (File (block E repository es))) /\
  (forall d,
     lookup (fs w) cmakeFile = Some (Dir d) ->
     exists w',
       update_cmakelists E repository w = Ret tt w' /\
       fs w' = fs w /\ cout w' = cout w /\ cerr w' = cerr w).
Proof.
  intros Hlib. split.
  - intros Hnone.
    destruct (lookup_cons_root _ _ _ _ Hlib) as [root Hroot].
    assert (Hopen : lookup (ofstream_open_app (fs w) cmakeFile) cmakeFile
                    = Some (File "")).
    { unfold cmakeFile in *.
      rewrite (ofstream_open_app_top _ root _ Hroot).
      - now rewrite Hnone.
      - unfold kind_of. now rewrite Hnone. }
    rewrite (update_cmakelists_opened E repository w "" Hopen).
    destruct (update_cmakelists_run E repository
                (with_fs w (ofstream_open_app (fs w) cmakeFile)) es "")
      as [w' [Hrun Hfile]].
    + cbn [fs with_fs]. unfold cmakeFile, projectLib.
      rewrite lookup_ofstream_open_app_other by discriminate. exact Hlib.
    + exact Hopen.
    + exists w'. split; [exact Hrun | exact Hfile].
  - intros d Hd.
    assert (Hopen : ofstream_open_app (fs w) cmakeFile = fs w).
    { unfold ofstream_open_app, ofstream_open, cmakeFile in *. now rewrite Hd. }
    assert (Hins : forall s, stream_insert (fs w) cmakeFile s = fs w).
    { intros s. unfold stream_insert. now rewrite Hd. }
    unfold update_cmakelists.
    unfold bind at 1. unfold fs_do at 1. rewrite Hopen.
    unfold bind at 1. unfold fs_do at 1. cbn [fs with_fs]. rewrite Hins.
    unfold bind at 1. unfold fs_do at 1. cbn [fs with_fs]. rewrite Hins.
    unfold bind at 1. unfold get_fs at 1. cbn [fs with_fs].
    unfold bind at 1. unfold directory_iterator. rewrite Hlib. cbn [lift].
    unfold ret at 1. unfold bind at 1.
    destruct (link_loop_closed E (map (fun e => (projectLib ++ [fst e])%list) es) d
                (with_fs (with_fs (with_fs w (fs w)) (fs w)) (fs w)) Hd)
      as [w' [Hrun [Hfs [_ [Hout Herr]]]]].
    rewrite Hrun.
    destruct (platform E).
    + exists w'. repeat split; assumption.
    + eexists. split; [reflexivity|]. cbn [fs with_fs cout cerr].
      rewrite Hfs. cbn [fs with_fs]. rewrite Hins. repeat split; assumption.
    + exists w'. repeat split; assumption.
Qed.

Lemma patch_without_build_description_witness :
  let E := Demo.linux Demo.removes_all in
  let w := Demo.start (Dir [("lib", Dir [("libwidgets.a", File "!<arch>")])]) in
  exists w',
    update_cmakelists E "widgets" w = Ret tt w' /\
    lookup (fs w') cmakeFile
    = Some (File (block E "widgets" [("libwidgets.a", File "!<arch>")])).
Proof.
  exact (proj1 (patch_without_build_description (Demo.linux Demo.removes_all)
                  "widgets"
                  (Demo.start (Dir [("lib", Dir [("libwidgets.a", File "!<arch>")])]))
                  [("libwidgets.a", File "!<arch>")] eq_refl) eq_refl).
Defined.

(* ================================================================== *)
(** ** Recording a dependency, and installing it again *)

Lemma recorded_lists config repository resolved config' :
  recorded config repository resolved = Ok config' ->
  lists_dependency config' repository = true /\
  (forall other, lists_dependency config other = true ->
                 lists_dependency config' other = true) /\
  (forall k, k <> "dependencies" -> member config' k = member config k).
Proof.
  unfold recorded. intros H.
  destruct (subscript config "dependencies") as [[deps config1]|e] eqn:Hsub;
    [|discriminate].
  destruct (add_dependency_spec _ _ _ _ _ _ Hsub H) as [_ Hmem].
  split; [|split; [|exact Hmem]].
  - revert Hsub H. unfold subscript, add_dependency, lists_dependency.
    destruct config as [| | | | |ms]; try discriminate.
    + intros [= <- <-].
      change [("dependencies", JNull)] with (set_member "dependencies" JNull []).
      cbn [subscript]. rewrite find_member_set_member_same. cbn [assign].
      intros [= <-]. cbn [find_member]. rewrite String.eqb_refl.
      cbn [contains find_member]. now rewrite String.eqb_refl.
    + destruct (find_member "dependencies" ms) as [d|] eqn:Hd.
      * intros [= <- <-]. cbn [subscript]. rewrite Hd.
        destruct d as [| | | | |ds]; cbn [assign]; try discriminate;
          intros [= <-]; rewrite find_member_set_member_same; cbn [contains].
        -- cbn [find_member]. now rewrite String.eqb_refl.
        -- now rewrite find_member_set_member_same.
      * intros [= <- <-]. cbn [subscript].
        rewrite find_member_set_member_same. cbn [assign].
        intros [= <-]. rewrite find_member_set_member_same.
        cbn [contains find_member]. now rewrite String.eqb_refl.
  - intros other. revert Hsub H. unfold subscript, add_dependency, lists_dependency.
    destruct config as [| | | | |ms]; try discriminate.
    destruct (find_member "dependencies" ms) as [d|] eqn:Hd; [|discriminate].
    intros [= <- <-]. cbn [subscript]. rewrite Hd.
    destruct d as [| | | | |ds]; cbn [assign contains]; try discriminate.
    intros [= <-]. rewrite find_member_set_member_same. cbn [contains].
    destruct (String.eqb_spec other repository) as [->|Hne].
    + now rewrite find_member_set_member_same.
    + now rewrite find_member_set_member_other.
Qed.

Lemma recorded_spec (config config' : json)
    (repository resolved : string) :
  recorded config repository resolved = Ok config' ->
  lists_dependency config' repository = true /\
  member (dependencies_value config') repository = Some (JStr resolved) /\
  (forall other, lists_dependency config other = true ->
                 lists_dependency config' other = true) /\
  (forall k, k <> "dependencies" -> member config' k = member config k).
Proof.
  intros H.
  destruct (recorded_lists _ _ _ _ H) as [H1 [H2 H3]].
  split; [exact H1|]. split; [|split; assumption].
  unfold recorded in H.
  destruct (subscript config "dependencies") as [[deps config1]|e] eqn:Hsub;
    [|discriminate].
  destruct (add_dependency_spec _ _ _ _ _ _ Hsub H) as [Hdeps _].
  unfold lists_dependency in H1. unfold dependencies in Hdeps.
  unfold dependencies_value, member.
  destruct config' as [| | | | |ms']; try discriminate.
  destruct (find_member "dependencies" ms') as [[| | | | |ds]|]; try discriminate.
  rewrite Hdeps. apply find_member_set_member_same.
Qed.

(** X11: What [install] writes into the manifest is what its guard reads: once
    a dependency is recorded the manifest lists it, with the version it was
    recorded with; the dependencies it listed before are still listed, and
    every other member is as it was. *)
Theorem recorded_dependency_is_listed (config config' : json)
    (repository resolved : string) :
  recorded config repository resolved = Ok config' ->
  lists_dependency config' repository = true /\
  member (dependencies_value config') repository = Some (JStr resolved) /\
  (forall other, lists_dependency config other = true ->
                 lists_dependency config' other = true) /\
  (forall k, k <> "dependencies" -> member config' k = member config k).
Proof. apply recorded_spec. Qed.

Lemma recorded_dependency_is_listed_witness :
  lists_dependency (Demo.manifest_with [("widgets", JStr "v2")]) "widgets" = true /\
  member (dependencies_value (Demo.manifest_with [("widgets", JStr "v2")])) "widgets"
  = Some (JStr "v2").
Proof.
  destruct (recorded_dependency_is_listed Demo.manifest0
              (Demo.manifest_with [("widgets", JStr "v2")]) "widgets" "v2" eq_refl)
    as [H1 [H2 _]].
  split; assumption.
Defined.

Lemma install_manifest_recorded (E : env) (repository version : string)
    (w : world) (text : string) (config : json) :
  system_keeps E configFileName ->
  (platform E = Windows -> staging_stays E) ->
  lookup (fs w) configPath = Some (File text) ->
  parse E text = Some config ->
  lists_dependency config repository = false ->
  match install E repository version w with
  | Ret Installed w' =>
      exists config',
        recorded config repository (resolvedVersion E version) = Ok config' /\
        lookup (fs w') configPath = Some (File (dump E 4 config'))
  | Ret _ w' | Exc _ w' => lookup (fs w') configPath = Some (File text)
  end.
Proof.
  intros Hsys Hstay Hfile Hparse Hnot.
  unfold install.
  erewrite bind_Ret by (eapply configExists_run; eauto). cbn [negb].
  erewrite bind_Ret by (eapply loadConfig_run; eauto).
  unfold modulesDir at 1, projectInclude, projectLib.
  unfold bind at 1.
  destruct (fs_call (fun fs => create_directories fs ["TegenModules"]) w)
    as [[] w1|e w1] eqn:H1;
    [|rewrite <- Hfile; eapply keeps_Exc; [|exact H1];
      apply keeps_create_top; discriminate].
  assert (Hf1 : lookup (fs w1) configPath = Some (File text))
    by (rewrite <- Hfile; eapply keeps_Ret; [|exact H1];
        apply keeps_create_top; discriminate).
  assert (Hd1 : is_directory (fs w1) modulesDir = true)
    by (eapply create_top_is_directory; eauto).
  unfold bind at 1.
  destruct (fs_call (fun fs => create_directories fs ["include"]) w1)
    as [[] w2|e w2] eqn:H2;
    [|rewrite <- Hf1; eapply keeps_Exc; [|exact H2];
      apply keeps_create_top; discriminate].
  assert (Hf2 : lookup (fs w2) configPath = Some (File text))
    by (rewrite <- Hf1; eapply keeps_Ret; [|exact H2];
        apply keeps_create_top; discriminate).
  assert (Hd2 : is_directory (fs w2) modulesDir = true).
  { assert (H := keeps_staging _ (keeps_create_top "TegenModules" "include"
                                    ltac:(discriminate)) w1 Hd1).
    now rewrite H2 in H. }
  unfold bind at 1.
  destruct (fs_call (fun fs => create_directories fs ["lib"]) w2)
    as [[] w3|e w3] eqn:H3;
    [|rewrite <- Hf2; eapply keeps_Exc; [|exact H3];
      apply keeps_create_top; discriminate].
  assert (Hf3 : lookup (fs w3) configPath = Some (File text))
    by (rewrite <- Hf2; eapply keeps_Ret; [|exact H3];
        apply keeps_create_top; discriminate).
  assert (Hd3 : is_directory (fs w3) modulesDir = true).
  { assert (H := keeps_staging _ (keeps_create_top "TegenModules" "lib"
                                    ltac:(discriminate)) w2 Hd2).
    now rewrite H3 in H. }
  destruct (subscript config "dependencies") as [[deps config1]|e] eqn:Hsub;
    [|exact Hf3].
  cbn [lift]. unfold bind at 1. unfold ret at 1.
  rewrite (subscript_contains _ _ _ repository Hsub), Hnot.
  assert (Hg := install_guarded_manifest E config1 repository
                  (resolvedVersion E version) w3 text Hsys Hstay Hd3 Hf3).
  destruct (install_guarded E config1 repository (resolvedVersion E version) w3)
    as [[| | |e] w4|e w4]; auto.
  destruct Hg as [config' [Hadd Hfile']].
  exists config'. split; [|exact Hfile'].
  unfold recorded. now rewrite Hsub.
Qed.

Lemma main_install_any (E : env) (prog package : string) (rest : list string)
    (w : world) :
  main E (prog :: "install" :: package :: rest) w
  = match install E package "" w with
    | Ret _ w' => Ret 0%Z w'
    | Exc e w' => Ret 1%Z (reported e w')
    end.
Proof.
  unfold main, main_try, try_catch, bind, ret, print_err, reported.
  cbn [length nth Nat.eqb Nat.ltb Nat.leb andb].
  cbn [String.eqb Ascii.eqb Bool.eqb].
  destruct (install E package "" w); reflexivity.
Qed.

(** X12: An install from the command line never takes a version: whatever
    follows the package name, [main] passes the package alone, so what a
    successful install records for it is the branch of the platform.  The
    manifest afterwards is either untouched or the old one with that
    entry. *)
Theorem command_line_install_records_the_platform_branch (E : env)
    (prog package : string) (rest : list string) (w : world) (text : string)
    (config : json) :
  system_keeps E configFileName ->
  (platform E = Windows -> staging_stays E) ->
  lookup (fs w) configPath = Some (File text) ->
  parse E text = Some config ->
  lists_dependency config package = false ->
  exists status w',
    main E (prog :: "install" :: package :: rest) w = Ret status w' /\
    (lookup (fs w') configPath = Some (File text) \/
     exists config',
       lookup (fs w') configPath = Some (File (dump E 4 config')) /\
       member (dependencies_value config') package = Some (JStr (osBranch E)) /\
       (forall other, lists_dependency config other = true ->
                      lists_dependency config' other = true) /\
       (forall k, k <> "dependencies" -> member config' k = member config k)).
Proof.
  intros Hsys Hstay Hfile Hparse Hnot.
  rewrite main_install_any.
  assert (H := install_manifest_recorded E package "" w text config
                 Hsys Hstay Hfile Hparse Hnot).
  change (resolvedVersion E "") with (osBranch E) in H.
  destruct (install E package "" w) as [[| | |e] w'|e w'];
    eexists; eexists; (split; [reflexivity|]);
    try (left; exact H).
  destruct H as [config' [Hrec Hfile']].
  right. exists config'. split; [exact Hfile'|].
  now destruct (recorded_spec _ _ _ _ Hrec) as [_ H].
Qed.

Lemma command_line_install_records_the_platform_branch_witness :
  let E := Demo.linux Demo.removes_all in
  exists status w',
    main E ["tegen"; "install"; "widgets"; "v9"] (Demo.start Demo.project0)
    = Ret status w' /\
    (lookup (fs w') configPath = Some (File (Demo.render Demo.manifest0)) \/
     exists config',
       lookup (fs w') configPath = Some (File (dump E 4 config')) /\
       member (dependencies_value config') "widgets" = Some (JStr "LinuxBranch") /\
       (forall other, lists_dependency Demo.manifest0 other = true ->
                      lists_dependency config' other = true) /\
       (forall k, k <> "dependencies" -> member config' k = member Demo.manifest0 k)).
Proof.
  apply (command_line_install_records_the_platform_branch
           (Demo.linux Demo.removes_all) "tegen" "widgets" ["v9"]
           (Demo.start Demo.project0) (Demo.render Demo.manifest0) Demo.manifest0).
  - apply Demo_git_keeps. discriminate.
  - discriminate.
  - reflexivity.
  - reflexivity.
  - reflexivity.
Defined.

Lemma install_guard (E : env) (repository version : string) (w : world)
    (text : string) (config : json) :
  lookup (fs w) configPath = Some (File text) ->
  parse E text = Some config ->
  lists_dependency config repository = true ->
  is_regular (kind_of (fs w) modulesDir) = false ->
  is_regular (kind_of (fs w) projectInclude) = false ->
  is_regular (kind_of (fs w) projectLib) = false ->
  exists w',
    install E repository version w = Ret AlreadyInstalled w' /\
    cin w' = cin w /\ cerr w' = cerr w /\
    forall y q, ~ In y ["TegenModules"; "include"; "lib"] ->
                lookup (fs w') (y :: q) = lookup (fs w) (y :: q).
Proof.
  intros Hfile Hparse Hlisted Hm Hi Hl.
  destruct (lists_dependency_subscript _ _ Hlisted)
    as [deps [v [Hsub [Hcontains Hsubv]]]].
  assert (Hroot : is_directory (fs w) [] = true)
    by (eapply is_directory_root; eauto).
  unfold modulesDir, projectInclude, projectLib in *.
  destruct (fs_call_create_top w "TegenModules" Hroot Hm)
    as [d1 [Hrun1 [Hl1 [Hroot1 Hf1]]]].
  destruct (fs_call_create_top (with_fs w d1) "include") as [d2 [Hrun2 [Hl2 [Hroot2 Hf2]]]];
    [exact Hroot1 | unfold kind_of in *; cbn [fs with_fs];
                    rewrite Hf1 by discriminate; exact Hi |].
  destruct (fs_call_create_top (with_fs (with_fs w d1) d2) "lib")
    as [d3 [Hrun3 [Hl3 [Hroot3 Hf3]]]];
    [exact Hroot2 | unfold kind_of in *; cbn [fs with_fs];
                    rewrite Hf2, Hf1 by discriminate; exact Hl |].
  cbn [fs with_fs] in *.
  eexists. split; [|split; [|split]].
  - unfold install.
    erewrite bind_Ret by (eapply configExists_run; eauto). cbn [negb].
    erewrite bind_Ret by (eapply loadConfig_run; eauto).
    unfold modulesDir, projectInclude, projectLib.
    erewrite bind_Ret by exact Hrun1.
    erewrite bind_Ret by exact Hrun2.
    erewrite bind_Ret by exact Hrun3.
    rewrite Hsub. cbn [lift]. unfold bind at 1. unfold ret at 1.
    rewrite Hcontains. rewrite Hsubv. cbn [lift].
    unfold bind, ret, print_out. reflexivity.
  - reflexivity.
  - reflexivity.
  - cbn [fs with_fs]. intros y q Hy. cbn [In] in Hy.
    rewrite Hf3, Hf2, Hf1; auto; intros ->; tauto.
Qed.

(** X13: Installing twice.  When the JSON library reads back the manifest that
    the first install wrote, a second install of the same package, with
    whatever version, is refused as already installed: it runs no command
    and leaves the manifest, the build description and everything but the
    three workspace directories as the first install left them. *)
Theorem second_install_is_refused (E : env) (repository version version' : string)
    (w w1 : world) (text : string) (config : json) :
  system_keeps E configFileName ->
  (platform E = Windows -> staging_stays E) ->
  lookup (fs w) configPath = Some (File text) ->
  parse E text = Some config ->
  lists_dependency config repository = false ->
  (forall config',
     recorded config repository (resolvedVersion E version) = Ok config' ->
     parse E (dump E 4 config') = Some config') ->
  install E repository version w = Ret Installed w1 ->
  (forall dir, In dir [modulesDir; projectInclude; projectLib] ->
               is_regular (kind_of (fs w1) dir) = false) ->
  exists w2,
    install E repository version' w1 = Ret AlreadyInstalled w2 /\
    cin w2 = cin w1 /\ cerr w2 = cerr w1 /\
    forall y q, ~ In y ["TegenModules"; "include"; "lib"] ->
                lookup (fs w2) (y :: q) = lookup (fs w1) (y :: q).
Proof.
  intros Hsys Hstay Hfile Hparse Hnot Hround Hrun Hdirs.
  assert (H := install_manifest_recorded E repository version w text config
                 Hsys Hstay Hfile Hparse Hnot).
  rewrite Hrun in H. destruct H as [config' [Hrec Hfile']].
  destruct (recorded_spec _ _ _ _ Hrec) as [Hlisted _].
  apply (install_guard E repository version' w1 (dump E 4 config') config');
    auto; apply Hdirs; cbn; auto.
Qed.

Lemma second_install_is_refused_witness :
  let E := Demo.linux Demo.removes_all in
  exists w1 w2,
    install E "widgets" "" (Demo.start Demo.project0) = Ret Installed w1 /\
    install E "widgets" "v2" w1 = Ret AlreadyInstalled w2 /\
    lookup (fs w2) configPath = lookup (fs w1) configPath /\
    lookup (fs w2) cmakeFile = lookup (fs w1) cmakeFile.
Proof.
  cbv zeta.
  set (E := Demo.linux Demo.removes_all).
  set (w1 := after (install E "widgets" "" (Demo.start Demo.project0))).
  assert (Hrun : install E "widgets" "" (Demo.start Demo.project0) = Ret Installed w1)
    by (vm_compute; reflexivity).
  destruct (second_install_is_refused E "widgets" "" "v2"
              (Demo.start Demo.project0) w1
              (Demo.render Demo.manifest0) Demo.manifest0)
    as [w2 [Hrun2 [_ [_ Hframe]]]].
  - apply Demo_git_keeps. discriminate.
  - discriminate.
  - reflexivity.
  - reflexivity.
  - reflexivity.
  - intros config' Hrec. vm_compute in Hrec. injection Hrec as <-.
    vm_compute. reflexivity.
  - exact Hrun.
  - intros dir Hdir. cbn [In] in Hdir.
    destruct Hdir as [<-|[<-|[<-|[]]]]; vm_compute; reflexivity.
  - exists w1, w2. split; [exact Hrun|]. split; [exact Hrun2|].
    split; apply Hframe; unfold In; intuition discriminate.
Defined.

(* ================================================================== *)
(** ** [init] *)

Lemma ofstream_open_kind fs to :
  to <> [] ->
  is_directory fs (parent_path to) = true ->
  is_dir (kind_of fs to) = false ->
  forall q, kind_of (ofstream_open fs to) q
            = if path_eqb q to then Regular "" else kind_of fs q.
Proof.
  intros Hne Hp Hd.
  destruct (put_file_kind to fs "" Hne Hp Hd) as [fs' [Hput Hk]].
  unfold ofstream_open. destruct to as [|x t]; [congruence|].
  unfold kind_of in Hd.
  destruct (lookup fs (x :: t)) as [[c|es]|]; try discriminate;
    rewrite Hp, Hput; exact Hk.
Qed.

Lemma stream_insert_kind fs to c s :
  to <> [] ->
  is_directory fs (parent_path to) = true ->
  kind_of fs to = Regular c ->
  forall q, kind_of (stream_insert fs to s) q
            = if path_eqb q to then Regular (c ++ s) else kind_of fs q.
Proof.
  intros Hne Hp Hk.
  destruct (put_file_kind to fs (c ++ s) Hne Hp) as [fs' [Hput Hq]];
    [now rewrite Hk|].
  apply kind_of_regular in Hk. unfold stream_insert. now rewrite Hk, Hput.
Qed.

Lemma create_directory_top_kind fs x :
  is_directory fs [] = true ->
  is_regular (kind_of fs [x]) = false ->
  exists fs',
    create_directory fs [x] = Ok fs' /\
    forall q, kind_of fs' q = if path_eqb q [x] then Directory else kind_of fs q.
Proof.
  intros Hroot Hx.
  destruct fs as [c|es]; [discriminate|].
  rewrite kind_of_cons in Hx.
  unfold create_directory. cbn [lookup].
  destruct (find_entry x es) as [[c|es']|] eqn:Hf.
  - discriminate.
  - exists (Dir es). split; [reflexivity|]. intros q.
    destruct (path_eqb q [x]) eqn:He; [|reflexivity].
    apply path_eqb_eq in He. subst q. now rewrite kind_of_cons, Hf.
  - exists (Dir (set_entry x (Dir []) es)). split; [reflexivity|].
    intros [|y q]; [reflexivity|].
    rewrite !kind_of_cons. cbn [path_eqb].
    destruct (String.eqb_spec y x) as [->|Hyx].
    + rewrite find_entry_set_entry_same, Hf. cbn [andb].
      destruct q; reflexivity.
    + now rewrite find_entry_set_entry_other.
Qed.

Lemma fs_call_Ok (f : node -> res node) (w : world) (disk : node) :
  f (fs w) = Ok disk -> fs_call f w = Ret tt (with_fs w disk).
Proof. intros H. unfold fs_call. now rewrite H. Qed.

Lemma prompt_run (message defaultValue : string) (w : world) :
  prompt message defaultValue w
  = Ret (answer (hd "" (cin w)) defaultValue)
        {| fs := fs w; cin := tl (cin w);
           cout := (cout w ++ [(message ++ (if defaultValue =? "" then ": "
                                            else " [" ++ defaultValue ++ "]: "))%string])%list;
           cerr := cerr w |}.
Proof.
  unfold prompt, bind, print_out, getline, ret, answer. cbn [cin].
  destruct (cin w); reflexivity.
Qed.

Lemma nth_hd_tl (l : list string) :
  hd "" l = nth 0 l "" /\
  hd "" (tl l) = nth 1 l "" /\
  hd "" (tl (tl l)) = nth 2 l "" /\
  hd "" (tl (tl (tl l))) = nth 3 l "" /\
  hd "" (tl (tl (tl (tl l)))) = nth 4 l "" /\
  tl (tl (tl (tl (tl l)))) = skipn 5 l.
Proof.
  destruct l as [|a [|b [|c [|d [|e rest]]]]]; repeat split; reflexivity.
Qed.

(** The files of [init], on a disk [d0] without a manifest. *)
Lemma init_writes (d0 : node) (manifest main cmake : string) :
  is_directory d0 [] = true ->
  lookup d0 configPath = None ->
  is_regular (kind_of d0 ["src"]) = false ->
  is_regular (kind_of d0 ["include"]) = false ->
  is_dir (kind_of d0 ["src"; "main.cpp"]) = false ->
  is_dir (kind_of d0 cmakeFile) = false ->
  exists d3 d4,
    create_directory
      (stream_insert (ofstream_open d0 configPath) configPath manifest) ["src"]
    = Ok d3 /\
    create_directory d3 ["include"] = Ok d4 /\
    forall q,
      kind_of (stream_insert
                 (ofstream_open
                    (stream_insert (ofstream_open d4 ["src"; "main.cpp"])
                                   ["src"; "main.cpp"] main)
                    cmakeFile)
                 cmakeFile cmake) q
      = if path_eqb q cmakeFile then Regular cmake
        else if path_eqb q ["src"; "main.cpp"] then Regular main
        else if path_eqb q ["include"] then Directory
        else if path_eqb q ["src"] then Directory
        else if path_eqb q configPath then Regular manifest
        else kind_of d0 q.
Proof.
  intros Hroot Hnone Hsrc Hinc Hmain Hcmake.
  unfold configPath, configFileName, cmakeFile in *.
  assert (Hr0 : kind_of d0 [] = Directory) by now apply kind_of_directory.
  assert (Hk1 := ofstream_open_kind d0 ["TegenConfig.json"]
                   ltac:(discriminate) Hroot
                   ltac:(unfold kind_of; now rewrite Hnone)).
  set (d1 := ofstream_open d0 ["TegenConfig.json"]) in *.
  assert (Hk2 := stream_insert_kind d1 ["TegenConfig.json"] "" manifest
                   ltac:(discriminate)
                   ltac:(apply kind_of_directory; rewrite Hk1; exact Hr0)
                   ltac:(rewrite Hk1; reflexivity)).
  change ("" ++ manifest) with manifest in Hk2.
  set (d2 := stream_insert d1 ["TegenConfig.json"] manifest) in *.
  destruct (create_directory_top_kind d2 "src") as [d3 [Hc3 Hk3]].
  { apply kind_of_directory. rewrite Hk2, Hk1. exact Hr0. }
  { rewrite Hk2, Hk1. exact Hsrc. }
  destruct (create_directory_top_kind d3 "include") as [d4 [Hc4 Hk4]].
  { apply kind_of_directory. rewrite Hk3, Hk2, Hk1. exact Hr0. }
  { rewrite Hk3, Hk2, Hk1. exact Hinc. }
  exists d3, d4. split; [exact Hc3|]. split; [exact Hc4|].
  assert (Hk5 := ofstream_open_kind d4 ["src"; "main.cpp"]
                   ltac:(discriminate)
                   ltac:(apply kind_of_directory; rewrite Hk4, Hk3; reflexivity)
                   ltac:(rewrite Hk4, Hk3, Hk2, Hk1; exact Hmain)).
  set (d5 := ofstream_open d4 ["src"; "main.cpp"]) in *.
  assert (Hk6 := stream_insert_kind d5 ["src"; "main.cpp"] "" main
                   ltac:(discriminate)
                   ltac:(apply kind_of_directory; rewrite Hk5, Hk4, Hk3; reflexivity)
                   ltac:(rewrite Hk5; reflexivity)).
  change ("" ++ main) with main in Hk6.
  set (d6 := stream_insert d5 ["src"; "main.cpp"] main) in *.
  assert (Hk7 := ofstream_open_kind d6 ["CMakeLists.txt"]
                   ltac:(discriminate)
                   ltac:(apply kind_of_directory;
                         rewrite Hk6, Hk5, Hk4, Hk3, Hk2, Hk1; exact Hr0)
                   ltac:(rewrite Hk6, Hk5, Hk4, Hk3, Hk2, Hk1; exact Hcmake)).
  set (d7 := ofstream_open d6 ["CMakeLists.txt"]) in *.
  assert (Hk8 := stream_insert_kind d7 ["CMakeLists.txt"] "" cmake
                   ltac:(discriminate)
                   ltac:(apply kind_of_directory;
                         rewrite Hk7, Hk6, Hk5, Hk4, Hk3, Hk2, Hk1; exact Hr0)
                   ltac:(rewrite Hk7; reflexivity)).
  change ("" ++ cmake) with cmake in Hk8.
  intros q. rewrite Hk8, Hk7, Hk6, Hk5, Hk4, Hk3, Hk2, Hk1.
  destruct (path_eqb q ["CMakeLists.txt"]); [reflexivity|].
  destruct (path_eqb q ["src"; "main.cpp"]); [reflexivity|].
  destruct (path_eqb q ["TegenConfig.json"]); reflexivity.
Qed.

Lemma init_run (E : env) (w : world) :
  is_directory (fs w) [] = true ->
  lookup (fs w) configPath = None ->
  is_regular (kind_of (fs w) ["src"]) = false ->
  is_regular (kind_of (fs w) ["include"]) = false ->
  is_dir (kind_of (fs w) ["src"; "main.cpp"]) = false ->
  is_dir (kind_of (fs w) cmakeFile) = false ->
  exists w',
    init E w = Ret tt w' /\
    lookup (fs w') configPath = Some (File (dump E 4 (init_config (cin w)))) /\
    lookup (fs w') ["src"; "main.cpp"] = Some (File init_main_cpp) /\
    lookup (fs w') cmakeFile
    = Some (File (init_cmakelists (answer (nth 0 (cin w) "") "my-package")
                                  (answer (nth 1 (cin w) "") "1.0.0"))) /\
    is_directory (fs w') ["src"] = true /\
    is_directory (fs w') ["include"] = true /\
    cin w' = skipn 5 (cin w) /\ cerr w' = cerr w /\
    forall q,
      existsb (path_eqb q)
              [configPath; ["src"]; ["include"]; ["src"; "main.cpp"]; cmakeFile]
      = false ->
      kind_of (fs w') q = kind_of (fs w) q.
Proof.
  intros Hroot Hnone Hsrc Hinc Hmain Hcmake.
  assert (Hex := configExists_missing w Hnone).
  destruct (nth_hd_tl (cin w)) as [H0 [H1 [H2 [H3 [H4 H5]]]]].
  unfold init_config. rewrite <- H0, <- H1, <- H2, <- H3, <- H4, <- H5.
  clear H0 H1 H2 H3 H4 H5.
  set (name := answer (hd "" (cin w)) "my-package").
  set (version := answer (hd "" (tl (cin w))) "1.0.0").
  set (config := JObj _).
  destruct (init_writes (fs w) (dump E 4 config) init_main_cpp
              (init_cmakelists name version)
              Hroot Hnone Hsrc Hinc Hmain Hcmake)
    as [d3 [d4 [Hc3 [Hc4 Hk]]]].
  eexists {| fs := stream_insert
                     (ofstream_open
                        (stream_insert (ofstream_open d4 ["src"; "main.cpp"])
                                       ["src"; "main.cpp"] init_main_cpp)
                        cmakeFile)
                     cmakeFile (init_cmakelists name version);
             cin := tl (tl (tl (tl (tl (cin w)))));
             cout := _; cerr := cerr w |}.
  split; [|cbn [fs cin cout cerr]; repeat split].
  - unfold init.
    erewrite bind_Ret by exact Hex. cbv beta iota.
    unfold bind at 1. unfold print_out at 1.
    erewrite bind_Ret by apply prompt_run. cbn [fs cin cout cerr].
    erewrite bind_Ret by apply prompt_run. cbn [fs cin cout cerr].
    erewrite bind_Ret by apply prompt_run. cbn [fs cin cout cerr].
    erewrite bind_Ret by apply prompt_run. cbn [fs cin cout cerr].
    erewrite bind_Ret by apply prompt_run. cbn [fs cin cout cerr].
    fold name version. cbv zeta. fold config.
    unfold bind at 1. unfold saveConfig at 1. unfold fs_do at 1.
    unfold bind at 1. unfold print_out at 1.
    unfold bind at 1. unfold print_out at 1.
    erewrite bind_Ret by (apply fs_call_Ok; exact Hc3).
    erewrite bind_Ret by (apply fs_call_Ok; exact Hc4).
    unfold bind at 1. unfold fs_do at 1.
    unfold bind at 1. unfold fs_do at 1.
    unfold bind at 1. unfold fs_do at 1.
    unfold bind at 1. unfold fs_do at 1.
    unfold bind at 1. unfold print_out at 1.
    unfold print_out. reflexivity.
  - apply kind_of_regular. now rewrite Hk.
  - apply kind_of_regular. now rewrite Hk.
  - apply kind_of_regular. now rewrite Hk.
  - apply kind_of_directory. now rewrite Hk.
  - apply kind_of_directory. now rewrite Hk.
  - intros q Hq. cbn [existsb] in Hq.
    repeat (apply orb_false_elim in Hq; destruct Hq as [? Hq]).
    rewrite Hk.
    repeat match goal with H : path_eqb q _ = false |- _ => rewrite H; clear H end.
    reflexivity.
Qed.

(** X14: [init] in a directory without a manifest, where [src] and [include]
    are not regular files and neither [src/main.cpp] nor [CMakeLists.txt]
    is a directory.  Five lines of input are consumed, an empty or missing
    line standing for the default; the manifest holds the answers and an
    empty object of dependencies; [src] and [include] are directories;
    [src/main.cpp] and [CMakeLists.txt] hold the generated text, whatever
    they held before; nothing else on disk changes. *)
Theorem init_creates_the_project (E : env) (w : world) :
  is_directory (fs w) [] = true ->
  lookup (fs w) configPath = None ->
  is_regular (kind_of (fs w) ["src"]) = false ->
  is_regular (kind_of (fs w) ["include"]) = false ->
  is_dir (kind_of (fs w) ["src"; "main.cpp"]) = false ->
  is_dir (kind_of (fs w) cmakeFile) = false ->
  exists w',
    init E w = Ret tt w' /\
    lookup (fs w') configPath = Some (File (dump E 4 (init_config (cin w)))) /\
    lookup (fs w') ["src"; "main.cpp"] = Some (File init_main_cpp) /\
    lookup (fs w') cmakeFile
    = Some (File (init_cmakelists (answer (nth 0 (cin w) "") "my-package")
                                  (answer (nth 1 (cin w) "") "1.0.0"))) /\
    is_directory (fs w') ["src"] = true /\
    is_directory (fs w') ["include"] = true /\
    cin w' = skipn 5 (cin w) /\ cerr w' = cerr w /\
    forall q,
      existsb (path_eqb q)
              [configPath; ["src"]; ["include"]; ["src"; "main.cpp"]; cmakeFile]
      = false ->
      kind_of (fs w') q = kind_of (fs w) q.
Proof. apply init_run. Qed.

Lemma init_creates_the_project_witness :
  let E := Demo.linux Demo.removes_all in
  let w := {| fs := Dir [("CMakeLists.txt", File "project(old)");
                         ("notes.txt", File "keep")];
              cin := ["demo"; ""; "me"]; cout := []; cerr := [] |} in
  exists w',
    init E w = Ret tt w' /\
    lookup (fs w') configPath
    = Some (File (dump E 4 (JObj [("name", JStr "demo"); ("version", JStr "1.0.0");
                                  ("author", JStr "me"); ("license", JStr "MIT");
                                  ("description", JStr "A C++ project");
                                  ("dependencies", JObj [])]))) /\
    lookup (fs w') cmakeFile = Some (File (init_cmakelists "demo" "1.0.0")) /\
    cin w' = [] /\
    kind_of (fs w') ["notes.txt"] = Regular "keep".
Proof.
  cbv zeta.
  destruct (init_creates_the_project (Demo.linux Demo.removes_all)
              {| fs := Dir [("CMakeLists.txt", File "project(old)");
                            ("notes.txt", File "keep")];
                 cin := ["demo"; ""; "me"]; cout := []; cerr := [] |}
              eq_refl eq_refl eq_refl eq_refl eq_refl eq_refl)
    as [w' [Hrun [Hm [_ [Hc [_ [_ [Hin [_ Hframe]]]]]]]]].
  exists w'. split; [exact Hrun|]. split; [exact Hm|]. split; [exact Hc|].
  split; [exact Hin|]. now rewrite Hframe.
Defined.

(** X15: A second [init] does nothing: after an [init] that created the project
    the next one reads no input and leaves the disk as it is, so the
    generated files are never written again while the manifest is there. *)
Theorem init_is_not_repeated (E : env) (w : world) :
  is_directory (fs w) [] = true ->
  lookup (fs w) configPath = None ->
  is_regular (kind_of (fs w) ["src"]) = false ->
  is_regular (kind_of (fs w) ["include"]) = false ->
  is_dir (kind_of (fs w) ["src"; "main.cpp"]) = false ->
  is_dir (kind_of (fs w) cmakeFile) = false ->
  exists w1 w2,
    init E w = Ret tt w1 /\
    init E w1 = Ret tt w2 /\
    fs w2 = fs w1 /\ cin w2 = cin w1 /\ cerr w2 = cerr w1.
Proof.
  intros Hroot Hnone Hsrc Hinc Hmain Hcmake.
  destruct (init_run E w Hroot Hnone Hsrc Hinc Hmain Hcmake)
    as [w1 [Hrun [Hm _]]].
  exists w1. eexists. split; [exact Hrun|]. split.
  - unfold init. erewrite bind_Ret by (eapply configExists_run; exact Hm).
    cbv beta iota. reflexivity.
  - repeat split; reflexivity.
Qed.

Lemma init_is_not_repeated_witness :
  let E := Demo.linux Demo.removes_all in
  let w := {| fs := Dir []; cin := ["demo"; "2.0"; "me"; "BSD"; "a demo"; "other"];
              cout := []; cerr := [] |} in
  exists w1 w2,
    init E w = Ret tt w1 /\ init E w1 = Ret tt w2 /\
    fs w2 = fs w1 /\ cin w2 = ["other"].
Proof.
  cbv zeta.
  destruct (init_is_not_repeated (Demo.linux Demo.removes_all)
              {| fs := Dir [];
                 cin := ["demo"; "2.0"; "me"; "BSD"; "a demo"; "other"];
                 cout := []; cerr := [] |}
              eq_refl eq_refl eq_refl eq_refl eq_refl eq_refl)
    as [w1 [w2 [Hrun [Hrun2 [Hfs [Hin _]]]]]].
  exists w1, w2. split; [exact Hrun|]. split; [exact Hrun2|]. split; [exact Hfs|].
  rewrite Hin. vm_compute in Hrun. injection Hrun as <-. reflexivity.
Defined.

(* ================================================================== *)
(** ** The older revision: [install] through an archive *)

Section KeepsLegacy.

Variable E : env.
Variable y : string.
Hypothesis Hsys : system_keeps E y.
Hypothesis Hstaging : y <> "TegenModules".

Lemma keeps_ensure_directory p :
  keeps y (ensure_directory ("TegenModules" :: p)).
Proof.
  unfold ensure_directory.
  repeat first [apply keeps_create_directory; assumption | keeps_step].
Qed.

Lemma keeps_legacy_copy_headers sourceIncludeDir :
  keeps y (legacy_copy_headers sourceIncludeDir).
Proof.
  unfold legacy_copy_headers.
  repeat keeps_step. unfold legacy_copy_header.
  apply keeps_bind; [|intro]; apply keeps_fs_call; intros disk disk' q Hc;
    unfold legacy_includeDir, modulesDir in Hc; cbn [app] in Hc.
  - eapply lookup_create_parent_other; eauto.
  - eapply lookup_copy_file_other; eauto.
Qed.

Lemma keeps_legacy_copy_libs sourceLibDir :
  keeps y (legacy_copy_libs sourceLibDir).
Proof.
  unfold legacy_copy_libs.
  repeat keeps_step. unfold legacy_copy_lib.
  apply keeps_fs_call; intros disk disk' q Hc.
  unfold legacy_libDir, modulesDir in Hc; cbn [app] in Hc.
  eapply lookup_copy_file_other; eauto.
Qed.

Lemma keeps_legacy_fetch_and_copy repository resolved :
  keeps y (legacy_fetch_and_copy E repository resolved).
Proof.
  unfold legacy_fetch_and_copy.
  repeat first
    [ apply keeps_executeCommand; assumption
    | apply keeps_legacy_copy_headers
    | apply keeps_legacy_copy_libs
    | keeps_step ].
Qed.

Lemma keeps_remove_zip repository :
  keeps y (fs_call (fun fs => remove_path fs
                     (modulesDir ++ [(repository ++ ".zip")%string])%list)).
Proof.
  apply keeps_fs_call. intros disk disk' q Hc.
  unfold modulesDir in Hc; cbn [app] in Hc.
  eapply lookup_remove_path_other; eauto.
Qed.

Lemma keeps_install_legacy repository version :
  y <> "TegenConfig.json" ->
  keeps y (install_legacy E repository version).
Proof.
  intros Hne. unfold install_legacy, install_legacy_try, report_failure,
    legacy_includeDir, legacy_libDir, modulesDir.
  cbn [app].
  repeat first
    [ apply keeps_configExists
    | apply keeps_loadConfig
    | apply keeps_ensure_directory
    | apply keeps_legacy_fetch_and_copy
    | apply keeps_update_config; assumption
    | apply (keeps_remove_zip repository)
    | keeps_step ].
Qed.

End KeepsLegacy.

(** X19: The older [install] works inside [TegenModules] only: apart from the
    manifest, no entry of the project directory that the external commands
    leave alone is changed, so the project's own [include/], [lib/] and
    [CMakeLists.txt] are as before, whether the install succeeds or not. *)
Theorem legacy_install_is_confined (E : env) (y repository version : string) :
  system_keeps E y ->
  y <> "TegenModules" -> y <> "TegenConfig.json" ->
  forall w q,
    lookup (fs (after (install_legacy E repository version w))) (y :: q)
    = lookup (fs w) (y :: q).
Proof.
  intros Hsys H1 H2. now apply keeps_install_legacy.
Qed.

Lemma install_legacy_try_manifest (E : env) (config1 : json)
    (repository resolved : string) (w : world) (text : string) :
  system_keeps E configFileName ->
  lookup (fs w) configPath = Some (File text) ->
  match try_catch (install_legacy_try E config1 repository resolved ;; ret Installed)
                  (report_failure) w with
  | Ret Installed w' =>
      exists config',
        add_dependency config1 repository resolved = Ok config' /\
        lookup (fs w') configPath = Some (File (dump E 4 config'))
  | Ret (InstallFailed _) w' =>
      lookup (fs w') configPath = Some (File text) \/
      exists config',
        add_dependency config1 repository resolved = Ok config' /\
        lookup (fs w') configPath = Some (File (dump E 4 config'))
  | Ret _ w' | Exc _ w' => lookup (fs w') configPath = Some (File text)
  end.
Proof.
  intros Hsys Hfile.
  assert (Hk : keeps configFileName (legacy_fetch_and_copy E repository resolved))
    by (apply keeps_legacy_fetch_and_copy; [assumption | discriminate]).
  unfold try_catch.
  unfold bind at 1. unfold install_legacy_try.
  destruct (legacy_fetch_and_copy E repository resolved w) as [[] w1|e w1] eqn:Hint.
  - erewrite bind_Ret by exact Hint.
    assert (Hfile1 : lookup (fs w1) configPath = Some (File text))
      by (rewrite <- Hfile; eapply keeps_Ret; eauto).
    unfold update_config.
    destruct (add_dependency config1 repository resolved) as [config'|e] eqn:Hadd.
    + destruct (saveConfig_run E config' w1 text Hfile1) as [w2 [Hsave Hfile2]].
      erewrite bind_Ret;
        [|erewrite (bind_Ret (lift (Ok config'))) by reflexivity; exact Hsave].
      assert (Hz := keeps_remove_zip configFileName ltac:(discriminate) repository).
      destruct (fs_call (fun fs => remove_path fs
                  (modulesDir ++ [(repository ++ ".zip")%string])%list) w2)
        as [[] w3|e w3] eqn:Hrm.
      * erewrite bind_Ret by exact Hrm.
        unfold print_out, ret. exists config'. split; [reflexivity|]. cbn [fs].
        rewrite <- Hfile2. eapply keeps_Ret; eauto.
      * erewrite bind_Exc by exact Hrm.
        unfold report_failure, bind, print_err, ret. cbn [fs].
        right. exists config'. split; [reflexivity|].
        rewrite <- Hfile2. eapply keeps_Exc; eauto.
    + erewrite bind_Exc; [|erewrite bind_Exc by reflexivity; reflexivity].
      unfold report_failure, bind, print_err, ret. cbn [fs lift throw].
      left. exact Hfile1.
  - erewrite bind_Exc by exact Hint.
    unfold report_failure, bind, print_err, ret. cbn [fs].
    left. rewrite <- Hfile. eapply keeps_Exc; eauto.
Qed.

(** X20: The manifest through the older [install]: the default version is
    [main] on every platform, and the dependency is recorded before the
    archive is removed.  A run that reports success has recorded it; a run
    that reports a failure has left the manifest untouched or, when it is
    the removal of the archive that failed, has recorded it already; every
    other run leaves the manifest untouched. *)
Theorem legacy_install_manifest (E : env) (repository version : string)
    (w : world) (text : string) (config : json) :
  system_keeps E configFileName ->
  lookup (fs w) configPath = Some (File text) ->
  parse E text = Some config ->
  lists_dependency config repository = false ->
  match install_legacy E repository version w with
  | Ret Installed w' =>
      exists config',
        recorded config repository (resolvedVersion_legacy version) = Ok config' /\
        lookup (fs w') configPath = Some (File (dump E 4 config'))
  | Ret (InstallFailed _) w' =>
      lookup (fs w') configPath = Some (File text) \/
      exists config',
        recorded config repository (resolvedVersion_legacy version) = Ok config' /\
        lookup (fs w') configPath = Some (File (dump E 4 config'))
  | Ret _ w' | Exc _ w' => lookup (fs w') configPath = Some (File text)
  end.
Proof.
  intros Hsys Hfile Hparse Hnot.
  unfold install_legacy.
  erewrite bind_Ret by (eapply configExists_run; eauto). cbn [negb].
  erewrite bind_Ret by (eapply loadConfig_run; eauto).
  assert (Hen : forall p, keeps configFileName (ensure_directory ("TegenModules" :: p)))
    by (intros p; apply keeps_ensure_directory; discriminate).
  unfold legacy_includeDir, legacy_libDir, modulesDir at 1 2 3. cbn [app].
  unfold bind at 1.
  destruct (ensure_directory ["TegenModules"] w) as [[] w1|e w1] eqn:H1;
    [|rewrite <- Hfile; eapply keeps_Exc; [apply Hen|exact H1]].
  assert (Hf1 : lookup (fs w1) configPath = Some (File text))
    by (rewrite <- Hfile; eapply keeps_Ret; [apply Hen|exact H1]).
  unfold bind at 1.
  destruct (ensure_directory ["TegenModules"; "include"] w1) as [[] w2|e w2] eqn:H2;
    [|rewrite <- Hf1; eapply keeps_Exc; [apply Hen|exact H2]].
  assert (Hf2 : lookup (fs w2) configPath = Some (File text))
    by (rewrite <- Hf1; eapply keeps_Ret; [apply Hen|exact H2]).
  unfold bind at 1.
  destruct (ensure_directory ["TegenModules"; "lib"] w2) as [[] w3|e w3] eqn:H3;
    [|rewrite <- Hf2; eapply keeps_Exc; [apply Hen|exact H3]].
  assert (Hf3 : lookup (fs w3) configPath = Some (File text))
    by (rewrite <- Hf2; eapply keeps_Ret; [apply Hen|exact H3]).
  destruct (subscript config "dependencies") as [[deps config1]|e] eqn:Hsub;
    [|exact Hf3].
  cbn [lift]. unfold bind at 1. unfold ret at 1.
  rewrite (subscript_contains _ _ _ repository Hsub), Hnot.
  assert (Hg := install_legacy_try_manifest E config1 repository
                  (resolvedVersion_legacy version) w3 text Hsys Hf3).
  destruct (try_catch _ _ w3) as [[| | |e] w4|e w4]; auto.
  - destruct Hg as [config' [Hadd Hfile']].
    exists config'. split; [|exact Hfile'].
    unfold recorded. now rewrite Hsub.
  - destruct Hg as [Hg|[config' [Hadd Hfile']]]; [now left|].
    right. exists config'. split; [|exact Hfile'].
    unfold recorded. now rewrite Hsub.
Qed.

Lemma Demo_archives_keep y :
  y <> "TegenModules" -> system_keeps Demo.archives y.
Proof.
  intros Hne command disk q. cbn [system_ Demo.archives]. unfold Demo.archive_host.
  destruct (Demo.occurs "curl " command).
  - destruct (put disk _ _) as [disk'|] eqn:Hput; [|reflexivity].
    cbn [snd]. eapply lookup_put_other; eauto.
  - destruct (Demo.occurs "unzip " command); [|reflexivity].
    destruct (put disk _ _) as [disk'|] eqn:Hput; [|reflexivity].
    cbn [snd]. eapply lookup_put_other; eauto.
Qed.

Lemma legacy_install_is_confined_witness :
  lookup (fs (after (install_legacy Demo.archives "widgets" ""
                       (Demo.start Demo.project0))))
         ["CMakeLists.txt"]
  = Some (File Demo.cmake0) /\
  lookup (fs (after (install_legacy Demo.archives "widgets" ""
                       (Demo.start Demo.project0))))
         ["include"]
  = Some (Dir []).
Proof.
  split.
  - apply (legacy_install_is_confined Demo.archives "CMakeLists.txt" "widgets" "").
    + apply Demo_archives_keep. discriminate.
    + discriminate.
    + discriminate.
  - apply (legacy_install_is_confined Demo.archives "include" "widgets" "").
    + apply Demo_archives_keep. discriminate.
    + discriminate.
    + discriminate.
Defined.

Lemma legacy_install_manifest_witness :
  exists w' config',
    install_legacy Demo.archives "widgets" "" (Demo.start Demo.project0)
    = Ret Installed w' /\
    recorded Demo.manifest0 "widgets" "main" = Ok config' /\
    lookup (fs w') configPath = Some (File (Demo.render config')) /\
    lookup (fs w') ["TegenModules"; "include"; "gadgets.hpp"]
    = Some (File "#pragma once") /\
    lookup (fs w') ["TegenModules"; "lib"; "README"] = Some (File "gadgets") /\
    lookup (fs w') ["TegenModules"; "widgets.zip"] = None /\
    lookup (fs w') ["include"] = Some (Dir []).
Proof.
  assert (H := legacy_install_manifest Demo.archives "widgets" ""
                 (Demo.start Demo.project0) (Demo.render Demo.manifest0)
                 Demo.manifest0
                 (Demo_archives_keep configFileName ltac:(discriminate))
                 eq_refl eq_refl eq_refl).
  destruct (install_legacy Demo.archives "widgets" "" (Demo.start Demo.project0))
    as [[| | |e] w'|e w'] eqn:Hrun; try (vm_compute in Hrun; discriminate).
  destruct H as [config' [Hrec Hfile]].
  exists w', config'. split; [reflexivity|]. split; [exact Hrec|].
  split; [exact Hfile|].
  vm_compute in Hrun. injection Hrun as <-.
  repeat split; reflexivity.
Defined.

(* ================================================================== *)
(** ** Failures of the install pipeline *)

(** X16: A staged [lib/] whose chain of single entries ends in a regular file,
    as when [lib/] holds one library and nothing else: the descent goes
    into the file, the listing of it throws, and no library is copied. *)
Theorem lone_library_breaks_the_copy (repoDir : path) (w : world)
    (tree : node) (c : string) :
  lookup (fs w) (repoDir ++ ["lib"])%list = Some tree ->
  descend_node tree = File c ->
  exists e w',
    copy_libs repoDir w = Exc e w' /\
    fs w' = fs w /\ cerr w' = cerr w /\
    lookup (fs w) (locate_libDir (fs w) repoDir) = Some (File c).
Proof.
  intros Hlib Hend.
  assert (Hloc : lookup (fs w) (locate_libDir (fs w) repoDir) = Some (File c)).
  { unfold locate_libDir. rewrite Hlib. rewrite <- Hend.
    now apply descend_lookup. }
  unfold copy_libs, bind at 1, get_fs at 1.
  unfold exists_. rewrite Hloc.
  unfold bind at 1, print_out at 1.
  unfold libFiles, recursive_directory_iterator. cbn [fs]. rewrite Hloc.
  eexists. eexists. split; [reflexivity|]. repeat split.
Qed.

Lemma lone_library_breaks_the_copy_witness :
  let w := Demo.start (Dir [("lib", Dir []);
                            ("TegenModules", Dir [("single", Demo.single)])]) in
  exists e w',
    copy_libs ["TegenModules"; "single"] w = Exc e w' /\
    fs w' = fs w /\
    locate_libDir (fs w) ["TegenModules"; "single"]
    = ["TegenModules"; "single"; "lib"; "libsingle.a"].
Proof.
  cbv zeta.
  destruct (lone_library_breaks_the_copy ["TegenModules"; "single"]
              (Demo.start (Dir [("lib", Dir []);
                                ("TegenModules", Dir [("single", Demo.single)])]))
              (Dir [("libsingle.a", File "!<arch>single")]) "!<arch>single"
              eq_refl eq_refl)
    as [e [w' [Hrun [Hfs _]]]].
  exists e, w'. split; [exact Hrun|]. split; [exact Hfs|]. reflexivity.
Defined.

(** X17: Removing a folder that is not there: nothing happens, except on
    Windows, where the walk that makes the entries writable throws. *)
Theorem removal_of_a_missing_folder (E : env) (folder : path) (w : world) :
  lookup (fs w) folder = None ->
  match platform E with
  | Windows => exists e, removeFolderRecursively E folder w = Exc e w
  | _ => removeFolderRecursively E folder w = Ret tt w
  end.
Proof.
  intros Hnone. unfold removeFolderRecursively.
  destruct (platform E);
    unfold bind, get_fs, ret, recursive_directory_iterator; cbn [fs];
    rewrite ?Hnone; cbn [lift throw]; try reflexivity.
  unfold throw. eexists. reflexivity.
Qed.

Lemma removal_of_a_missing_folder_witness :
  removeFolderRecursively (Demo.linux Demo.removes_all) modulesDir
    (Demo.start Demo.project0)
  = Ret tt (Demo.start Demo.project0).
Proof.
  exact (removal_of_a_missing_folder (Demo.linux Demo.removes_all) modulesDir
           (Demo.start Demo.project0) eq_refl).
Defined.

Lemma bind_Exc_inv {A B} (m : M A) (k : A -> M B) w e w' :
  bind m k w = Exc e w' ->
  m w = Exc e w' \/ exists a w1, m w = Ret a w1 /\ k a w1 = Exc e w'.
Proof.
  unfold bind. destruct (m w) as [a w1|e1 w1]; intros H.
  - right. now exists a, w1.
  - left. now injection H as -> ->.
Qed.

Lemma staging_after_Ret {A} (m : M A) w a w' :
  keeps "TegenModules" m -> m w = Ret a w' ->
  is_directory (fs w) modulesDir = true ->
  is_directory (fs w') modulesDir = true.
Proof.
  intros Hk Hrun Hd. assert (H := keeps_staging m Hk w Hd). now rewrite Hrun in H.
Qed.

Lemma staging_after_Exc {A} (m : M A) w e w' :
  keeps "TegenModules" m -> m w = Exc e w' ->
  is_directory (fs w) modulesDir = true ->
  is_directory (fs w') modulesDir = true.
Proof.
  intros Hk Hrun Hd. assert (H := keeps_staging m Hk w Hd). now rewrite Hrun in H.
Qed.

Lemma install_try_failure_staging (E : env) (config : json)
    (repository resolved : string) (w : world) e w' :
  staging_stays E ->
  is_directory (fs w) modulesDir = true ->
  (install_try E config repository resolved ;; ret Installed) w = Exc e w' ->
  is_directory (fs w') modulesDir = true.
Proof.
  intros Hstay Hd H.
  apply bind_Exc_inv in H as [H|[[] [w1 [_ H]]]]; [|discriminate].
  unfold install_try in H.
  assert (Hint := integrate_staging E repository resolved Hstay w Hd).
  apply bind_Exc_inv in H as [H|[[] [w1 [H1 H]]]];
    [now rewrite H in Hint|].
  rewrite H1 in Hint. cbn [after] in Hint.
  assert (Hku : keeps "TegenModules" (update_config E config repository resolved))
    by (apply keeps_update_config; discriminate).
  apply bind_Exc_inv in H as [H|[[] [w2 [H2 H]]]];
    [eapply staging_after_Exc; eauto|].
  assert (Hd2 : is_directory (fs w2) modulesDir = true)
    by (eapply staging_after_Ret; eauto).
  apply bind_Exc_inv in H as [H|[[] [w3 [_ H]]]]; [|discriminate].
  destruct (removeFolderRecursively_returns E modulesDir w2 (fun _ => Hd2))
    as [w3 [Hrm _]].
  unfold clean_up in H. erewrite bind_Ret in H by exact Hrm. discriminate.
Qed.

(** X18: An install that reports a failure has not cleaned up: when the
    external commands do not remove it, the staging directory
    [TegenModules] is still there afterwards, with whatever was fetched. *)
Theorem failed_install_leaves_the_staging_directory (E : env)
    (repository version : string) (w w' : world) (e : exn) :
  staging_stays E ->
  install E repository version w = Ret (InstallFailed e) w' ->
  is_directory (fs w') modulesDir = true.
Proof.
  intros Hstay H. unfold install in H.
  apply bind_Ret_inv in H as [ok [w0 [Hex H]]].
  apply configExists_world in Hex. subst w0.
  destruct ok; cbn [negb] in H; [|discriminate].
  apply bind_Ret_inv in H as [config [w0 [Hload H]]].
  apply loadConfig_world in Hload. subst w0.
  apply bind_Ret_inv in H as [[] [w1 [H1 H]]].
  apply bind_Ret_inv in H as [[] [w2 [H2 H]]].
  apply bind_Ret_inv in H as [[] [w3 [H3 H]]].
  assert (Hd1 : is_directory (fs w1) modulesDir = true)
    by (eapply create_top_is_directory; exact H1).
  assert (Hd2 : is_directory (fs w2) modulesDir = true)
    by (eapply staging_after_Ret; [|exact H2|exact Hd1];
        apply keeps_create_top; discriminate).
  assert (Hd3 : is_directory (fs w3) modulesDir = true)
    by (eapply staging_after_Ret; [|exact H3|exact Hd2];
        apply keeps_create_top; discriminate).
  apply bind_Ret_inv in H as [[deps config1] [w4 [Hsub H]]].
  apply lift_world in Hsub as [_ ->].
  destruct (contains deps repository).
  - apply bind_Ret_inv in H as [v [w5 [_ H]]].
    apply bind_Ret_inv in H as [[] [w6 [_ H]]]. discriminate.
  - unfold install_guarded, try_catch in H.
    destruct ((install_try E config1 repository (resolvedVersion E version) ;;
               ret Installed) w3) as [a w5|e5 w5] eqn:Hin.
    + apply bind_Ret_inv in Hin as [[] [w6 [_ Hin]]].
      unfold ret in Hin. congruence.
    + assert (Hd5 := install_try_failure_staging E config1 repository _ w3 e5 w5
                       Hstay Hd3 Hin).
      unfold report_failure, bind, print_err, ret in H.
      injection H as _ <-. exact Hd5.
Qed.

Lemma failed_install_leaves_the_staging_directory_witness :
  exists e w',
    install (Demo.offline Demo.removes_all) "widgets" "" (Demo.start Demo.project0)
    = Ret (InstallFailed e) w' /\
    is_directory (fs w') modulesDir = true.
Proof.
  eexists. eexists.
  assert (Hrun : install (Demo.offline Demo.removes_all) "widgets" ""
                   (Demo.start Demo.project0)
                 = Ret (InstallFailed _) _) by (vm_compute; reflexivity).
  split; [exact Hrun|].
  apply (failed_install_leaves_the_staging_directory
           (Demo.offline Demo.removes_all) "widgets" "" _ _ _
           (fun command disk H => H) Hrun).
Defined.

(* ================================================================== *)
(** ** [run] without a project name, and the older [run] *)

(** X9: [run] on a manifest that does not hold the project name as a string:
    the JSON library throws on the access, nothing is started or printed
    on the output stream, and the exit status is 1. *)
Theorem run_without_a_name_exits_one (E : env) (prog text : string)
    (ms : list (string * json)) (w : world) :
  lookup (fs w) configPath = Some (File text) ->
  parse E text = Some (JObj ms) ->
  (forall name, find_member "name" ms <> Some (JStr name)) ->
  exists w',
    main E [prog; "run"] w = Ret 1%Z w' /\
    fs w' = fs w /\ cin w' = cin w /\ cout w' = cout w.
Proof.
  intros Hfile Hparse Hname.
  destruct (main_of_command E prog w) as [_ [_ [-> _]]].
  unfold run.
  erewrite bind_Ret by (eapply configExists_run; exact Hfile). cbn [negb].
  erewrite bind_Ret by (eapply loadConfig_run; eassumption).
  unfold bind at 1. unfold subscript.
  destruct (find_member "name" ms) as [[| | |s| |]|] eqn:Hn;
    try (exfalso; exact (Hname s eq_refl));
    unfold lift at 1, ret at 1; cbn [fst]; unfold bind at 1;
    unfold get_string, lift at 1, throw at 1;
    eexists; (split; [reflexivity|]); repeat split; reflexivity.
Qed.

Lemma run_without_a_name_exits_one_witness :
  let E := {| platform := Linux; projectDir := "/home/dev/demo";
              parse := Demo.parse_known [JObj [("dependencies", JObj [])]];
              dump := fun _ => Demo.render;
              system_ := fun _ disk => (0%Z, disk);
              remove_all_residue := Demo.removes_all |} in
  let text := Demo.render (JObj [("dependencies", JObj [])]) in
  parse E text = Some (JObj [("dependencies", JObj [])]) /\
  exists w',
    main E ["tegen"; "run"] (Demo.start (Dir [("TegenConfig.json", File text)]))
    = Ret 1%Z w' /\
    fs w' = Dir [("TegenConfig.json", File text)].
Proof.
  cbv zeta. split; [reflexivity|].
  destruct (run_without_a_name_exits_one
              {| platform := Linux; projectDir := "/home/dev/demo";
                 parse := Demo.parse_known [JObj [("dependencies", JObj [])]];
                 dump := fun _ => Demo.render;
                 system_ := fun _ disk => (0%Z, disk);
                 remove_all_residue := Demo.removes_all |}
              "tegen" (Demo.render (JObj [("dependencies", JObj [])]))
              [("dependencies", JObj [])]
              (Demo.start (Dir [("TegenConfig.json",
                                 File (Demo.render (JObj [("dependencies", JObj [])])))]))
              eq_refl eq_refl ltac:(intros name H; discriminate H))
    as [w' [Hrun [Hfs _]]].
  exists w'. split; [exact Hrun | exact Hfs].
Defined.

(** X21: The older [run] starts [./build/<name>] without looking for it, and a
    status other than 0 of the program is an exception, where the newer
    [run] only prints a message. *)
Theorem legacy_run_throws_on_failure (E : env) (text name : string)
    (config : json) (w : world) :
  lookup (fs w) configPath = Some (File text) ->
  parse E text = Some config ->
  member config "name" = Some (JStr name) ->
  let started := system_ E ("./build/" ++ name) (fs w) in
  exists w',
    fs w' = snd started /\ cin w' = cin w /\ cerr w' = cerr w /\
    run_legacy E w
    = if (fst started =? 0)%Z then Ret tt w'
      else Exc (runtime_error ("Command failed: ./build/" ++ name)) w'.
Proof.
  intros Hfile Hparse Hname started.
  unfold run_legacy.
  erewrite bind_Ret by (eapply configExists_run; exact Hfile). cbn [negb].
  erewrite bind_Ret by (eapply loadConfig_run; eassumption).
  destruct config as [| | | | |ms]; try discriminate.
  cbn [member] in Hname.
  unfold bind at 1. unfold subscript. rewrite Hname. unfold lift at 1, ret at 1.
  cbn [fst]. unfold bind at 1. unfold get_string, lift at 1, ret at 1.
  unfold bind at 1. unfold print_out at 1.
  rewrite executeCommand_run. cbn [fs]. fold started.
  eexists. split; [|split; [|split]]; cycle 3.
  - destruct (fst started =? 0)%Z; reflexivity.
  - reflexivity.
  - reflexivity.
  - reflexivity.
Qed.

Lemma legacy_run_throws_on_failure_witness :
  exists e w',
    run_legacy (Demo.offline Demo.removes_all)
      (Demo.start (Dir [("TegenConfig.json", File (Demo.render Demo.manifest0))]))
    = Exc e w' /\
    what e = "Command failed: ./build/demo".
Proof.
  destruct (legacy_run_throws_on_failure (Demo.offline Demo.removes_all)
              (Demo.render Demo.manifest0) "demo" Demo.manifest0
              (Demo.start (Dir [("TegenConfig.json",
                                 File (Demo.render Demo.manifest0))]))
              eq_refl eq_refl eq_refl)
    as [w' [_ [_ [_ Hrun]]]].
  eexists. exists w'. split; [exact Hrun | reflexivity].
Defined.

(* ================================================================== *)
(** ** What the removal leaves *)

Lemma find_entry_remove_entry_same x es :
  NoDup (map fst es) -> find_entry x (remove_entry x es) = None.
Proof.
  induction es as [|[k v] es IH]; intros Hnd; [reflexivity|].
  cbn [map fst] in Hnd. inversion Hnd as [|? ? Hnotin Hnd']; subst.
  cbn [remove_entry]. destruct (String.eqb_spec k x) as [->|Hne].
  - destruct (find_entry x es) as [n|] eqn:Hf; [|reflexivity].
    exfalso. apply Hnotin. eapply find_entry_In; eauto.
  - cbn [find_entry]. destruct (String.eqb_spec k x); [contradiction|]. auto.
Qed.

(** X22: the removal of an entry [x] of the project directory (the staging
    folder, after an install), where no two entries have the same name and,
    on Windows, [x] is a directory.  The removal returns; when [remove_all]
    succeeds [x] is gone and nothing is reported; when it fails, what it
    left is still there and one line goes to the error stream; in both
    cases every other entry is as it was. *)
Theorem removal_outcome (E : env) (x : string) (w : world) (es : entries)
    (tree : node) :
  fs w = Dir es ->
  NoDup (map fst es) ->
  find_entry x es = Some tree ->
  (platform E = Windows -> exists sub, tree = Dir sub) ->
  exists w',
    removeFolderRecursively E [x] w = Ret tt w' /\
    cin w' = cin w /\ cout w' = cout w /\
    (forall y q, y <> x -> lookup (fs w') (y :: q) = lookup (fs w) (y :: q)) /\
    match remove_all_residue E tree with
    | None => lookup (fs w') [x] = None /\ cerr w' = cerr w
    | Some (rest, message) =>
        lookup (fs w') [x] = Some rest /\
        exists line, cerr w' = (cerr w ++ [line])%list
    end.
Proof.
  intros Hfs Hnd Hx Hwin.
  assert (Hl : lookup (fs w) [x] = Some tree)
    by (rewrite Hfs; cbn [lookup]; now rewrite Hx).
  assert (Hfirst :
    match platform E with
    | Windows =>
        fs <- get_fs ;;
        _ <- lift (recursive_directory_iterator fs [x]) ;;
        ret tt
    | _ => ret tt
    end w = Ret tt w).
  { destruct (platform E); try reflexivity.
    destruct (Hwin eq_refl) as [sub ->].
    unfold bind, get_fs, recursive_directory_iterator. now rewrite Hl. }
  assert (Hrun : removeFolderRecursively E [x] w
                 = match remove_all_residue E tree with
                   | None => fs_do (fun fs => delete fs [x]) w
                   | Some (rest, message) =>
                       (fs_do (fun fs => match put fs [x] rest with
                                         | Some fs' => fs'
                                         | None => fs
                                         end) ;;
                        print_err ("Warning: Failed to completely remove "
                                   ++ path_string E [x] ++ ": " ++ message)) w
                   end).
  { unfold removeFolderRecursively.
    erewrite bind_Ret by exact Hfirst.
    unfold bind at 1. unfold get_fs at 1. rewrite Hl.
    destruct (remove_all_residue E tree) as [[rest message]|]; reflexivity. }
  assert (Hframe : forall w', removeFolderRecursively E [x] w = Ret tt w' ->
            forall y q, y <> x ->
                        lookup (fs w') (y :: q) = lookup (fs w) (y :: q)).
  { intros w' Hr y q Hy. eapply keeps_Ret; [|exact Hr].
    now apply keeps_removeFolderRecursively. }
  rewrite Hrun in *.
  destruct (remove_all_residue E tree) as [[rest message]|].
  - eexists. split; [reflexivity|].
    split; [reflexivity|]. split; [reflexivity|].
    split; [apply Hframe; reflexivity|].
    cbn [fs with_fs]. rewrite Hfs. cbn [put lookup].
    rewrite find_entry_set_entry_same. split; [reflexivity|].
    eexists. reflexivity.
  - eexists. split; [reflexivity|].
    split; [reflexivity|]. split; [reflexivity|].
    split; [apply Hframe; reflexivity|].
    cbn [fs with_fs]. rewrite Hfs. cbn [delete lookup].
    rewrite find_entry_remove_entry_same by assumption.
    split; reflexivity.
Qed.

Lemma removal_outcome_witness :
  let E := Demo.linux Demo.removes_nothing in
  exists w',
    removeFolderRecursively E modulesDir (Demo.start Demo.staged) = Ret tt w' /\
    lookup (fs w') modulesDir = lookup Demo.staged modulesDir /\
    lookup (fs w') ["lib"] = lookup Demo.staged ["lib"] /\
    length (cerr w') = 1%nat.
Proof.
  cbv zeta.
  destruct (removal_outcome (Demo.linux Demo.removes_nothing) "TegenModules"
              (Demo.start Demo.staged)
              [("TegenConfig.json", File (Demo.render Demo.manifest0));
               ("CMakeLists.txt", File Demo.cmake0);
               ("include", Dir [("widgets.hpp", File "// old");
                                ("mine.hpp", File "// mine")]);
               ("lib", Dir [("libwidgets.a", File "!<arch>old");
                            ("libmine.a", File "!<arch>mine")]);
               ("TegenModules", Dir [("widgets", Demo.widgets); ("bare", Demo.bare)])]
              (Dir [("widgets", Demo.widgets); ("bare", Demo.bare)])
              eq_refl)
    as [w' [Hrun [_ [_ [Hframe Hres]]]]].
  - repeat constructor; cbn; intuition discriminate.
  - reflexivity.
  - discriminate.
  - cbn in Hres. destruct Hres as [Hx [line Herr]].
    exists w'. split; [exact Hrun|]. split; [exact Hx|].
    split; [apply Hframe; discriminate|].
    rewrite Herr. reflexivity.
Defined.
